(** * nuist_selectbeds: the dormitory bed selection pipeline of [main.py]

    A shallow embedding of the four stages of [main.py]
    ([get_personal_info], [get_selection_params], [get_and_display_rooms],
    [select_bed]) and the properties of the natural-language specification
    that were checked against them.

    Conventions of the embedding:
    - a Python [str] is the list of its Unicode code points;
    - a decoded JSON document is a [value]; [dict.get], iteration and
      truthiness are the Python ones, with the [AttributeError] and
      [TypeError] they raise on values of the wrong type;
    - the HTTP session, the console and the operator are an explicit
      [world]: the replies the server will give (in order), the requests
      issued so far and the lines printed so far;
    - an exception that a function does not catch leaves it as [Err]. *)

From Stdlib Require Import List NArith ZArith Bool Lia String Ascii.
From Stdlib Require QArith_base.
Import ListNotations.

Set Implicit Arguments.
Set Warnings "-register-all".

(** ** Python strings *)

Definition pystr := list N.

(** An ASCII literal of the source as a Python string. *)
Definition lit (s : string) : pystr :=
  map N_of_ascii (list_ascii_of_string s).

Fixpoint str_eqb (a b : pystr) : bool :=
  match a, b with
  | [], [] => true
  | x :: a', y :: b' => N.eqb x y && str_eqb a' b'
  | _, _ => false
  end.

(** [str.isspace] for one character; also the class [\s] of [re] on
    [str] patterns. *)
Definition is_space (c : N) : bool :=
  ((9 <=? c) && (c <=? 13) || (28 <=? c) && (c <=? 32)
   || (c =? 133) || (c =? 160) || (c =? 5760)
   || (8192 <=? c) && (c <=? 8202)
   || (c =? 8232) || (c =? 8233) || (c =? 8239) || (c =? 8287)
   || (c =? 12288))%N.

Fixpoint lstrip (s : pystr) : pystr :=
  match s with
  | c :: r => if is_space c then lstrip r else s
  | [] => []
  end.

Definition rstrip (s : pystr) : pystr := rev (lstrip (rev s)).

(** [s.strip()] *)
Definition strip (s : pystr) : pystr := rstrip (lstrip s).

Fixpoint starts_with (p s : pystr) : bool :=
  match p, s with
  | [], _ => true
  | x :: p', y :: s' => N.eqb x y && starts_with p' s'
  | _ :: _, [] => false
  end.

(** [s.replace(old, '')] for a non-empty [old]: occurrences are found left
    to right and do not overlap.  [skip] counts the characters of the
    occurrence being dropped. *)
Fixpoint remove_from (old : pystr) (skip : nat) (s : pystr) : pystr :=
  match s with
  | [] => []
  | c :: r =>
      match skip with
      | S k => remove_from old k r
      | O => if starts_with old s
             then remove_from old (List.length old - 1) r
             else c :: remove_from old 0 r
      end
  end.

Definition remove_all (old s : pystr) : pystr := remove_from old 0 s.

(** The only way [s.lower()] equals ['y'] is [s] being ['y'] or ['Y']: no
    other character has ['y'] as its lowercase mapping. *)
Definition lower_is_y (s : pystr) : bool :=
  str_eqb s [121%N] || str_eqb s [89%N].

(** Literals of the source. *)
Definition s_notCho : pystr := lit "notCho".
Definition s_success : pystr := lit "success".
Definition s_college_label : pystr := [23398; 38498; 65306]%N.  (* '学院：' *)
Definition s_unknown_error : pystr := [26410; 30693; 38169; 35823]%N. (* '未知错误' *)
Definition s_unknown_floor : pystr := [26410; 30693; 27004; 23618]%N. (* '未知楼层' *)
Definition s_unknown_room : pystr := [26410; 30693; 25151; 38388]%N. (* '未知房间' *)

(** ** Decoded JSON values *)

Inductive value : Type :=
| VNone
| VBool (b : bool)
| VNum (q : QArith_base.Q)
| VStr (s : pystr)
| VList (l : list value)
| VDict (d : list (pystr * value)).

Definition dict := list (pystr * value).

(** Exceptions the stages can meet.  [response.json()] raises
    [json.JSONDecodeError]; since requests 2.27 the class it raises is also
    a [RequestException], which the flag records. *)
Inductive exn : Type :=
| RequestException
| JSONDecodeError (via_requests : bool)
| AttributeError
| TypeError
| IndexError.

Definition is_RequestException (e : exn) : bool :=
  match e with
  | RequestException => true
  | JSONDecodeError b => b
  | _ => false
  end.

Definition is_JSONDecodeError (e : exn) : bool :=
  match e with JSONDecodeError _ => true | _ => false end.

Inductive result (A : Type) : Type :=
| Ok (a : A)
| Err (e : exn).
Arguments Ok {A} a.
Arguments Err {A} e.

Fixpoint assoc (k : pystr) (d : dict) : option value :=
  match d with
  | [] => None
  | (k', v) :: d' => if str_eqb k' k then Some v else assoc k d'
  end.

(** [d.get(k, default)] on a dictionary. *)
Definition dget (d : dict) (k : string) (default : value) : value :=
  match assoc (lit k) d with Some v => v | None => default end.

(** [v.get(k, default)]: only a dictionary has [get]. *)
Definition py_get (v : value) (k : string) (default : value) : result value :=
  match v with
  | VDict d => Ok (dget d k default)
  | _ => Err AttributeError
  end.

(** The items a [for] loop (or [list.extend]) draws from [v]. *)
Definition py_iter (v : value) : result (list value) :=
  match v with
  | VList l => Ok l
  | VDict d => Ok (map (fun kv => VStr (fst kv)) d)
  | VStr s => Ok (map (fun c => VStr [c]) s)
  | _ => Err TypeError
  end.

(** Truth value of [v] in a condition. *)
Definition truthy (v : value) : bool :=
  match v with
  | VNone => false
  | VBool b => b
  | VNum q => negb (Z.eqb (QArith_base.Qnum q) 0)
  | VStr s => match s with [] => false | _ => true end
  | VList l => match l with [] => false | _ => true end
  | VDict d => match d with [] => false | _ => true end
  end.

(** [v == s] for a string [s]. *)
Definition py_eq_str (v : value) (s : pystr) : bool :=
  match v with
  | VStr t => str_eqb t s
  | _ => false
  end.

(** ** The world: session, console *)

(** The result of [response.json()]. *)
Inductive json_result : Type :=
| JsonValue (v : value)
| JsonInvalid (via_requests : bool).

Record response : Type := {
  status_ok : bool;        (* [raise_for_status] does not raise *)
  text : pystr;            (* [response.text] *)
  json : json_result       (* [response.json()] *)
}.

Inductive reply : Type :=
| ConnectionError
| Response (r : response).

(** The form data of the reservation request. *)
Record post_data : Type := {
  roomId : value;
  bedId : value;
  floorId : value;
  token : pystr;
  buildingId : pystr;
  studentName : pystr;
  deptName : pystr;
  subId : pystr
}.

Inductive request : Type :=
| GetPersonalInfo
| GetSelectBeds (student_name dept_name : pystr)
| PostFloorShow (building_id sub_id : pystr) (floor_id : option value)
| PostSaveChosen (data : post_data).

Inductive msg : Type :=
(* get_personal_info *)
| MStep1 | MNoPersonalInfo | MPersonalOk (name college : pystr)
| MPersonalNetworkError | MPersonalParseError
(* get_selection_params *)
| MStep2 | MNoToken | MNoIds | MParamsOk (token sub_id building_id : pystr)
| MParamsNetworkError | MParamsParseError
(* get_and_display_rooms *)
| MStep3 | MApiError (message : value) | MNoFloors
| MFloorHeader (floor_no : value) | MNoRooms | MListHeader
| MRoom (floor_name room_name : value) | MBed (bed_name price : value)
| MAllFull | MListFooter | MRoomsNetworkError | MRoomsBadJson
(* select_bed *)
| MStep4 | MNotFound | MConfirmHeader
| MConfirmRoom (name : pystr) (id : value)
| MConfirmBed (name : pystr) (id : value)
| MPostData (data : post_data) | MCancelled | MSubmitting
| MSuccess (data : value) | MFailed (message : value)
| MSubmitNetworkError | MSubmitBadJson | MUnknownError (e : exn).

Record world : Type := {
  pending : list reply;    (* what the server answers, call after call *)
  sent : list request;     (* the calls issued, oldest first *)
  console : list msg       (* the lines printed, oldest first *)
}.

(** ** A state and exception monad *)

Definition M (A : Type) : Type := world -> result A * world.

Definition ret {A} (a : A) : M A := fun w => (Ok a, w).

Definition raise {A} (e : exn) : M A := fun w => (Err e, w).

Definition bind {A B} (c : M A) (k : A -> M B) : M B :=
  fun w =>
    match c w with
    | (Ok a, w') => k a w'
    | (Err e, w') => (Err e, w')
    end.

Definition lift {A} (r : result A) : M A :=
  match r with Ok a => ret a | Err e => raise e end.

(** [try: body except ...]: [handler e] is the clause that matches [e],
    if any. *)
Definition try {A} (body : M A) (handler : exn -> option (M A)) : M A :=
  fun w =>
    match body w with
    | (Ok a, w') => (Ok a, w')
    | (Err e, w') =>
        match handler e with
        | Some h => h w'
        | None => (Err e, w')
        end
    end.

Declare Scope py_scope.
Delimit Scope py_scope with py.
Notation "x <- c ;; k" := (bind c (fun x => k))
  (at level 61, c at next level, right associativity) : py_scope.
Notation "c ;;; k" := (bind c (fun _ => k))
  (at level 61, right associativity) : py_scope.
Local Open Scope py_scope.

Definition print (m : msg) : M unit :=
  fun w => (Ok tt, {| pending := pending w; sent := sent w;
                      console := console w ++ [m] |}).

(** One call through the session.  A call with no reply left fails like a
    broken connection. *)
Definition session_call (req : request) : M response :=
  fun w =>
    match pending w with
    | Response r :: rest =>
        (Ok r, {| pending := rest; sent := sent w ++ [req];
                  console := console w |})
    | ConnectionError :: rest =>
        (Err RequestException,
         {| pending := rest; sent := sent w ++ [req]; console := console w |})
    | [] =>
        (Err RequestException,
         {| pending := []; sent := sent w ++ [req]; console := console w |})
    end.

Definition raise_for_status (r : response) : M unit :=
  if status_ok r then ret tt else raise RequestException.

(** [log_request] writes to the log file only. *)
Definition log_request (r : response) : M unit := ret tt.

Definition response_json (r : response) : M value :=
  match json r with
  | JsonValue v => ret v
  | JsonInvalid b => raise (JSONDecodeError b)
  end.

(** ** Stage 3: [get_and_display_rooms] *)

(** The loop over [floor_select_list]: one request per floor, the floor
    records of each answer appended to [all_rooms_data]. *)
Fixpoint fetch_floors (building_id sub_id : pystr)
    (floor_select_list : list value) (all_rooms_data : list value)
    : M (list value) :=
  match floor_select_list with
  | [] => ret all_rooms_data
  | floor_sel :: rest =>
      floor_id <- lift (py_get floor_sel "floorId" VNone) ;;
      floor_no <- lift (py_get floor_sel "no" (VStr s_unknown_floor)) ;;
      print (MFloorHeader floor_no) ;;;
      floor_resp <- session_call
                      (PostFloorShow building_id sub_id (Some floor_id)) ;;
      raise_for_status floor_resp ;;;
      log_request floor_resp ;;;
      body <- response_json floor_resp ;;
      data <- lift (py_get body "data" (VDict [])) ;;
      floor_data <- lift (py_get data "floor" (VList [])) ;;
      if truthy floor_data then
        items <- lift (py_iter floor_data) ;;
        fetch_floors building_id sub_id rest (all_rooms_data ++ items)
      else
        fetch_floors building_id sub_id rest all_rooms_data
  end.

(** [bed.get('choose') == 'notCho'] *)
Definition bed_is_free (bed : dict) : bool :=
  py_eq_str (dget bed "choose" VNone) s_notCho.

(** The loop over the beds of a room: name and price of each free bed. *)
Fixpoint available_beds (beds : list value)
    (available_beds_in_room : list (value * value))
    : result (list (value * value)) :=
  match beds with
  | [] => Ok available_beds_in_room
  | bed :: rest =>
      match bed with
      | VDict b =>
          if bed_is_free b then
            available_beds rest
              (available_beds_in_room
                 ++ [(dget b "name" VNone, dget b "bedPrice" VNone)])
          else available_beds rest available_beds_in_room
      | _ => Err AttributeError
      end
  end.

Fixpoint print_beds (infos : list (value * value)) : M unit :=
  match infos with
  | [] => ret tt
  | (bed_name, price) :: rest => print (MBed bed_name price) ;;; print_beds rest
  end.

(** The loop over the rooms of a floor; the result is
    [available_beds_found]. *)
Fixpoint display_rooms (floor_name : value) (rooms : list value)
    (available_beds_found : bool) : M bool :=
  match rooms with
  | [] => ret available_beds_found
  | room :: rest =>
      room_name <- lift (py_get room "name" (VStr s_unknown_room)) ;;
      bed <- lift (py_get room "bed" (VList [])) ;;
      beds <- lift (py_iter bed) ;;
      available_beds_in_room <- lift (available_beds beds []) ;;
      match available_beds_in_room with
      | [] => display_rooms floor_name rest available_beds_found
      | _ :: _ =>
          print (MRoom floor_name room_name) ;;;
          print_beds available_beds_in_room ;;;
          display_rooms floor_name rest true
      end
  end.

(** The loop over [all_rooms_data]. *)
Fixpoint display_floors (all_rooms_data : list value)
    (available_beds_found : bool) : M bool :=
  match all_rooms_data with
  | [] => ret available_beds_found
  | floor :: rest =>
      floor_name <- lift (py_get floor "no" (VStr s_unknown_floor)) ;;
      room <- lift (py_get floor "room" (VList [])) ;;
      rooms <- lift (py_iter room) ;;
      found <- display_rooms floor_name rooms available_beds_found ;;
      display_floors rest found
  end.

(** The [except] clauses of [get_and_display_rooms], in their order. *)
Definition rooms_handler (e : exn) : option (M (option (list value))) :=
  if is_RequestException e
  then Some (print MRoomsNetworkError ;;; ret None)
  else if is_JSONDecodeError e
  then Some (print MRoomsBadJson ;;; ret None)
  else None.

(** The [try] block of [get_and_display_rooms]. *)
Definition rooms_body (building_id sub_id : pystr)
    : M (option (list value)) :=
  print MStep3 ;;;
  response <- session_call (PostFloorShow building_id sub_id None) ;;
  raise_for_status response ;;;
  log_request response ;;;
  data <- response_json response ;;
  status <- lift (py_get data "status" VNone) ;;
  if negb (py_eq_str status s_success) then
    message <- lift (py_get data "message" (VStr s_unknown_error)) ;;
    print (MApiError message) ;;;
    ret None
  else
    inner <- lift (py_get data "data" (VDict [])) ;;
    floor_select_list <- lift (py_get inner "floorSelect" (VList [])) ;;
    if negb (truthy floor_select_list) then
      print MNoFloors ;;; ret None
    else
      floor_sels <- lift (py_iter floor_select_list) ;;
      all_rooms_data <- fetch_floors building_id sub_id floor_sels [] ;;
      match all_rooms_data with
      | [] => print MNoRooms ;;; ret None
      | _ :: _ =>
          print MListHeader ;;;
          available_beds_found <- display_floors all_rooms_data false ;;
          if negb available_beds_found then
            print MAllFull ;;; ret None
          else
            print MListFooter ;;; ret (Some all_rooms_data)
      end.

(** [get_and_display_rooms(session, building_id, sub_id)]: [None] or
    [all_rooms_data]. *)
Definition get_and_display_rooms (building_id sub_id : pystr)
    : M (option (list value)) :=
  try (rooms_body building_id sub_id) rooms_handler.

(** ** Stage 4: [select_bed] *)

(** [target_room_id], [target_bed_id], [target_floor_id]. *)
Record targets : Type := {
  target_room_id : value;
  target_bed_id : value;
  target_floor_id : value
}.

Definition no_targets : targets :=
  {| target_room_id := VNone; target_bed_id := VNone;
     target_floor_id := VNone |}.

(** [bed.get('name') == target_bed_name and bed.get('choose') == 'notCho'] *)
Definition bed_matches (target_bed_name : pystr) (bed : dict) : bool :=
  py_eq_str (dget bed "name" VNone) target_bed_name && bed_is_free bed.

Definition targets_of (room bed : dict) : targets :=
  {| target_room_id := dget room "id" VNone;
     target_bed_id := dget bed "id" VNone;
     target_floor_id := dget room "floorId" VNone |}.

(** The loop over the beds of a room whose name matched; it stops at the
    first bed that matches. *)
Fixpoint scan_beds (room : dict) (target_bed_name : pystr)
    (beds : list value) (t : targets) : result targets :=
  match beds with
  | [] => Ok t
  | bed :: rest =>
      match bed with
      | VDict b =>
          if bed_matches target_bed_name b
          then Ok (targets_of room b)
          else scan_beds room target_bed_name rest t
      | _ => Err AttributeError
      end
  end.

(** The loop over the rooms of a floor; it stops after a room whose name
    matched once [target_bed_id] is truthy. *)
Fixpoint scan_rooms (target_room_name target_bed_name : pystr)
    (rooms : list value) (t : targets) : result targets :=
  match rooms with
  | [] => Ok t
  | room :: rest =>
      match room with
      | VDict r =>
          if py_eq_str (dget r "name" VNone) target_room_name then
            match py_iter (dget r "bed" (VList [])) with
            | Err e => Err e
            | Ok beds =>
                match scan_beds r target_bed_name beds t with
                | Err e => Err e
                | Ok t' =>
                    if truthy (target_bed_id t') then Ok t'
                    else scan_rooms target_room_name target_bed_name rest t'
                end
            end
          else scan_rooms target_room_name target_bed_name rest t
      | _ => Err AttributeError
      end
  end.

(** The loop over [all_rooms_data]; it stops after a floor once
    [target_bed_id] is truthy. *)
Fixpoint scan_floors (target_room_name target_bed_name : pystr)
    (all_rooms_data : list value) (t : targets) : result targets :=
  match all_rooms_data with
  | [] => Ok t
  | floor :: rest =>
      match py_get floor "room" (VList []) with
      | Err e => Err e
      | Ok room =>
          match py_iter room with
          | Err e => Err e
          | Ok rooms =>
              match scan_rooms target_room_name target_bed_name rooms t with
              | Err e => Err e
              | Ok t' =>
                  if truthy (target_bed_id t') then Ok t'
                  else scan_floors target_room_name target_bed_name rest t'
              end
          end
      end
  end.

(** [all([target_room_id, target_bed_id, target_floor_id])] *)
Definition all_targets (t : targets) : bool :=
  truthy (target_room_id t) && truthy (target_bed_id t)
  && truthy (target_floor_id t).

(** The dictionary [selection_final_params] that [main] builds: always
    these five keys. *)
Record params : Type := {
  p_token : pystr;
  p_buildingId : pystr;
  p_studentName : pystr;
  p_subId : pystr;
  p_deptName : pystr
}.

Definition make_post_data (t : targets) (p : params) : post_data :=
  {| roomId := target_room_id t;
     bedId := target_bed_id t;
     floorId := target_floor_id t;
     token := p_token p;
     buildingId := p_buildingId p;
     studentName := p_studentName p;
     deptName := p_deptName p;
     subId := p_subId p |}.

(** The lines the operator types at the three prompts. *)
Record operator : Type := {
  room_line : pystr;
  bed_line : pystr;
  confirm_line : pystr
}.

(** [input(...).strip().lower() != 'y'] is false. *)
Definition confirms (o : operator) : bool :=
  lower_is_y (strip (confirm_line o)).

(** The [except] clauses of [select_bed], in their order. *)
Definition select_handler (e : exn) : option (M unit) :=
  if is_RequestException e then Some (print MSubmitNetworkError)
  else if is_JSONDecodeError e then Some (print MSubmitBadJson)
  else Some (print (MUnknownError e)).

(** [select_bed(session, all_rooms_data, params)] *)
Definition select_bed (all_rooms_data : list value) (p : params)
    (o : operator) : M unit :=
  try
    (print MStep4 ;;;
     let target_room_name := strip (room_line o) in
     let target_bed_name := strip (bed_line o) in
     t <- lift (scan_floors target_room_name target_bed_name
                  all_rooms_data no_targets) ;;
     if negb (all_targets t) then
       print MNotFound
     else
       print MConfirmHeader ;;;
       print (MConfirmRoom target_room_name (target_room_id t)) ;;;
       print (MConfirmBed target_bed_name (target_bed_id t)) ;;;
       let data := make_post_data t p in
       print (MPostData data) ;;;
       if negb (confirms o) then
         print MCancelled
       else
         print MSubmitting ;;;
         response <- session_call (PostSaveChosen data) ;;
         raise_for_status response ;;;
         log_request response ;;;
         res <- response_json response ;;
         status <- lift (py_get res "status" VNone) ;;
         if py_eq_str status s_success then
           detail <- lift (py_get res "data" VNone) ;;
           print (MSuccess detail)
         else
           message <- lift (py_get res "message" (VStr s_unknown_error)) ;;
           print (MFailed message))
    select_handler.

(** ** The catalog as the specification sees it

    A floor record whose rooms and beds have the shape the loops expect: a
    dictionary per floor, room and bed.  An empty dictionary or string in
    the place of a list iterates as the empty list. *)

Record room_view : Type := {
  room_dict : dict;
  room_beds : list dict
}.

Record floor_view : Type := {
  floor_dict : dict;
  floor_rooms : list room_view
}.

Fixpoint map_opt {A B} (f : A -> option B) (l : list A) : option (list B) :=
  match l with
  | [] => Some []
  | x :: r =>
      match f x, map_opt f r with
      | Some y, Some ys => Some (y :: ys)
      | _, _ => None
      end
  end.

Definition as_dict (v : value) : option dict :=
  match v with VDict d => Some d | _ => None end.

Definition view_seq (v : value) : option (list value) :=
  match v with
  | VList l => Some l
  | VDict [] => Some []
  | VStr [] => Some []
  | _ => None
  end.

Definition view_room (v : value) : option room_view :=
  match v with
  | VDict r =>
      match view_seq (dget r "bed" (VList [])) with
      | Some l =>
          match map_opt as_dict l with
          | Some beds => Some {| room_dict := r; room_beds := beds |}
          | None => None
          end
      | None => None
      end
  | _ => None
  end.

Definition view_floor (v : value) : option floor_view :=
  match v with
  | VDict f =>
      match view_seq (dget f "room" (VList [])) with
      | Some l =>
          match map_opt view_room l with
          | Some rooms => Some {| floor_dict := f; floor_rooms := rooms |}
          | None => None
          end
      | None => None
      end
  | _ => None
  end.

Definition view_catalog (all_rooms_data : list value)
    : option (list floor_view) :=
  map_opt view_floor all_rooms_data.

(** All rooms of the catalog, in catalog order. *)
Definition flat_rooms (floors : list floor_view) : list room_view :=
  flat_map floor_rooms floors.

Definition room_named (name : pystr) (r : room_view) : bool :=
  py_eq_str (dget (room_dict r) "name" VNone) name.

(** What a room yields for a selection: the identifiers of its first bed
    that matches, when the room has the requested name. *)
Definition room_hit (room_name bed_name : pystr) (r : room_view)
    : option targets :=
  if room_named room_name r then
    match find (bed_matches bed_name) (room_beds r) with
    | Some b => Some (targets_of (room_dict r) b)
    | None => None
    end
  else None.

(** The resolution over the rooms in catalog order: the last hit wins,
    and the scan ends at the first hit whose bed identifier is truthy. *)
Fixpoint resolve_rooms (room_name bed_name : pystr)
    (rooms : list room_view) (t : targets) : targets :=
  match rooms with
  | [] => t
  | r :: rest =>
      match room_hit room_name bed_name r with
      | Some t' =>
          if truthy (target_bed_id t') then t'
          else resolve_rooms room_name bed_name rest t'
      | None => resolve_rooms room_name bed_name rest t
      end
  end.

Definition resolve (room_name bed_name : pystr) (floors : list floor_view)
    : targets :=
  resolve_rooms room_name bed_name (flat_rooms floors) no_targets.

(** The part of the world a run adds. *)
Definition printed (w w' : world) : list msg :=
  skipn (List.length (console w)) (console w').

Definition say (ms : list msg) (w : world) : world :=
  {| pending := pending w; sent := sent w; console := console w ++ ms |}.

(** What the listing shows for a catalog: per room with a free bed, the
    room line and one line per free bed. *)
Definition render_bed (b : dict) : msg :=
  MBed (dget b "name" VNone) (dget b "bedPrice" VNone).

Definition render_room (floor_name : value) (r : room_view) : list msg :=
  match filter bed_is_free (room_beds r) with
  | [] => []
  | free =>
      MRoom floor_name (dget (room_dict r) "name" (VStr s_unknown_room))
      :: map render_bed free
  end.

Definition render_floor (f : floor_view) : list msg :=
  flat_map (render_room (dget (floor_dict f) "no" (VStr s_unknown_floor)))
    (floor_rooms f).

Definition render (floors : list floor_view) : list msg :=
  flat_map render_floor floors.

Definition room_has_free (r : room_view) : bool :=
  existsb bed_is_free (room_beds r).

Definition any_free (floors : list floor_view) : bool :=
  existsb room_has_free (flat_rooms floors).

(** The lines [select_bed] prints up to the confirmation prompt. *)
Definition confirm_msgs (room_name bed_name : pystr) (t : targets)
    (p : params) : list msg :=
  [MStep4; MConfirmHeader; MConfirmRoom room_name (target_room_id t);
   MConfirmBed bed_name (target_bed_id t); MPostData (make_post_data t p)].

(** The line [select_bed] prints for the answer to its request. *)
Definition submit_outcome (r : option reply) : msg :=
  match r with
  | Some (Response resp) =>
      if status_ok resp then
        match json resp with
        | JsonValue (VDict d) =>
            if py_eq_str (dget d "status" VNone) s_success
            then MSuccess (dget d "data" VNone)
            else MFailed (dget d "message" (VStr s_unknown_error))
        | JsonValue _ => MUnknownError AttributeError
        | JsonInvalid true => MSubmitNetworkError
        | JsonInvalid false => MSubmitBadJson
        end
      else MSubmitNetworkError
  | _ => MSubmitNetworkError
  end.

(** [framed P c]: a run of [c] only appends lines satisfying [P] to the
    console, appends the requests it issues to [sent] and consumes one
    pending reply per request. *)
Definition framed (P : msg -> Prop) {A} (c : M A) : Prop :=
  forall w r w',
    c w = (r, w') ->
    exists ms rs,
      console w' = console w ++ ms /\ Forall P ms /\
      sent w' = sent w ++ rs /\
      pending w' = skipn (List.length rs) (pending w).

(** The number of requests issued between two worlds. *)
Definition calls (w w' : world) : nat :=
  List.length (sent w') - List.length (sent w).

(** The exceptions the [except] clauses of [get_and_display_rooms]
    catch. *)
Definition caught (e : exn) : bool :=
  is_RequestException e || is_JSONDecodeError e.

(** The body of the reply is a JSON object: what [response.json()] must
    give for the [get] calls that follow it. *)
Definition is_envelope (resp : response) : bool :=
  match json resp with
  | JsonValue (VDict _) => true
  | _ => false
  end.

Definition is_dict (v : value) : bool :=
  match v with VDict _ => true | _ => false end.

(** [json_strict c]: when a reply that [c] consumes has a body that is not
    a JSON object, [c] raises on consuming it and issues no further
    request; the exception is one the [except] clauses catch unless the
    body is JSON of another type. *)
Definition json_strict {A} (c : M A) : Prop :=
  forall w r w' i resp,
    c w = (r, w') ->
    nth_error (pending w) i = Some (Response resp) ->
    is_envelope resp = false ->
    i < calls w w' ->
    calls w w' = S i /\
    exists e, r = Err e /\
              (caught e = true \/
               e = AttributeError /\ exists v, json resp = JsonValue v).

(** The world after the floor listing has been requested. *)
Definition after_listing (building_id sub_id : pystr) (w : world)
    (rest : list reply) : world :=
  {| pending := rest;
     sent := sent w ++ [PostFloorShow building_id sub_id None];
     console := console w ++ [MStep3] |}.

(** The fully-booked case: the listing succeeds and names floors, the
    floors are fetched and give floor records, and no bed of any room has
    the marker ['notCho']. *)
Definition fully_booked (building_id sub_id : pystr) (w : world) : Prop :=
  exists resp rest d fsl sels rooms w2 floors,
    pending w = Response resp :: rest /\ status_ok resp = true /\
    json resp = JsonValue (VDict d) /\
    dget d "status" VNone = VStr s_success /\
    py_get (dget d "data" (VDict [])) "floorSelect" (VList []) = Ok fsl /\
    truthy fsl = true /\ py_iter fsl = Ok sels /\
    fetch_floors building_id sub_id sels []
      (after_listing building_id sub_id w rest) = (Ok rooms, w2) /\
    rooms <> [] /\ view_catalog rooms = Some floors /\
    (forall room bed,
        In room (flat_rooms floors) -> In bed (room_beds room) ->
        dget bed "choose" VNone <> VStr s_notCho).

(** Lines that only accompany progress, and the lines that close a run
    with an error. *)
Definition not_closing (m : msg) : Prop :=
  match m with
  | MStep3 | MFloorHeader _ | MListHeader | MRoom _ _ | MBed _ _ => True
  | _ => False
  end.

Definition error_closing (m : msg) : Prop :=
  match m with
  | MApiError _ | MNoFloors | MNoRooms | MRoomsNetworkError
  | MRoomsBadJson => True
  | _ => False
  end.

(** The ways a run of [get_and_display_rooms] from [w] can end. *)
Inductive rooms_outcome (building_id sub_id : pystr) (w : world)
    : result (option (list value)) -> world -> Prop :=
| RoRaised e ms w' :
    Forall not_closing ms -> console w' = console w ++ ms ->
    rooms_outcome building_id sub_id w (Err e) w'
| RoError m ms w' :
    error_closing m -> Forall not_closing ms ->
    console w' = console w ++ ms ++ [m] ->
    rooms_outcome building_id sub_id w (Ok None) w'
| RoFull ms w' :
    fully_booked building_id sub_id w -> Forall not_closing ms ->
    console w' = console w ++ ms ++ [MAllFull] ->
    rooms_outcome building_id sub_id w (Ok None) w'
| RoListed rooms floors ms w' :
    view_catalog rooms = Some floors -> rooms <> [] ->
    any_free floors = true -> Forall not_closing ms ->
    console w' = console w ++ ms ++ [MListFooter] ->
    rooms_outcome building_id sub_id w (Ok (Some rooms)) w'.

(** [offline c]: a run of [c] leaves the session alone. *)
Definition offline {A} (c : M A) : Prop :=
  forall w r w', c w = (r, w') -> sent w' = sent w /\ pending w' = pending w.

Definition any_line (m : msg) : Prop := True.

(** ** Stages 1 and 2: the profile page and the selection page

    The HTML parser is BeautifulSoup, which is not part of the repository:
    the stages take the lookups they perform as an interface. *)
Record html_lib : Type := {
  tag : Type;
  (* [BeautifulSoup(text, 'html.parser').find('div', class_='personal_left')] *)
  find_personal_div : pystr -> option tag;
  (* [tag.find_all('p')] *)
  find_all_p : tag -> list tag;
  (* [tag.text] *)
  tag_text : tag -> pystr;
  (* [BeautifulSoup(text, 'html.parser').find('input',
       {'id': 'token', 'name': 'token'})] *)
  find_token_input : pystr -> option tag;
  (* [tag.attrs.get('value')] *)
  attr_value : tag -> option pystr
}.

(** [l[i]] *)
Definition py_index {A} (l : list A) (i : nat) : result A :=
  match nth_error l i with
  | Some x => Ok x
  | None => Err IndexError
  end.

Definition personal_handler (e : exn)
    : option (M (option (pystr * pystr))) :=
  if is_RequestException e
  then Some (print MPersonalNetworkError ;;; ret None)
  else match e with
       | IndexError | AttributeError =>
           Some (print MPersonalParseError ;;; ret None)
       | _ => None
       end.

(** [get_personal_info(session)]: [None] stands for [(None, None)]. *)
Definition get_personal_info (L : html_lib) : M (option (pystr * pystr)) :=
  try
    (print MStep1 ;;;
     response <- session_call GetPersonalInfo ;;
     raise_for_status response ;;;
     log_request response ;;;
     match find_personal_div L (text response) with
     | None => print MNoPersonalInfo ;;; ret None
     | Some personal_div =>
         let p_tags := find_all_p L personal_div in
         p0 <- lift (py_index p_tags 0) ;;
         let name := strip (tag_text L p0) in
         p1 <- lift (py_index p_tags 1) ;;
         let college := strip (remove_all s_college_label (tag_text L p1)) in
         print (MPersonalOk name college) ;;;
         ret (Some (name, college))
     end)
    personal_handler.

(** The longest prefix without a single quote, and the rest. *)
Fixpoint span_nonquote (s : pystr) : pystr * pystr :=
  match s with
  | [] => ([], [])
  | c :: r =>
      if N.eqb c 39 then ([], s)
      else let (v, rest) := span_nonquote r in (c :: v, rest)
  end.

Fixpoint strip_prefix (p s : pystr) : option pystr :=
  match p, s with
  | [], _ => Some s
  | x :: p', y :: s' => if N.eqb x y then strip_prefix p' s' else None
  | _ :: _, [] => None
  end.

(** A match of [name\s*=\s*'([^']+)';] at the start of [s]: the group.
    Each repetition is followed by a character outside its class, so the
    greedy choice is the only one. *)
Definition match_assign (name s : pystr) : option pystr :=
  match strip_prefix name s with
  | None => None
  | Some s1 =>
      match lstrip s1 with
      | 61%N :: s2 =>
          match lstrip s2 with
          | 39%N :: s3 =>
              match span_nonquote s3 with
              | (c :: v, 39%N :: 59%N :: _) => Some (c :: v)
              | _ => None
              end
          | _ => None
          end
      | _ => None
      end
  end.

(** [re.search(r"name\s*=\s*'([^']+)';", s)]: group 1 of the leftmost
    match. *)
Fixpoint re_search_assign (name s : pystr) : option pystr :=
  match match_assign name s with
  | Some v => Some v
  | None =>
      match s with
      | [] => None
      | _ :: r => re_search_assign name r
      end
  end.

Definition params_handler (e : exn)
    : option (M (option (pystr * pystr * pystr))) :=
  if is_RequestException e
  then Some (print MParamsNetworkError ;;; ret None)
  else match e with
       | AttributeError | TypeError =>
           Some (print MParamsParseError ;;; ret None)
       | _ => None
       end.

(** [get_selection_params(session, student_name, dept_name)]: [None]
    stands for [(None, None, None)], the triple is
    [(token, sub_id, building_id)]. *)
Definition get_selection_params (L : html_lib)
    (student_name dept_name : pystr)
    : M (option (pystr * pystr * pystr)) :=
  try
    (print MStep2 ;;;
     response <- session_call (GetSelectBeds student_name dept_name) ;;
     raise_for_status response ;;;
     log_request response ;;;
     match find_token_input L (text response) with
     | None => print MNoToken ;;; ret None
     | Some token_input =>
         match attr_value L token_input with
         | None => print MNoToken ;;; ret None
         | Some token =>
             let script_text := text response in
             match re_search_assign (lit "subId") script_text,
                   re_search_assign (lit "buildingId") script_text with
             | Some sub_id, Some building_id =>
                 print (MParamsOk token sub_id building_id) ;;;
                 ret (Some (token, sub_id, building_id))
             | _, _ => print MNoIds ;;; ret None
             end
         end
     end)
    params_handler.

(** *** What the specification says of the two pages *)

(** [s] starts with the statement [name = 'v';]. *)
Definition assignment (name v s : pystr) : Prop :=
  exists ws1 ws2 rest,
    s = name ++ ws1 ++ [61%N] ++ ws2 ++ [39%N] ++ v ++ [39%N; 59%N] ++ rest /\
    forallb is_space ws1 = true /\ forallb is_space ws2 = true /\
    v <> [] /\ ~ In 39%N v.

(** [text] contains the statement [name = 'v';]. *)
Definition occurs (name v text : pystr) : Prop :=
  exists pre suf, text = pre ++ suf /\ assignment name v suf.

(** The second field with the label prefix stripped, as the specification
    words it. *)
Definition strip_label_prefix (s : pystr) : pystr :=
  match strip_prefix s_college_label s with
  | Some rest => rest
  | None => s
  end.

(** The world after one call that was answered. *)
Definition answered (req : request) (w : world) (rest : list reply) : world :=
  {| pending := rest; sent := sent w ++ [req]; console := console w |}.

(** A library that finds the same elements in every page: a profile
    container with the given paragraphs, a token input with the given value
    attribute. *)
Inductive fixed_tag : Type :=
| FixedDiv (paragraphs : list pystr)
| FixedP (content : pystr)
| FixedInput (value_attr : option pystr).

Definition fixed_lib (personal : option (list pystr))
    (token_input : option (option pystr)) : html_lib :=
  {| tag := fixed_tag;
     find_personal_div := fun _ => option_map FixedDiv personal;
     find_all_p := fun t =>
       match t with FixedDiv ps => map FixedP ps | _ => [] end;
     tag_text := fun t =>
       match t with
       | FixedDiv ps => List.concat ps
       | FixedP s => s
       | FixedInput _ => []
       end;
     find_token_input := fun _ => option_map FixedInput token_input;
     attr_value := fun t =>
       match t with FixedInput v => v | _ => None end |}.

Definition page_reply (body : pystr) : reply :=
  Response {| status_ok := true; text := body; json := JsonInvalid true |}.

(** ** Sample data

    The end-to-end scenario of the specification: one floor "3F", one
    room "Block36-314" (identifier "R1"), one bed "1" (identifier "B1"). *)

Definition sample_bed_dict (name id choose : string) : dict :=
  [(lit "name", VStr (lit name)); (lit "id", VStr (lit id));
   (lit "choose", VStr (lit choose));
   (lit "bedPrice", VNum (QArith_base.Qmake 1200 1))].

Definition sample_bed (name id choose : string) : value :=
  VDict (sample_bed_dict name id choose).

Definition sample_room_dict (name id floor_id : string) (beds : list value)
    : dict :=
  [(lit "name", VStr (lit name)); (lit "id", VStr (lit id));
   (lit "floorId", VStr (lit floor_id)); (lit "bed", VList beds)].

Definition sample_room (name id floor_id : string) (beds : list value)
    : value :=
  VDict (sample_room_dict name id floor_id beds).

(** A room with one bed, as the view has it. *)
Definition sample_room_view (name id floor_id bed_name bed_id choose : string)
    : room_view :=
  {| room_dict := sample_room_dict name id floor_id
                    [sample_bed bed_name bed_id choose];
     room_beds := [sample_bed_dict bed_name bed_id choose] |}.

Definition sample_floor (no : string) (rooms : list value) : value :=
  VDict [(lit "no", VStr (lit no)); (lit "room", VList rooms)].

(** The bed is free. *)
Definition catalog_free : list value :=
  [sample_floor "3F"
     [sample_room "Block36-314" "R1" "F3" [sample_bed "1" "B1" "notCho"]]].

(** The bed is taken. *)
Definition catalog_taken : list value :=
  [sample_floor "3F"
     [sample_room "Block36-314" "R1" "F3" [sample_bed "1" "B1" "chosen"]]].

(** Two rooms share a name; only the second has bed "1" free. *)
Definition catalog_duplicate : list value :=
  [sample_floor "3F"
     [sample_room "Block36-314" "R1" "F3" [sample_bed "1" "B1" "chosen"];
      sample_room "Block36-314" "R2" "F3" [sample_bed "1" "B2" "notCho"]]].

(** The free bed has an empty identifier. *)
Definition catalog_empty_id : list value :=
  [sample_floor "3F"
     [sample_room "Block36-314" "R1" "F3" [sample_bed "1" "" "notCho"]]].

Definition sample_params : params :=
  {| p_token := lit "tok"; p_buildingId := lit "36";
     p_studentName := lit "Li"; p_subId := lit "7";
     p_deptName := lit "CS" |}.

Definition operator_yes : operator :=
  {| room_line := lit " Block36-314"; bed_line := lit "1 ";
     confirm_line := lit " Y " |}.

Definition operator_no : operator :=
  {| room_line := lit "Block36-314"; bed_line := lit "1";
     confirm_line := lit "n" |}.

Definition json_reply (v : value) : reply :=
  Response {| status_ok := true; text := []; json := JsonValue v |}.

Definition bad_json_reply : reply :=
  Response {| status_ok := true; text := lit "<html>"; json := JsonInvalid true |}.

Definition success_body : dict :=
  [(lit "status", VStr (lit "success")); (lit "data", VStr (lit "OK"))].

Definition reply_success : reply := json_reply (VDict success_body).

Definition world_of (replies : list reply) : world :=
  {| pending := replies; sent := []; console := [] |}.

(** The floor listing of a building with floors "F3" and "F4". *)
Definition reply_floor_list : reply :=
  json_reply
    (VDict [(lit "status", VStr (lit "success"));
            (lit "data",
             VDict [(lit "floorSelect",
                     VList [VDict [(lit "floorId", VStr (lit "F3"));
                                   (lit "no", VStr (lit "3F"))];
                            VDict [(lit "floorId", VStr (lit "F4"));
                                   (lit "no", VStr (lit "4F"))]])])]).

Definition reply_floor_detail (floors : list value) : reply :=
  json_reply
    (VDict [(lit "status", VStr (lit "success"));
            (lit "data", VDict [(lit "floor", VList floors)])]).

(** The listing answers with no floor. *)
Definition reply_no_floors : reply :=
  json_reply
    (VDict [(lit "status", VStr (lit "success"));
            (lit "data", VDict [(lit "floorSelect", VList [])])]).

(** The view of a sample catalog. *)
Definition sample_view (cat : list value) : list floor_view :=
  match view_catalog cat with Some floors => floors | None => [] end.

(** ** [main]

    The command line and the session headers are set up before the first
    stage and do not reach the stages; [main] is the sequence of the four
    stages with its early returns. *)

(** Truth value of a string in a condition. *)
Definition str_truthy (s : pystr) : bool := truthy (VStr s).

Definition main (L : html_lib) (o : operator) : M unit :=
  identity <- get_personal_info L ;;
  match identity with
  | None => ret tt
  | Some (name, college) =>
      if negb (str_truthy name) || negb (str_truthy college) then ret tt
      else
        context <- get_selection_params L name college ;;
        match context with
        | None => ret tt
        | Some (token, sub_id, building_id) =>
            if negb (str_truthy token && str_truthy sub_id
                     && str_truthy building_id)
            then ret tt
            else
              all_rooms_data <- get_and_display_rooms building_id sub_id ;;
              match all_rooms_data with
              | None | Some [] => ret tt
              | Some rooms =>
                  let selection_final_params :=
                    {| p_token := token;
                       p_buildingId := building_id;
                       p_studentName := name;
                       p_subId := sub_id;
                       p_deptName := college |} in
                  select_bed rooms selection_final_params o
              end
        end
  end.

(** The call is not answered, or answered with an error status. *)
Definition transport_fails (w : world) : Prop :=
  match pending w with
  | Response resp :: _ => status_ok resp = false
  | _ => True
  end.

(** The world after one call, answered or not. *)
Definition called (req : request) (w : world) : world :=
  {| pending := tl (pending w); sent := sent w ++ [req];
     console := console w |}.

(** The floor records a reply to a floor request contributes to
    [all_rooms_data], when the reply is an envelope the loop can read. *)
Definition floor_records (r : reply) : option (list value) :=
  match r with
  | ConnectionError => None
  | Response resp =>
      if status_ok resp then
        match json resp with
        | JsonValue (VDict d) =>
            match dget d "data" (VDict []) with
            | VDict data =>
                let floor_data := dget data "floor" (VList []) in
                if truthy floor_data then
                  match py_iter floor_data with
                  | Ok items => Some items
                  | Err _ => None
                  end
                else Some []
            | _ => None
            end
        | _ => None
        end
      else None
  end.

(** The request and the console line for one entry of the floor list. *)
Definition floor_request (building_id sub_id : pystr) (floor_sel : dict)
    : request :=
  PostFloorShow building_id sub_id (Some (dget floor_sel "floorId" VNone)).

Definition floor_header (floor_sel : dict) : msg :=
  MFloorHeader (dget floor_sel "no" (VStr s_unknown_floor)).

(** [asks R c]: a run of [c] appends to [sent] only requests that satisfy
    [R]. *)
Definition asks (R : request -> Prop) {A} (c : M A) : Prop :=
  forall w r w',
    c w = (r, w') -> exists rs, sent w' = sent w ++ rs /\ Forall R rs.

(** A floor request of the building. *)
Definition is_floor_request (building_id sub_id : pystr) (req : request)
    : Prop :=
  exists floor_id, req = PostFloorShow building_id sub_id (Some floor_id).

(** The requests of a run of [main], in order: the profile page, then the
    selection page for the name and unit read from it, then the floor
    listing and the floors of the building read from the selection page,
    then the reservation for these same values. *)
Inductive pipeline_trace : list request -> Prop :=
| TraceProfile : pipeline_trace [GetPersonalInfo]
| TraceContext name college :
    pipeline_trace [GetPersonalInfo; GetSelectBeds name college]
| TraceRooms name college building_id sub_id floors :
    Forall (is_floor_request building_id sub_id) floors ->
    pipeline_trace
      (GetPersonalInfo :: GetSelectBeds name college
       :: PostFloorShow building_id sub_id None :: floors)
| TraceReserve name college building_id sub_id floors data :
    Forall (is_floor_request building_id sub_id) floors ->
    studentName data = name -> deptName data = college ->
    buildingId data = building_id -> subId data = sub_id ->
    pipeline_trace
      (GetPersonalInfo :: GetSelectBeds name college
       :: PostFloorShow building_id sub_id None
       :: floors ++ [PostSaveChosen data]).

(** Sample pages and catalogs for the edge cases. *)

(** Two free beds named "1" in one room. *)
Definition catalog_two_beds : list value :=
  [sample_floor "3F"
     [sample_room "Block36-314" "R1" "F3"
        [sample_bed "1" "B1" "notCho"; sample_bed "1" "B9" "notCho"]]].

(** The first room with the name has an empty room identifier, the second
    is complete. *)
Definition catalog_empty_room_id : list value :=
  [sample_floor "3F"
     [sample_room "Block36-314" "" "F3" [sample_bed "1" "B1" "notCho"];
      sample_room "Block36-314" "R2" "F3" [sample_bed "1" "B2" "notCho"]]].

(** The first room with the name has a bed without identifier, the second
    is complete. *)
Definition catalog_empty_then_full : list value :=
  [sample_floor "3F"
     [sample_room "Block36-314" "R1" "F3" [sample_bed "1" "" "notCho"];
      sample_room "Block36-314" "R2" "F3" [sample_bed "1" "B2" "notCho"]]].

Definition sample_page : pystr :=
  lit "<script>var subId = '7'; buildingId='36'; subId = '8';</script>".

Definition sample_lib : html_lib :=
  fixed_lib (Some [lit " Li "; s_college_label ++ lit "CS "])
    (Some (Some (lit "tok"))).

(** The first statement [name = '...';] of [text] has the value [v]. *)
Definition first_statement (name v text : pystr) : Prop :=
  exists pre suf,
    text = pre ++ suf /\ assignment name v suf /\
    forall pre' suf' v',
      text = pre' ++ suf' -> List.length pre' < List.length pre ->
      ~ assignment name v' suf'.

(** [raises P c]: an exception that leaves [c] satisfies [P]. *)
Definition raises (P : exn -> Prop) {A} (c : M A) : Prop :=
  forall w e w', c w = (Err e, w') -> P e.

(** The exceptions of a value of the wrong type, and those the [except]
    clauses of [get_and_display_rooms] catch. *)
Definition type_error_or_caught (e : exn) : Prop :=
  e = AttributeError \/ e = TypeError \/ caught e = true.

(** * Properties *)

(** ** Strings and values *)

Lemma str_eqb_eq (a b : pystr) : str_eqb a b = true <-> a = b.
Proof.
  revert b; induction a as [|x a IH]; intros [|y b]; simpl;
    try (split; [discriminate | discriminate]); [tauto|].
  rewrite andb_true_iff, N.eqb_eq, IH.
  split; [intros [-> ->]; reflexivity | intros [= -> ->]; auto].
Qed.

Lemma str_eqb_refl (a : pystr) : str_eqb a a = true.
Proof. apply str_eqb_eq; reflexivity. Qed.

Lemma py_eq_str_eq (v : value) (s : pystr) :
  py_eq_str v s = true <-> v = VStr s.
Proof.
  destruct v; simpl; try (split; [discriminate | discriminate]).
  rewrite str_eqb_eq. split; [intros ->; reflexivity | intros [= ->]; auto].
Qed.

Lemma bed_is_free_eq (b : dict) :
  bed_is_free b = true <-> dget b "choose" VNone = VStr s_notCho.
Proof. apply py_eq_str_eq. Qed.

Lemma bed_matches_eq (bn : pystr) (b : dict) :
  bed_matches bn b = true <->
  dget b "name" VNone = VStr bn /\ dget b "choose" VNone = VStr s_notCho.
Proof.
  unfold bed_matches. rewrite andb_true_iff, py_eq_str_eq, bed_is_free_eq.
  tauto.
Qed.

Lemma room_named_eq (rn : pystr) (r : room_view) :
  room_named rn r = true <-> dget (room_dict r) "name" VNone = VStr rn.
Proof. apply py_eq_str_eq. Qed.

(** ** The world *)

Lemma say_nil (w : world) : say [] w = w.
Proof. destruct w; unfold say; simpl; rewrite app_nil_r; reflexivity. Qed.

Lemma say_say (a b : list msg) (w : world) : say b (say a w) = say (a ++ b) w.
Proof. unfold say; simpl; rewrite app_assoc; reflexivity. Qed.

Lemma print_say (m : msg) (w : world) : print m w = (Ok tt, say [m] w).
Proof. reflexivity. Qed.

(** ** The catalog view agrees with the loops of [select_bed] *)

Lemma view_seq_iter (v : value) (l : list value) :
  view_seq v = Some l -> py_iter v = Ok l.
Proof.
  destruct v as [| | |s|l'|d]; simpl; try discriminate.
  - destruct s; [intros [= <-]; reflexivity | discriminate].
  - intros [= <-]; reflexivity.
  - destruct d; [intros [= <-]; reflexivity | discriminate].
Qed.

Lemma map_opt_cons_inv {A B} (f : A -> option B) x l ys :
  map_opt f (x :: l) = Some ys ->
  exists y ys', f x = Some y /\ map_opt f l = Some ys' /\ ys = y :: ys'.
Proof.
  simpl. destruct (f x) as [y|]; [|discriminate].
  destruct (map_opt f l) as [ys'|]; [|discriminate].
  intros [= <-]. eauto.
Qed.

Lemma as_dict_some v d : as_dict v = Some d -> v = VDict d.
Proof. destruct v; simpl; try discriminate. intros [= ->]; reflexivity. Qed.

Lemma view_room_some v r :
  view_room v = Some r ->
  exists l, v = VDict (room_dict r)
            /\ py_iter (dget (room_dict r) "bed" (VList [])) = Ok l
            /\ map_opt as_dict l = Some (room_beds r).
Proof.
  destruct v as [| | | | |d]; simpl; try discriminate.
  destruct (view_seq _) as [l|] eqn:E; [|discriminate].
  destruct (map_opt as_dict l) as [beds|] eqn:E'; [|discriminate].
  intros [= <-]. simpl. exists l. auto using view_seq_iter.
Qed.

Lemma view_floor_some v f :
  view_floor v = Some f ->
  exists l, v = VDict (floor_dict f)
            /\ py_iter (dget (floor_dict f) "room" (VList [])) = Ok l
            /\ map_opt view_room l = Some (floor_rooms f).
Proof.
  destruct v as [| | | | |d]; simpl; try discriminate.
  destruct (view_seq _) as [l|] eqn:E; [|discriminate].
  destruct (map_opt view_room l) as [rooms|] eqn:E'; [|discriminate].
  intros [= <-]. simpl. exists l. auto using view_seq_iter.
Qed.

Lemma scan_beds_view (room : dict) (bn : pystr) (l : list value) :
  forall beds t,
    map_opt as_dict l = Some beds ->
    scan_beds room bn l t =
    Ok (match find (bed_matches bn) beds with
        | Some b => targets_of room b
        | None => t
        end).
Proof.
  induction l as [|v l IH]; intros beds t H.
  - injection H as <-. reflexivity.
  - apply map_opt_cons_inv in H as (b & beds' & Hb & Hl & ->).
    apply as_dict_some in Hb as ->. simpl.
    destruct (bed_matches bn b); [reflexivity|]. apply IH; assumption.
Qed.

Lemma scan_rooms_view (rn bn : pystr) (l : list value) :
  forall rooms t,
    map_opt view_room l = Some rooms ->
    truthy (target_bed_id t) = false ->
    scan_rooms rn bn l t = Ok (resolve_rooms rn bn rooms t).
Proof.
  induction l as [|v l IH]; intros rooms t H Ht.
  - injection H as <-. reflexivity.
  - apply map_opt_cons_inv in H as (r & rooms' & Hr & Hl & ->).
    apply view_room_some in Hr as (bl & -> & Hit & Hbeds).
    simpl. unfold room_hit, room_named.
    destruct (py_eq_str _ rn); [|apply IH; assumption].
    rewrite Hit. erewrite scan_beds_view by eassumption.
    destruct (find _ _) as [b|].
    + destruct (truthy (target_bed_id (targets_of _ b))) eqn:Hb;
        [reflexivity|]. apply IH; assumption.
    + rewrite Ht. apply IH; assumption.
Qed.

Lemma resolve_rooms_app (rn bn : pystr) (a b : list room_view) :
  forall t,
    truthy (target_bed_id t) = false ->
    resolve_rooms rn bn (a ++ b) t =
    let t' := resolve_rooms rn bn a t in
    if truthy (target_bed_id t') then t' else resolve_rooms rn bn b t'.
Proof.
  induction a as [|r a IH]; intros t Ht; simpl.
  - rewrite Ht; reflexivity.
  - destruct (room_hit rn bn r) as [t1|].
    + destruct (truthy (target_bed_id t1)) eqn:H1.
      * rewrite H1; reflexivity.
      * apply IH; assumption.
    + apply IH; assumption.
Qed.

Lemma scan_floors_view (rn bn : pystr) (l : list value) :
  forall floors t,
    view_catalog l = Some floors ->
    truthy (target_bed_id t) = false ->
    scan_floors rn bn l t = Ok (resolve_rooms rn bn (flat_rooms floors) t).
Proof.
  unfold view_catalog.
  induction l as [|v l IH]; intros floors t H Ht.
  - injection H as <-. reflexivity.
  - apply map_opt_cons_inv in H as (f & floors' & Hf & Hl & ->).
    apply view_floor_some in Hf as (rl & -> & Hit & Hrooms).
    simpl. rewrite Hit. erewrite scan_rooms_view by eassumption.
    rewrite resolve_rooms_app by assumption. simpl.
    destruct (truthy (target_bed_id (resolve_rooms rn bn (floor_rooms f) t)))
      eqn:H1; [reflexivity|].
    apply IH; assumption.
Qed.

Lemma scan_floors_resolve (rn bn : pystr) (l : list value) floors :
  view_catalog l = Some floors ->
  scan_floors rn bn l no_targets = Ok (resolve rn bn floors).
Proof. intros H. apply scan_floors_view; [assumption | reflexivity]. Qed.

(** ** What the resolution returns *)

Lemma room_hit_some (rn bn : pystr) (r : room_view) (t : targets) :
  room_hit rn bn r = Some t ->
  room_named rn r = true /\
  exists b, In b (room_beds r) /\ bed_matches bn b = true
            /\ t = targets_of (room_dict r) b.
Proof.
  unfold room_hit. destruct (room_named rn r); [|discriminate].
  destruct (find _ _) as [b|] eqn:E; [|discriminate].
  intros [= <-]. apply find_some in E as [Hin Hm]. eauto.
Qed.

Lemma room_hit_none (rn bn : pystr) (r : room_view) :
  (room_named rn r = true ->
   forall b, In b (room_beds r) -> bed_matches bn b = false) ->
  room_hit rn bn r = None.
Proof.
  intros H. unfold room_hit. destruct (room_named rn r); [|reflexivity].
  destruct (find _ _) as [b|] eqn:E; [|reflexivity].
  apply find_some in E as [Hin Hm]. rewrite (H eq_refl b Hin) in Hm.
  discriminate.
Qed.

Lemma resolve_rooms_no_hit (rn bn : pystr) (rooms : list room_view) :
  forall t,
    (forall r, In r rooms -> room_hit rn bn r = None) ->
    resolve_rooms rn bn rooms t = t.
Proof.
  induction rooms as [|r rooms IH]; intros t H; simpl; [reflexivity|].
  rewrite (H r (or_introl eq_refl)). apply IH. intros; apply H; right; auto.
Qed.

Lemma resolve_rooms_first_hit (rn bn : pystr) (pre post : list room_view) r :
  forall t t1,
    (forall x, In x pre -> room_hit rn bn x = None) ->
    room_hit rn bn r = Some t1 ->
    truthy (target_bed_id t1) = true ->
    resolve_rooms rn bn (pre ++ r :: post) t = t1.
Proof.
  induction pre as [|x pre IH]; intros t t1 Hpre Hr H1; simpl.
  - rewrite Hr, H1; reflexivity.
  - rewrite (Hpre x (or_introl eq_refl)).
    apply IH; auto. intros; apply Hpre; right; auto.
Qed.

Lemma resolve_rooms_origin (rn bn : pystr) (rooms : list room_view) :
  forall t,
    resolve_rooms rn bn rooms t = t \/
    exists r, In r rooms /\
              room_hit rn bn r = Some (resolve_rooms rn bn rooms t).
Proof.
  induction rooms as [|r rooms IH]; intros t; simpl; [auto|].
  destruct (room_hit rn bn r) as [t1|] eqn:E.
  - destruct (truthy (target_bed_id t1)).
    + right; exists r; auto.
    + destruct (IH t1) as [-> | (r' & Hin & Hr')].
      * right; exists r; auto.
      * right; exists r'; auto.
  - destruct (IH t) as [-> | (r' & Hin & Hr')]; [auto|].
    right; exists r'; auto.
Qed.

Lemma resolve_rooms_some_hit (rn bn : pystr) (rooms : list room_view) :
  forall t,
    (exists r, In r rooms /\ room_hit rn bn r <> None) ->
    (forall r t', In r rooms -> room_hit rn bn r = Some t' ->
                  truthy (target_bed_id t') = true) ->
    exists r, In r rooms /\
              room_hit rn bn r = Some (resolve_rooms rn bn rooms t).
Proof.
  induction rooms as [|r rooms IH]; intros t (r0 & Hin & Hhit) Hall.
  - destruct Hin.
  - simpl. destruct (room_hit rn bn r) as [t1|] eqn:E.
    + rewrite (Hall r t1 (or_introl eq_refl) E). exists r. auto.
    + destruct (IH t) as (r' & Hr' & Hhit').
      * destruct Hin as [->|Hin]; [congruence|eauto].
      * intros r1 t' Hr1 Hh.
        apply (Hall r1 t'); [right; assumption | assumption].
      * exists r'. auto.
Qed.

(** ** Runs of [select_bed] *)

Ltac console_eq :=
  simpl; unfold print, say, ret; simpl; rewrite <- ?app_assoc; reflexivity.

Lemma select_bed_scan_error cat p o w e :
  scan_floors (strip (room_line o)) (strip (bed_line o)) cat no_targets
  = Err e ->
  exists m, select_bed cat p o w = (Ok tt, say [MStep4; m] w).
Proof.
  intros Hs. unfold select_bed, try, bind, lift. simpl. rewrite Hs. simpl.
  unfold select_handler.
  destruct (is_RequestException e); [|destruct (is_JSONDecodeError e)];
    eexists; console_eq.
Qed.

Lemma select_bed_not_found cat p o w t :
  scan_floors (strip (room_line o)) (strip (bed_line o)) cat no_targets
  = Ok t ->
  all_targets t = false ->
  select_bed cat p o w = (Ok tt, say [MStep4; MNotFound] w).
Proof.
  intros Hs Ha. unfold select_bed, try, bind, lift. simpl. rewrite Hs. simpl.
  rewrite Ha. console_eq.
Qed.

Lemma select_bed_cancelled cat p o w t :
  scan_floors (strip (room_line o)) (strip (bed_line o)) cat no_targets
  = Ok t ->
  all_targets t = true ->
  confirms o = false ->
  select_bed cat p o w =
  (Ok tt, say (confirm_msgs (strip (room_line o)) (strip (bed_line o)) t p
               ++ [MCancelled]) w).
Proof.
  intros Hs Ha Hc. unfold select_bed, try, bind, lift. simpl. rewrite Hs.
  simpl. rewrite Ha. simpl. rewrite Hc. console_eq.
Qed.

Lemma select_bed_submitted cat p o w t :
  scan_floors (strip (room_line o)) (strip (bed_line o)) cat no_targets
  = Ok t ->
  all_targets t = true ->
  confirms o = true ->
  select_bed cat p o w =
  (Ok tt,
   {| pending := tl (pending w);
      sent := sent w ++ [PostSaveChosen (make_post_data t p)];
      console := console w
                 ++ confirm_msgs (strip (room_line o)) (strip (bed_line o)) t p
                 ++ [MSubmitting; submit_outcome (hd_error (pending w))] |}).
Proof.
  intros Hs Ha Hc. unfold select_bed, try, bind, lift. simpl. rewrite Hs.
  simpl. rewrite Ha. simpl. rewrite Hc. simpl.
  unfold session_call; simpl.
  destruct (pending w) as [|[|r] rest]; simpl; try console_eq.
  unfold raise_for_status. destruct (status_ok r); simpl; [|console_eq].
  unfold response_json. destruct (json r) as [v|via]; simpl.
  - destruct v; simpl; try console_eq.
    destruct (py_eq_str (dget d "status" VNone) s_success); console_eq.
  - destruct via; console_eq.
Qed.

Lemma find_first {A} (f : A -> bool) (pre post : list A) (x : A) :
  (forall y, In y pre -> f y = false) -> f x = true ->
  find f (pre ++ x :: post) = Some x.
Proof.
  induction pre as [|y pre IH]; intros Hpre Hx; simpl.
  - rewrite Hx; reflexivity.
  - rewrite (Hpre y (or_introl eq_refl)). apply IH; auto.
    intros; apply Hpre; right; auto.
Qed.

Lemma all_targets_no_targets : all_targets no_targets = false.
Proof. reflexivity. Qed.

(** A request leaves [select_bed] only with the identifiers of a bed that
    matched: shared by the statements about the reservation request. *)
Lemma select_bed_request_origin cat floors p o w r w' :
  view_catalog cat = Some floors ->
  select_bed cat p o w = (r, w') ->
  sent w' = sent w \/
  exists room bed,
    In room (flat_rooms floors) /\ In bed (room_beds room) /\
    room_named (strip (room_line o)) room = true /\
    bed_matches (strip (bed_line o)) bed = true /\
    all_targets (targets_of (room_dict room) bed) = true /\
    sent w' = sent w
              ++ [PostSaveChosen
                    (make_post_data (targets_of (room_dict room) bed) p)].
Proof.
  intros Hv Hrun.
  pose proof (scan_floors_resolve (strip (room_line o)) (strip (bed_line o))
                _ Hv) as Hs.
  destruct (all_targets (resolve (strip (room_line o)) (strip (bed_line o))
                           floors)) eqn:Ha.
  - destruct (confirms o) eqn:Hc.
    + rewrite (select_bed_submitted _ p o w Hs Ha Hc) in Hrun.
      injection Hrun as <- <-. simpl. right.
      unfold resolve in *.
      destruct (resolve_rooms_origin (strip (room_line o))
                  (strip (bed_line o)) (flat_rooms floors) no_targets)
        as [E | (room & Hin & Hhit)].
      * rewrite E in Ha. discriminate.
      * destruct (room_hit_some _ _ _ Hhit) as (Hn & bed & Hb & Hm & E).
        exists room, bed. rewrite <- E. auto 7.
    + rewrite (select_bed_cancelled _ p o w Hs Ha Hc) in Hrun.
      injection Hrun as <- <-. left; reflexivity.
  - rewrite (select_bed_not_found _ p o w Hs Ha) in Hrun.
    injection Hrun as <- <-. left; reflexivity.
Qed.

(** ** Claims about [select_bed] *)

(** C4: when no room whose name equals the operator's room name contains a
    bed whose name equals the operator's bed name with the marker
    ['notCho'], [select_bed] reports the not-found error and issues no
    request: the session is left untouched. *)
Theorem select_bed_unavailable_not_found cat floors p o w :
  view_catalog cat = Some floors ->
  (forall room bed,
      In room (flat_rooms floors) -> In bed (room_beds room) ->
      dget (room_dict room) "name" VNone = VStr (strip (room_line o)) ->
      dget bed "name" VNone = VStr (strip (bed_line o)) ->
      dget bed "choose" VNone = VStr s_notCho -> False) ->
  exists w',
    select_bed cat p o w = (Ok tt, w') /\
    sent w' = sent w /\ pending w' = pending w /\
    console w' = console w ++ [MStep4; MNotFound].
Proof.
  intros Hv Hno.
  assert (Hr : resolve (strip (room_line o)) (strip (bed_line o)) floors
               = no_targets).
  { apply resolve_rooms_no_hit. intros room Hin. apply room_hit_none.
    intros Hn bed Hb. destruct (bed_matches _ bed) eqn:Hm; [|reflexivity].
    exfalso. apply bed_matches_eq in Hm as [Hname Hfree].
    apply room_named_eq in Hn. eapply Hno; eauto. }
  pose proof (scan_floors_resolve (strip (room_line o)) (strip (bed_line o))
                _ Hv) as Hs.
  rewrite Hr in Hs.
  exists (say [MStep4; MNotFound] w). split; [|auto].
  apply select_bed_not_found with (t := no_targets); auto.
Qed.

Lemma select_bed_unavailable_not_found_witness :
  exists w',
    select_bed catalog_taken sample_params operator_yes
      (world_of [reply_success]) = (Ok tt, w') /\
    sent w' = [] /\ pending w' = [reply_success] /\
    console w' = [MStep4; MNotFound].
Proof.
  apply (@select_bed_unavailable_not_found catalog_taken
           (sample_view catalog_taken) sample_params
           operator_yes (world_of [reply_success])).
  - vm_compute. reflexivity.
  - intros room bed Hroom Hbed _ _ Hfree. simpl in Hroom.
    destruct Hroom as [<-|[]]. simpl in Hbed. destruct Hbed as [<-|[]].
    vm_compute in Hfree. discriminate.
Defined.

(** C6: when the selection resolves (all three identifiers truthy) and the
    operator does not answer ['y'], [select_bed] issues no request and ends
    normally, its last line being the cancellation notice. *)
Theorem select_bed_cancel_no_request cat floors p o w :
  view_catalog cat = Some floors ->
  all_targets (resolve (strip (room_line o)) (strip (bed_line o)) floors)
  = true ->
  confirms o = false ->
  exists w',
    select_bed cat p o w = (Ok tt, w') /\
    sent w' = sent w /\ pending w' = pending w /\
    console w' =
    console w
    ++ confirm_msgs (strip (room_line o)) (strip (bed_line o))
         (resolve (strip (room_line o)) (strip (bed_line o)) floors) p
    ++ [MCancelled].
Proof.
  intros Hv Ha Hc.
  pose proof (scan_floors_resolve (strip (room_line o)) (strip (bed_line o))
                _ Hv) as Hs.
  eexists. split; [apply (select_bed_cancelled _ p o w Hs Ha Hc)|].
  simpl. auto.
Qed.

Lemma select_bed_cancel_no_request_witness :
  exists w',
    select_bed catalog_free sample_params operator_no
      (world_of [reply_success]) = (Ok tt, w') /\
    sent w' = [] /\ pending w' = [reply_success] /\
    last (console w') MStep4 = MCancelled.
Proof.
  destruct (@select_bed_cancel_no_request catalog_free
              (sample_view catalog_free) sample_params
              operator_no (world_of [reply_success]))
    as (w' & Hrun & Hs & Hp & Hc).
  - vm_compute. reflexivity.
  - vm_compute. reflexivity.
  - vm_compute. reflexivity.
  - exists w'. rewrite Hc. auto.
Defined.

(** C5, as the specification states it, fails: [catalog_empty_id] has the
    room the operator names with the bed the operator names, free, and the
    operator confirms; the bed's identifier is the empty string, and
    [select_bed] reports the not-found error without any request. *)
Lemma free_bed_with_empty_id_not_submitted :
  let floors := sample_view catalog_empty_id in
  view_catalog catalog_empty_id = Some floors /\
  (exists room bed,
      In room (flat_rooms floors) /\ In bed (room_beds room) /\
      dget (room_dict room) "name" VNone
      = VStr (strip (room_line operator_yes)) /\
      dget bed "name" VNone = VStr (strip (bed_line operator_yes)) /\
      dget bed "choose" VNone = VStr s_notCho) /\
  confirms operator_yes = true /\
  select_bed catalog_empty_id sample_params operator_yes
    (world_of [reply_success])
  = (Ok tt, {| pending := [reply_success]; sent := [];
               console := [MStep4; MNotFound] |}).
Proof.
  split; [vm_compute; reflexivity|]. split; [|vm_compute; auto].
  exists (sample_room_view "Block36-314" "R1" "F3" "1" "" "notCho"),
    (sample_bed_dict "1" "" "notCho").
  vm_compute. auto 10.
Qed.

(** C5, amended: the catalog contains a room with the operator's room
    name holding a bed with the operator's bed name and the marker
    ['notCho'], every such room and bed has a truthy (non-empty) room [id],
    bed [id] and [floorId], and the operator answers ['y'].  Then
    [select_bed] issues exactly one request, whose form data are the [id]
    and [floorId] of such a room, the [id] of such a bed in it, and
    [token], [buildingId], [studentName], [deptName] and [subId] of the
    parameters.  When the answer is a JSON object, status ['success']
    prints the success line with the server's [data]; any other status
    prints the failure line with the server's [message]. *)
Theorem select_bed_submit_once cat floors p o w resp rest d :
  view_catalog cat = Some floors ->
  (exists room bed,
      In room (flat_rooms floors) /\ In bed (room_beds room) /\
      dget (room_dict room) "name" VNone = VStr (strip (room_line o)) /\
      dget bed "name" VNone = VStr (strip (bed_line o)) /\
      dget bed "choose" VNone = VStr s_notCho) ->
  (forall room bed,
      In room (flat_rooms floors) -> In bed (room_beds room) ->
      dget (room_dict room) "name" VNone = VStr (strip (room_line o)) ->
      dget bed "name" VNone = VStr (strip (bed_line o)) ->
      dget bed "choose" VNone = VStr s_notCho ->
      truthy (dget (room_dict room) "id" VNone) = true /\
      truthy (dget bed "id" VNone) = true /\
      truthy (dget (room_dict room) "floorId" VNone) = true) ->
  confirms o = true ->
  pending w = Response resp :: rest ->
  status_ok resp = true ->
  json resp = JsonValue (VDict d) ->
  exists room bed,
    In room (flat_rooms floors) /\ In bed (room_beds room) /\
    dget (room_dict room) "name" VNone = VStr (strip (room_line o)) /\
    dget bed "name" VNone = VStr (strip (bed_line o)) /\
    dget bed "choose" VNone = VStr s_notCho /\
    let data :=
      {| roomId := dget (room_dict room) "id" VNone;
         bedId := dget bed "id" VNone;
         floorId := dget (room_dict room) "floorId" VNone;
         token := p_token p;
         buildingId := p_buildingId p;
         studentName := p_studentName p;
         deptName := p_deptName p;
         subId := p_subId p |} in
    select_bed cat p o w =
    (Ok tt,
     {| pending := rest;
        sent := sent w ++ [PostSaveChosen data];
        console :=
          console w
          ++ [MStep4; MConfirmHeader;
              MConfirmRoom (strip (room_line o)) (roomId data);
              MConfirmBed (strip (bed_line o)) (bedId data);
              MPostData data; MSubmitting;
              if py_eq_str (dget d "status" VNone) s_success
              then MSuccess (dget d "data" VNone)
              else MFailed (dget d "message" (VStr s_unknown_error))] |}).
Proof.
  intros Hv (room0 & bed0 & Hroom0 & Hbed0 & Hn0 & Hbn0 & Hfree0)
    Hids Hc Hp Hok Hj.
  pose proof (scan_floors_resolve (strip (room_line o)) (strip (bed_line o))
                _ Hv) as Hs.
  destruct (resolve_rooms_some_hit (strip (room_line o)) (strip (bed_line o))
              (flat_rooms floors) no_targets) as (room & Hroom & Hhit).
  - exists room0. split; [assumption|]. unfold room_hit.
    rewrite (proj2 (room_named_eq _ _) Hn0).
    destruct (find _ (room_beds room0)) eqn:E; [discriminate|].
    apply (find_none _ _ E) in Hbed0.
    rewrite (proj2 (bed_matches_eq _ _) (conj Hbn0 Hfree0)) in Hbed0.
    discriminate.
  - intros r t Hr Hhit.
    destruct (room_hit_some _ _ _ Hhit) as (Hn & b & Hb & Hm & ->).
    apply room_named_eq in Hn. apply bed_matches_eq in Hm as [Hbn Hfree].
    apply (Hids r b); auto.
  - destruct (room_hit_some _ _ _ Hhit) as (Hn & bed & Hbed & Hm & E).
    apply room_named_eq in Hn. apply bed_matches_eq in Hm as [Hbn Hfree].
    destruct (Hids room bed Hroom Hbed Hn Hbn Hfree) as (Hrid & Hbid & Hfid).
    exists room, bed. repeat (split; [assumption|]).
    fold (resolve (strip (room_line o)) (strip (bed_line o)) floors) in E.
    rewrite E in Hs.
    rewrite (select_bed_submitted _ p o w Hs); auto.
    + rewrite Hp. simpl. rewrite Hok, Hj. reflexivity.
    + unfold all_targets. simpl. rewrite Hrid, Hbid, Hfid. reflexivity.
Qed.

Lemma select_bed_submit_once_witness :
  exists room bed,
    In room (flat_rooms (sample_view catalog_free)) /\
    In bed (room_beds room) /\
    select_bed catalog_free sample_params operator_yes
      (world_of [reply_success]) =
    (Ok tt,
     {| pending := [];
        sent := [PostSaveChosen
                   {| roomId := dget (room_dict room) "id" VNone;
                      bedId := dget bed "id" VNone;
                      floorId := dget (room_dict room) "floorId" VNone;
                      token := lit "tok";
                      buildingId := lit "36"; studentName := lit "Li";
                      deptName := lit "CS"; subId := lit "7" |}];
        console :=
          [MStep4; MConfirmHeader;
           MConfirmRoom (lit "Block36-314") (dget (room_dict room) "id" VNone);
           MConfirmBed (lit "1") (dget bed "id" VNone);
           MPostData
             {| roomId := dget (room_dict room) "id" VNone;
                bedId := dget bed "id" VNone;
                floorId := dget (room_dict room) "floorId" VNone;
                token := lit "tok";
                buildingId := lit "36"; studentName := lit "Li";
                deptName := lit "CS"; subId := lit "7" |};
           MSubmitting; MSuccess (VStr (lit "OK"))] |}).
Proof.
  destruct (@select_bed_submit_once catalog_free (sample_view catalog_free)
              sample_params operator_yes (world_of [reply_success])
              {| status_ok := true; text := [];
                 json := JsonValue (VDict success_body) |} [] success_body)
    as (room & bed & Hroom & Hbed & _ & _ & _ & Hrun).
  - vm_compute. reflexivity.
  - exists (sample_room_view "Block36-314" "R1" "F3" "1" "B1" "notCho"),
      (sample_bed_dict "1" "B1" "notCho").
    vm_compute. auto 10.
  - intros room bed [<-|[]] [<-|[]] _ _ _. vm_compute. auto.
  - vm_compute. reflexivity.
  - reflexivity.
  - reflexivity.
  - reflexivity.
  - exists room, bed. repeat (split; [assumption|]). exact Hrun.
Defined.

(** C2, as the specification states it, fails: in [catalog_duplicate] two
    rooms are named "Block36-314", the first has no free bed "1", and
    [select_bed] reserves bed "B2" of the second. *)
Lemma later_duplicate_room_selected :
  let floors := sample_view catalog_duplicate in
  view_catalog catalog_duplicate = Some floors /\
  map (fun r => dget (room_dict r) "name" VNone) (flat_rooms floors)
  = [VStr (lit "Block36-314"); VStr (lit "Block36-314")] /\
  map (fun r => find (bed_matches (lit "1")) (room_beds r))
    (firstn 1 (flat_rooms floors)) = [None] /\
  sent (snd (select_bed catalog_duplicate sample_params operator_yes
               (world_of [reply_success])))
  = [PostSaveChosen
       {| roomId := VStr (lit "R2"); bedId := VStr (lit "B2");
          floorId := VStr (lit "F3"); token := lit "tok";
          buildingId := lit "36"; studentName := lit "Li";
          deptName := lit "CS"; subId := lit "7" |}].
Proof. vm_compute. auto. Qed.

(** C2, amended: [select_bed] resolves room name and bed name together.
    Rooms are scanned in catalog order; a room with the operator's room
    name but without a free bed of the operator's bed name is passed over,
    also when a later room has the same name.  The request carries the
    identifiers of the first room that has the name and such a bed (its
    first one), whatever rooms follow it. *)
Theorem select_bed_first_room_with_free_bed cat floors p o w
    pre room post bed :
  view_catalog cat = Some floors ->
  flat_rooms floors = pre ++ room :: post ->
  (forall x, In x pre -> room_named (strip (room_line o)) x = true ->
     forall b, In b (room_beds x) ->
       bed_matches (strip (bed_line o)) b = false) ->
  room_named (strip (room_line o)) room = true ->
  find (bed_matches (strip (bed_line o))) (room_beds room) = Some bed ->
  all_targets (targets_of (room_dict room) bed) = true ->
  confirms o = true ->
  exists w',
    select_bed cat p o w = (Ok tt, w') /\
    sent w' = sent w
              ++ [PostSaveChosen
                    (make_post_data (targets_of (room_dict room) bed) p)].
Proof.
  intros Hv Hflat Hpre Hroom Hbed Ha Hc.
  pose proof (scan_floors_resolve (strip (room_line o)) (strip (bed_line o))
                _ Hv) as Hs.
  assert (Hr : resolve (strip (room_line o)) (strip (bed_line o)) floors
               = targets_of (room_dict room) bed).
  { unfold resolve. rewrite Hflat. apply resolve_rooms_first_hit.
    - intros x Hx. apply room_hit_none. intros; eapply Hpre; eauto.
    - unfold room_hit. rewrite Hroom, Hbed. reflexivity.
    - unfold all_targets in Ha. apply andb_true_iff in Ha as [Ha _].
      apply andb_true_iff in Ha as [_ Ha]. exact Ha. }
  rewrite Hr in Hs.
  eexists. split; [apply (select_bed_submitted _ p o w Hs Ha Hc)|].
  reflexivity.
Qed.

Lemma select_bed_first_room_with_free_bed_witness :
  exists w',
    select_bed catalog_duplicate sample_params operator_yes
      (world_of [reply_success]) = (Ok tt, w') /\
    sent w' =
    [PostSaveChosen
       {| roomId := VStr (lit "R2"); bedId := VStr (lit "B2");
          floorId := VStr (lit "F3"); token := lit "tok";
          buildingId := lit "36"; studentName := lit "Li";
          deptName := lit "CS"; subId := lit "7" |}].
Proof.
  refine (@select_bed_first_room_with_free_bed catalog_duplicate
            (sample_view catalog_duplicate) sample_params operator_yes
            (world_of [reply_success])
            [sample_room_view "Block36-314" "R1" "F3" "1" "B1" "chosen"]
            (sample_room_view "Block36-314" "R2" "F3" "1" "B2" "notCho") []
            (sample_bed_dict "1" "B2" "notCho") _ _ _ _ _ _ _);
    try (vm_compute; reflexivity).
  intros x [<-|[]] _ b [<-|[]]. vm_compute. reflexivity.
Defined.

(** C10: a reservation request leaves [select_bed] only with truthy
    [roomId], [bedId] and [floorId], all three copied from one bed that
    matched the operator's room and bed names with the marker ['notCho'];
    when one of the resolved identifiers is falsy the not-found error is
    reported and no request is issued. *)
Theorem select_bed_request_ids_truthy cat floors p o w r w' :
  view_catalog cat = Some floors ->
  select_bed cat p o w = (r, w') ->
  (sent w' = sent w \/
   exists room bed,
     In room (flat_rooms floors) /\ In bed (room_beds room) /\
     dget (room_dict room) "name" VNone = VStr (strip (room_line o)) /\
     dget bed "name" VNone = VStr (strip (bed_line o)) /\
     dget bed "choose" VNone = VStr s_notCho /\
     truthy (dget (room_dict room) "id" VNone) = true /\
     truthy (dget bed "id" VNone) = true /\
     truthy (dget (room_dict room) "floorId" VNone) = true /\
     sent w' =
     sent w
     ++ [PostSaveChosen
           {| roomId := dget (room_dict room) "id" VNone;
              bedId := dget bed "id" VNone;
              floorId := dget (room_dict room) "floorId" VNone;
              token := p_token p;
              buildingId := p_buildingId p;
              studentName := p_studentName p;
              deptName := p_deptName p;
              subId := p_subId p |}])
  /\
  (all_targets (resolve (strip (room_line o)) (strip (bed_line o)) floors)
   = false ->
   r = Ok tt /\ sent w' = sent w /\ pending w' = pending w /\
   console w' = console w ++ [MStep4; MNotFound]).
Proof.
  intros Hv Hrun. split.
  - destruct (select_bed_request_origin _ _ _ _ Hv Hrun)
      as [E | (room & bed & Hroom & Hbed & Hn & Hm & Ha & E)]; [auto|].
    right. exists room, bed.
    apply room_named_eq in Hn. apply bed_matches_eq in Hm as [Hbn Hfree].
    unfold all_targets in Ha. simpl in Ha.
    apply andb_true_iff in Ha as [Ha Hf].
    apply andb_true_iff in Ha as [Hr Hb].
    repeat (split; [assumption|]). exact E.
  - intros Ha.
    pose proof (scan_floors_resolve (strip (room_line o))
                  (strip (bed_line o)) _ Hv) as Hs.
    rewrite (select_bed_not_found _ p o w Hs Ha) in Hrun.
    injection Hrun as <- <-. auto.
Qed.

Lemma select_bed_request_ids_truthy_witness :
  fst (select_bed catalog_empty_id sample_params operator_yes
         (world_of [reply_success])) = Ok tt /\
  sent (snd (select_bed catalog_empty_id sample_params operator_yes
               (world_of [reply_success]))) = [] /\
  console (snd (select_bed catalog_empty_id sample_params operator_yes
                  (world_of [reply_success]))) = [MStep4; MNotFound].
Proof.
  destruct (@select_bed_request_ids_truthy catalog_empty_id
              (sample_view catalog_empty_id) sample_params operator_yes
              (world_of [reply_success])
              (fst (select_bed catalog_empty_id sample_params operator_yes
                      (world_of [reply_success])))
              (snd (select_bed catalog_empty_id sample_params operator_yes
                      (world_of [reply_success]))))
    as [_ H].
  - vm_compute. reflexivity.
  - vm_compute. reflexivity.
  - destruct H as (Hr & Hs & _ & Hc); [vm_compute; reflexivity|].
    auto.
Defined.

(** ** Frames: what a computation does to the world *)

Lemma bind_ok {A B} (c : M A) (k : A -> M B) w b w' :
  bind c k w = (Ok b, w') ->
  exists a w1, c w = (Ok a, w1) /\ k a w1 = (Ok b, w').
Proof.
  unfold bind. destruct (c w) as [[a|e] w1]; [eauto | discriminate].
Qed.

Lemma bind_cases {A B} (c : M A) (k : A -> M B) w r w' :
  bind c k w = (r, w') ->
  (exists a w1, c w = (Ok a, w1) /\ k a w1 = (r, w')) \/
  (exists e, c w = (Err e, w') /\ r = Err e).
Proof.
  unfold bind. destruct (c w) as [[a|e] w1]; [eauto|].
  intros [= <- <-]. eauto.
Qed.

Lemma lift_ok {A} (x : result A) w a w' :
  lift x w = (Ok a, w') -> x = Ok a /\ w' = w.
Proof. destruct x; simpl; intros [= <- <-]; auto. Qed.

Section Frames.
Variable P : msg -> Prop.

Lemma framed_ret {A} (a : A) : framed P (ret a).
Proof.
  intros w r w' [= <- <-]. exists [], [].
  rewrite !app_nil_r. auto.
Qed.

Lemma framed_raise {A} (e : exn) : framed P (@raise A e).
Proof.
  intros w r w' [= <- <-]. exists [], [].
  rewrite !app_nil_r. auto.
Qed.

Lemma framed_lift {A} (x : result A) : framed P (lift x).
Proof. destruct x; [apply framed_ret | apply framed_raise]. Qed.

Lemma framed_print (m : msg) : P m -> framed P (print m).
Proof.
  intros Hm w r w' [= <- <-]. exists [m], []. simpl.
  rewrite app_nil_r. auto.
Qed.

Lemma framed_session_call (req : request) : framed P (session_call req).
Proof.
  intros w r w'. unfold session_call.
  destruct (pending w) as [|[|resp] rest] eqn:E; intros [= <- <-];
    exists [], [req]; simpl; rewrite app_nil_r; auto.
Qed.

Lemma framed_raise_for_status (resp : response) :
  framed P (raise_for_status resp).
Proof.
  unfold raise_for_status.
  destruct (status_ok resp); [apply framed_ret | apply framed_raise].
Qed.

Lemma framed_log_request (resp : response) : framed P (log_request resp).
Proof. apply framed_ret. Qed.

Lemma framed_response_json (resp : response) :
  framed P (response_json resp).
Proof.
  unfold response_json.
  destruct (json resp); [apply framed_ret | apply framed_raise].
Qed.

Lemma framed_compose w w1 w' (ms1 ms2 : list msg) (rs1 rs2 : list request) :
  console w1 = console w ++ ms1 -> Forall P ms1 ->
  sent w1 = sent w ++ rs1 ->
  pending w1 = skipn (List.length rs1) (pending w) ->
  console w' = console w1 ++ ms2 -> Forall P ms2 ->
  sent w' = sent w1 ++ rs2 ->
  pending w' = skipn (List.length rs2) (pending w1) ->
  exists ms rs,
    console w' = console w ++ ms /\ Forall P ms /\
    sent w' = sent w ++ rs /\
    pending w' = skipn (List.length rs) (pending w).
Proof.
  intros Hc1 HP1 Hs1 Hp1 Hc2 HP2 Hs2 Hp2.
  exists (ms1 ++ ms2), (rs1 ++ rs2).
  rewrite Hc2, Hc1, Hs2, Hs1, Hp2, Hp1, <- !app_assoc.
  repeat split; auto.
  - apply Forall_app; auto.
  - rewrite skipn_skipn, length_app. f_equal. lia.
Qed.

Lemma framed_bind {A B} (c : M A) (k : A -> M B) :
  framed P c -> (forall a, framed P (k a)) -> framed P (bind c k).
Proof.
  intros Hc Hk w r w' H.
  apply bind_cases in H as [(a & w1 & H1 & H2) | (e & H1 & ->)].
  - destruct (Hc _ _ _ H1) as (ms1 & rs1 & ? & ? & ? & ?).
    destruct (Hk a _ _ _ H2) as (ms2 & rs2 & ? & ? & ? & ?).
    eapply framed_compose; eauto.
  - eapply Hc; eauto.
Qed.

Lemma framed_try {A} (body : M A) (handler : exn -> option (M A)) :
  framed P body ->
  (forall e h, handler e = Some h -> framed P h) ->
  framed P (try body handler).
Proof.
  intros Hb Hh w r w'. unfold try.
  destruct (body w) as [[a|e] w1] eqn:E.
  - intros [= <- <-]. eapply Hb; eauto.
  - destruct (Hb _ _ _ E) as (ms1 & rs1 & ? & ? & ? & ?).
    destruct (handler e) as [h|] eqn:Eh.
    + intros Hrun.
      destruct (Hh _ _ Eh _ _ _ Hrun) as (ms2 & rs2 & ? & ? & ? & ?).
      eapply framed_compose; eauto.
    + intros [= <- <-]. eauto 10.
Qed.
End Frames.

Create HintDb frames.
#[local] Hint Resolve framed_ret framed_raise framed_lift framed_print
  framed_session_call framed_raise_for_status framed_log_request
  framed_response_json : frames.

Ltac frame_step :=
  match goal with
  | |- framed _ (print _) => apply framed_print; exact I
  | |- framed _ (bind _ _) => apply framed_bind; [|intros ?]
  | |- framed _ (if ?b then _ else _) => destruct b
  | |- framed _ (match ?x with _ => _ end) => destruct x
  | |- framed _ _ => solve [auto with frames]
  end.

Lemma printed_app w w' ms :
  console w' = console w ++ ms -> printed w w' = ms.
Proof.
  intros H. unfold printed. rewrite H.
  rewrite skipn_app, skipn_all, Nat.sub_diag. reflexivity.
Qed.


(** *** The loops of [get_and_display_rooms] *)

Lemma framed_fetch_floors b s sels :
  forall acc, framed not_closing (fetch_floors b s sels acc).
Proof.
  induction sels as [|sel sels IH]; intros acc; simpl.
  - auto with frames.
  - repeat frame_step; simpl; auto with frames.
Qed.

Lemma framed_print_beds infos : framed not_closing (print_beds infos).
Proof.
  induction infos as [|[n p] infos IH]; simpl.
  - auto with frames.
  - repeat frame_step; simpl; auto with frames.
Qed.

Lemma framed_display_rooms fname rooms :
  forall found, framed not_closing (display_rooms fname rooms found).
Proof.
  induction rooms as [|room rooms IH]; intros found; simpl.
  - auto with frames.
  - repeat frame_step; auto using framed_print_beds with frames.
Qed.

Lemma framed_display_floors rooms :
  forall found, framed not_closing (display_floors rooms found).
Proof.
  induction rooms as [|floor rooms IH]; intros found; simpl.
  - auto with frames.
  - repeat frame_step; auto using framed_display_rooms with frames.
Qed.

(** ** The listing shows the view *)

Lemma available_beds_view (l : list value) :
  forall beds acc,
    map_opt as_dict l = Some beds ->
    available_beds l acc =
    Ok (acc ++ map (fun b => (dget b "name" VNone, dget b "bedPrice" VNone))
                 (filter bed_is_free beds)).
Proof.
  induction l as [|v l IH]; intros beds acc H.
  - injection H as <-. simpl. rewrite app_nil_r. reflexivity.
  - apply map_opt_cons_inv in H as (b & beds' & Hb & Hl & ->).
    apply as_dict_some in Hb as ->. simpl.
    destruct (bed_is_free b); [|apply IH; assumption].
    rewrite (IH _ _ Hl). simpl. rewrite <- app_assoc. reflexivity.
Qed.

Lemma available_beds_ok (l : list value) :
  forall acc x,
    available_beds l acc = Ok x -> exists beds, map_opt as_dict l = Some beds.
Proof.
  induction l as [|v l IH]; intros acc x H; simpl in *; [eauto|].
  destruct v as [| | | | |b]; try discriminate. simpl.
  destruct (bed_is_free b); apply IH in H as [beds ->]; eauto.
Qed.

Lemma print_beds_say (infos : list (value * value)) :
  forall w,
    print_beds infos w
    = (Ok tt, say (map (fun i => MBed (fst i) (snd i)) infos) w).
Proof.
  induction infos as [|[n p] infos IH]; intros w; simpl.
  - rewrite say_nil. reflexivity.
  - unfold bind. rewrite print_say, IH, say_say. reflexivity.
Qed.

Lemma render_room_free fname (r : room_view) :
  render_room fname r =
  if room_has_free r
  then MRoom fname (dget (room_dict r) "name" (VStr s_unknown_room))
       :: map render_bed (filter bed_is_free (room_beds r))
  else [].
Proof.
  unfold render_room, room_has_free.
  induction (room_beds r) as [|b beds IH]; simpl; [reflexivity|].
  destruct (bed_is_free b); simpl; [reflexivity|].
  destruct (filter bed_is_free beds); destruct (existsb bed_is_free beds);
    simpl in *; congruence.
Qed.

Lemma display_rooms_view fname (l : list value) :
  forall rooms found w,
    map_opt view_room l = Some rooms ->
    display_rooms fname l found w =
    (Ok (found || existsb room_has_free rooms),
     say (flat_map (render_room fname) rooms) w).
Proof.
  induction l as [|v l IH]; intros rooms found w H.
  - injection H as <-. simpl. rewrite say_nil, orb_false_r. reflexivity.
  - apply map_opt_cons_inv in H as (r & rooms' & Hr & Hl & ->).
    apply view_room_some in Hr as (bl & -> & Hit & Hbeds).
    simpl. unfold bind, lift. simpl. rewrite Hit. simpl.
    rewrite (available_beds_view _ [] Hbeds). simpl.
    rewrite render_room_free. unfold room_has_free at 1 3.
    destruct (filter bed_is_free (room_beds r)) as [|b free] eqn:Ef.
    + assert (Hno : existsb bed_is_free (room_beds r) = false).
      { destruct (existsb bed_is_free (room_beds r)) eqn:E; [|reflexivity].
        apply existsb_exists in E as (x & Hx & Hfree).
        assert (Hin : In x (filter bed_is_free (room_beds r)))
          by (apply filter_In; auto).
        rewrite Ef in Hin. destruct Hin. }
      rewrite Hno. simpl. apply IH; assumption.
    + assert (Hyes : existsb bed_is_free (room_beds r) = true).
      { apply existsb_exists. exists b.
        apply filter_In. rewrite Ef. left; reflexivity. }
      rewrite Hyes. cbn [map]. rewrite print_beds_say. cbn beta iota.
      rewrite (IH _ _ _ Hl), orb_true_r. cbn [map fst snd].
      rewrite map_map. unfold say, render_bed. simpl.
      rewrite <- !app_assoc. reflexivity.
Qed.

Lemma existsb_flat_map {A B} (f : B -> bool) (g : A -> list B) (l : list A) :
  existsb f (flat_map g l) = existsb (fun x => existsb f (g x)) l.
Proof.
  induction l as [|x l IH]; simpl; [reflexivity|].
  rewrite existsb_app, IH. reflexivity.
Qed.

Lemma display_floors_view (l : list value) :
  forall floors found w,
    view_catalog l = Some floors ->
    display_floors l found w =
    (Ok (found || any_free floors), say (render floors) w).
Proof.
  unfold view_catalog, any_free, flat_rooms, render.
  induction l as [|v l IH]; intros floors found w H.
  - injection H as <-. simpl. rewrite say_nil, orb_false_r. reflexivity.
  - apply map_opt_cons_inv in H as (f & floors' & Hf & Hl & ->).
    apply view_floor_some in Hf as (rl & -> & Hit & Hrooms).
    simpl. unfold bind, lift. simpl. rewrite Hit. simpl.
    erewrite display_rooms_view by eassumption.
    rewrite (IH _ _ _ Hl), say_say.
    rewrite existsb_app, orb_assoc. reflexivity.
Qed.

(** A listing that ends normally has seen a catalog of the expected
    shape. *)
Lemma iter_view_seq {B} (f : value -> option B) (v : value) l ys :
  (forall s, f (VStr s) = None) ->
  py_iter v = Ok l -> map_opt f l = Some ys -> view_seq v = Some l.
Proof.
  intros Hf. destruct v as [| | |s|l'|d]; simpl; try discriminate.
  - intros [= <-]. destruct s; [reflexivity|]. simpl. rewrite Hf. discriminate.
  - intros [= <-]. reflexivity.
  - intros [= <-]. destruct d; [reflexivity|]. simpl. rewrite Hf. discriminate.
Qed.

Lemma display_rooms_ok fname (l : list value) :
  forall found w x w',
    display_rooms fname l found w = (Ok x, w') ->
    exists rooms, map_opt view_room l = Some rooms.
Proof.
  induction l as [|v l IH]; intros found w x w' H; simpl in *; [eauto|].
  apply bind_ok in H as (rname & w1 & H1 & H).
  apply lift_ok in H1 as [H1 ->].
  apply bind_ok in H as (bedv & w1 & H2 & H).
  apply lift_ok in H2 as [H2 ->].
  apply bind_ok in H as (beds & w1 & H3 & H).
  apply lift_ok in H3 as [H3 ->].
  apply bind_ok in H as (avail & w1 & H4 & H).
  apply lift_ok in H4 as [H4 ->].
  destruct v as [| | | | |r]; try discriminate. simpl in H1, H2.
  injection H2 as <-.
  destruct (available_beds_ok _ _ H4) as [bs Hbs].
  assert (Hrest : exists rooms, map_opt view_room l = Some rooms).
  { destruct avail; [eauto|].
    apply bind_ok in H as (? & w1 & _ & H).
    apply bind_ok in H as (? & w2 & _ & H). eauto. }
  destruct Hrest as [rooms ->]. simpl.
  rewrite (iter_view_seq as_dict _ (fun _ => eq_refl) H3 Hbs), Hbs. eauto.
Qed.

Lemma view_room_str s : view_room (VStr s) = None.
Proof. reflexivity. Qed.

Lemma display_floors_ok (l : list value) :
  forall found w x w',
    display_floors l found w = (Ok x, w') ->
    exists floors, view_catalog l = Some floors.
Proof.
  unfold view_catalog.
  induction l as [|v l IH]; intros found w x w' H; simpl in *; [eauto|].
  apply bind_ok in H as (fname & w1 & H1 & H).
  apply lift_ok in H1 as [H1 ->].
  apply bind_ok in H as (roomv & w1 & H2 & H).
  apply lift_ok in H2 as [H2 ->].
  apply bind_ok in H as (rooms & w1 & H3 & H).
  apply lift_ok in H3 as [H3 ->].
  apply bind_ok in H as (found' & w1 & H4 & H).
  destruct v as [| | | | |f]; try discriminate. simpl in H1, H2.
  injection H2 as <-.
  destruct (display_rooms_ok _ _ _ _ H4) as [rs Hrs].
  destruct (IH _ _ _ _ H) as [floors ->]. simpl.
  rewrite (iter_view_seq view_room _ view_room_str H3 Hrs), Hrs. eauto.
Qed.

Lemma any_free_false_render floors : any_free floors = false -> render floors = [].
Proof.
  unfold any_free, flat_rooms, render. rewrite existsb_flat_map.
  induction floors as [|f floors IH]; simpl; [reflexivity|].
  intros H. apply orb_false_iff in H as [Hf H]. rewrite (IH H), app_nil_r.
  unfold render_floor. clear -Hf.
  induction (floor_rooms f) as [|r rooms IH]; simpl in *; [reflexivity|].
  apply orb_false_iff in Hf as [Hr Hf].
  rewrite render_room_free, Hr, (IH Hf). reflexivity.
Qed.

Lemma any_free_spec floors :
  any_free floors = false <->
  (forall room bed, In room (flat_rooms floors) -> In bed (room_beds room) ->
     dget bed "choose" VNone <> VStr s_notCho).
Proof.
  unfold any_free. split.
  - intros H room bed Hroom Hbed Hfree.
    apply bed_is_free_eq in Hfree.
    assert (E : existsb room_has_free (flat_rooms floors) = true).
    { apply existsb_exists. exists room. split; [assumption|].
      apply existsb_exists. eauto. }
    congruence.
  - intros H. destruct (existsb _ _) eqn:E; [|reflexivity].
    apply existsb_exists in E as (room & Hroom & E).
    apply existsb_exists in E as (bed & Hbed & Hfree).
    apply bed_is_free_eq in Hfree. destruct (H room bed Hroom Hbed Hfree).
Qed.


(** ** The outcomes of [get_and_display_rooms] *)

Lemma print_inv m w u w' : print m w = (Ok u, w') -> w' = say [m] w.
Proof. intros [= _ <-]. reflexivity. Qed.

Lemma session_call_inv req w r w' :
  session_call req w = (r, w') ->
  sent w' = sent w ++ [req] /\ console w' = console w /\
  pending w' = tl (pending w) /\
  match r with
  | Ok resp => exists rest, pending w = Response resp :: rest
  | Err e => e = RequestException
  end.
Proof.
  unfold session_call. destruct (pending w) as [|[|resp] rest];
    intros [= <- <-]; simpl; eauto 6.
Qed.

Lemma raise_for_status_inv resp w r w' :
  raise_for_status resp w = (r, w') ->
  w' = w /\ match r with
            | Ok _ => status_ok resp = true
            | Err e => e = RequestException
            end.
Proof.
  unfold raise_for_status. destruct (status_ok resp); intros [= <- <-]; auto.
Qed.

Lemma response_json_inv resp w r w' :
  response_json resp w = (r, w') ->
  w' = w /\ match r with
            | Ok v => json resp = JsonValue v
            | Err e => exists via, json resp = JsonInvalid via
                                   /\ e = JSONDecodeError via
            end.
Proof.
  unfold response_json. destruct (json resp); intros [= <- <-]; eauto.
Qed.

Lemma lift_inv {A} (x : result A) w r w' :
  lift x w = (r, w') -> w' = w /\ r = x.
Proof. destruct x; intros [= <- <-]; auto. Qed.

Ltac closing_lines :=
  repeat first [ apply Forall_nil | apply Forall_cons; [exact I|]
               | apply Forall_app; split | assumption ].

Lemma render_not_closing floors : Forall not_closing (render floors).
Proof.
  apply Forall_forall. intros m H. unfold render, render_floor in H.
  apply in_flat_map in H as (f & _ & H).
  apply in_flat_map in H as (room & _ & H).
  rewrite render_room_free in H. destruct (room_has_free room); [|destruct H].
  destruct H as [<-|H]; [exact I|].
  apply in_map_iff in H as (bed & <- & _). exact I.
Qed.

Lemma rooms_body_outcome b s w r w' :
  rooms_body b s w = (r, w') -> rooms_outcome b s w r w'.
Proof.
  unfold rooms_body. intros H.
  apply bind_cases in H as [(u & w0 & Hp & H) | (e & Hp & _)];
    [|discriminate Hp].
  apply print_inv in Hp as ->.
  apply bind_cases in H as [(resp & w1 & Hc & H) | (e & Hc & ->)].
  2: { apply session_call_inv in Hc as (_ & Hcon & _).
       apply RoRaised with (ms := [MStep3]); [closing_lines|].
       rewrite Hcon. reflexivity. }
  apply session_call_inv in Hc as (Hsent & Hcon & Hpend & rest & Hw).
  simpl in Hsent, Hcon, Hpend, Hw. rewrite Hw in Hpend. simpl in Hpend.
  assert (Hw1 : w1 = after_listing b s w rest).
  { destruct w1; simpl in *; subst; reflexivity. }
  clear Hsent Hcon Hpend. subst w1.
  apply bind_cases in H as [(u1 & w1 & Hs & H) | (e & Hs & ->)].
  2: { apply raise_for_status_inv in Hs as [-> _].
       apply RoRaised with (ms := [MStep3]); [closing_lines|reflexivity]. }
  apply raise_for_status_inv in Hs as [-> Hok].
  apply bind_cases in H as [(u2 & w1 & Hl & H) | (e & Hl & _)];
    [|discriminate Hl].
  injection Hl as _ <-.
  apply bind_cases in H as [(data & w1 & Hj & H) | (e & Hj & ->)].
  2: { apply response_json_inv in Hj as [-> _].
       apply RoRaised with (ms := [MStep3]); [closing_lines|reflexivity]. }
  apply response_json_inv in Hj as [-> Hj].
  apply bind_cases in H as [(status & w1 & Hg & H) | (e & Hg & ->)].
  2: { apply lift_inv in Hg as [-> _].
       apply RoRaised with (ms := [MStep3]); [closing_lines|reflexivity]. }
  apply lift_inv in Hg as [-> Hg].
  destruct data as [| | | | |d]; try discriminate Hg.
  injection Hg as ->.
  destruct (py_eq_str (dget d "status" VNone) s_success) eqn:Hst; simpl in H.
  2: { (* the listing reports an error *)
       injection H as <- <-.
       apply RoError with (m := MApiError (dget d "message" (VStr s_unknown_error)))
                          (ms := [MStep3]); [exact I|closing_lines|].
       simpl. rewrite <- app_assoc. reflexivity. }
  apply py_eq_str_eq in Hst.
  apply bind_cases in H as [(inner & w1 & Hg & H) | (e & Hg & _)];
    [|discriminate Hg].
  injection Hg as <- <-.
  apply bind_cases in H as [(fsl & w1 & Hg & H) | (e & Hg & ->)].
  2: { apply lift_inv in Hg as [-> _].
       apply RoRaised with (ms := [MStep3]); [closing_lines|reflexivity]. }
  apply lift_inv in Hg as [-> Hg]. symmetry in Hg.
  destruct (truthy fsl) eqn:Hfsl; simpl in H.
  2: { injection H as <- <-.
       apply RoError with (m := MNoFloors) (ms := [MStep3]);
         [exact I|closing_lines|].
       simpl. rewrite <- app_assoc. reflexivity. }
  apply bind_cases in H as [(sels & w1 & Hi & H) | (e & Hi & ->)].
  2: { apply lift_inv in Hi as [-> _].
       apply RoRaised with (ms := [MStep3]); [closing_lines|reflexivity]. }
  apply lift_inv in Hi as [-> Hi]. symmetry in Hi.
  apply bind_cases in H as [(rooms & w2 & Hf & H) | (e & Hf & ->)].
  2: { destruct (framed_fetch_floors _ _ _ _ _ Hf) as (ms & rs & Hc & HP & _).
       apply RoRaised with (ms := [MStep3] ++ ms); [closing_lines|].
       rewrite Hc. simpl. rewrite <- app_assoc. reflexivity. }
  destruct (framed_fetch_floors _ _ _ _ _ Hf) as (ms & rs & Hc & HP & _).
  simpl in Hc.
  destruct rooms as [|room0 rooms'] eqn:Hrooms.
  { injection H as <- <-.
    apply RoError with (m := MNoRooms) (ms := [MStep3] ++ ms);
      [exact I|closing_lines|].
    simpl. rewrite Hc, <- !app_assoc. reflexivity. }
  rewrite <- Hrooms in *.
  assert (Hne : rooms <> []) by (rewrite Hrooms; discriminate).
  clear Hrooms.
  apply bind_cases in H as [(u3 & w3 & Hp & H) | (e & Hp & _)];
    [|discriminate Hp].
  apply print_inv in Hp as ->.
  apply bind_cases in H as [(found & w3 & Hd & H) | (e & Hd & ->)].
  2: { destruct (framed_display_floors _ _ _ Hd) as (ms3 & rs3 & Hc3 & HP3 & _).
       apply RoRaised with (ms := [MStep3] ++ ms ++ [MListHeader] ++ ms3);
         [closing_lines|].
       rewrite Hc3. simpl. rewrite Hc, <- !app_assoc. reflexivity. }
  destruct (display_floors_ok _ _ _ Hd) as [floors Hv].
  erewrite display_floors_view in Hd by eassumption.
  injection Hd as <- <-. simpl in H.
  destruct (any_free floors) eqn:Hfree; simpl in H; injection H as <- <-.
  - apply RoListed with (floors := floors)
                        (ms := [MStep3] ++ ms ++ [MListHeader] ++ render floors);
      auto.
    + closing_lines. apply render_not_closing.
    + unfold print, say. simpl. rewrite Hc, <- !app_assoc. reflexivity.
  - apply RoFull with (ms := [MStep3] ++ ms ++ [MListHeader]).
    + exists resp, rest, d, fsl, sels, rooms, w2, floors.
      repeat (split; [assumption|]). apply any_free_spec. assumption.
    + closing_lines.
    + rewrite (any_free_false_render _ Hfree).
      unfold print, say. simpl. rewrite Hc, app_nil_r, <- !app_assoc.
      reflexivity.
Qed.

Lemma get_and_display_rooms_outcome b s w r w' :
  get_and_display_rooms b s w = (r, w') ->
  rooms_outcome b s w r w' /\ (forall e, r = Err e -> caught e = false).
Proof.
  unfold get_and_display_rooms, try.
  destruct (rooms_body b s w) as [[res|e] w1] eqn:Hb.
  - intros [= <- <-]. split; [|discriminate].
    apply rooms_body_outcome; assumption.
  - apply rooms_body_outcome in Hb. inversion Hb as [e' ms w'' HP Hc| | |]; subst.
    unfold rooms_handler, caught.
    destruct (is_RequestException e) eqn:E1; [|destruct (is_JSONDecodeError e) eqn:E2].
    + intros [= <- <-]. split; [|discriminate].
      apply RoError with (m := MRoomsNetworkError) (ms := ms); [exact I|auto|].
      simpl. rewrite Hc, <- app_assoc. reflexivity.
    + intros [= <- <-]. split; [|discriminate].
      apply RoError with (m := MRoomsBadJson) (ms := ms); [exact I|auto|].
      simpl. rewrite Hc, <- app_assoc. reflexivity.
    + intros [= <- <-]. split.
      * apply RoRaised with (ms := ms); auto.
      * intros e' [= <-]. rewrite E1, E2. reflexivity.
Qed.

(** Every catalog that [get_and_display_rooms] returns has the shape the
    view expects, and offers a free bed. *)
Lemma get_and_display_rooms_returns_view b s w rooms w' :
  get_and_display_rooms b s w = (Ok (Some rooms), w') ->
  exists floors,
    view_catalog rooms = Some floors /\ rooms <> [] /\ any_free floors = true.
Proof.
  intros H. apply get_and_display_rooms_outcome in H as [H _].
  inversion H; subst. eauto.
Qed.

Lemma rooms_body_fully_booked b s w resp rest d fsl sels rooms w2 floors :
  pending w = Response resp :: rest -> status_ok resp = true ->
  json resp = JsonValue (VDict d) ->
  dget d "status" VNone = VStr s_success ->
  py_get (dget d "data" (VDict [])) "floorSelect" (VList []) = Ok fsl ->
  truthy fsl = true -> py_iter fsl = Ok sels ->
  fetch_floors b s sels [] (after_listing b s w rest) = (Ok rooms, w2) ->
  rooms <> [] -> view_catalog rooms = Some floors ->
  any_free floors = false ->
  rooms_body b s w = (Ok None, say [MListHeader; MAllFull] w2).
Proof.
  intros Hw Hok Hj Hst Hg Hfsl Hi Hf Hne Hv Hfree.
  apply py_eq_str_eq in Hst. unfold after_listing in Hf.
  unfold rooms_body, bind, print, session_call, raise_for_status,
    response_json, log_request, lift, ret.
  simpl. rewrite Hw, Hok, Hj. simpl. rewrite Hst. simpl.
  rewrite Hg, Hfsl. simpl. rewrite Hi, Hf.
  destruct rooms as [|room0 rooms']; [congruence|].
  erewrite display_floors_view by eassumption.
  rewrite Hfree, (any_free_false_render _ Hfree). simpl.
  unfold say. simpl. rewrite app_nil_r, <- app_assoc. reflexivity.
Qed.

(** ** Claims about [get_and_display_rooms] *)

(** C1, as the specification states it, fails: with every bed taken the
    function returns [None], the very value it returns when the listing
    names no floor. *)
Lemma fully_booked_returns_like_error :
  let full := world_of [reply_floor_list;
                        reply_floor_detail catalog_taken;
                        reply_floor_detail []] in
  let empty := world_of [reply_no_floors] in
  fst (get_and_display_rooms (lit "36") (lit "7") full) = Ok None /\
  last (console (snd (get_and_display_rooms (lit "36") (lit "7") full)))
    MStep3 = MAllFull /\
  last (console (snd (get_and_display_rooms (lit "36") (lit "7") empty)))
    MStep3 = MNoFloors /\
  fst (get_and_display_rooms (lit "36") (lit "7") full)
  = fst (get_and_display_rooms (lit "36") (lit "7") empty).
Proof. vm_compute. auto. Qed.

(** C1, amended: in the fully-booked case [get_and_display_rooms] returns
    [None], as it does for its handled errors; the case is told apart on
    the console only.  A run that returns [None] ends with exactly one
    closing line, and that line is the fully-booked notice exactly in the
    fully-booked case. *)
Theorem aggregate_fully_booked_signal b s w :
  (fully_booked b s w ->
   fst (get_and_display_rooms b s w) = Ok None /\
   exists ms,
     Forall not_closing ms /\
     console (snd (get_and_display_rooms b s w))
     = console w ++ ms ++ [MAllFull]) /\
  (In MAllFull (printed w (snd (get_and_display_rooms b s w))) ->
   fully_booked b s w) /\
  (fst (get_and_display_rooms b s w) = Ok None ->
   exists ms m,
     Forall not_closing ms /\ (m = MAllFull \/ error_closing m) /\
     console (snd (get_and_display_rooms b s w)) = console w ++ ms ++ [m]).
Proof.
  destruct (get_and_display_rooms b s w) as [r w'] eqn:Hrun. simpl.
  pose proof (get_and_display_rooms_outcome _ _ _ Hrun) as [Hout _].
  split; [|split].
  - intros (resp & rest & d & fsl & sels & rooms & w2 & floors & Hw & Hok
            & Hj & Hst & Hg & Hfsl & Hi & Hf & Hne & Hv & Hfree).
    apply any_free_spec in Hfree.
    unfold get_and_display_rooms, try in Hrun.
    rewrite (rooms_body_fully_booked _ _ _ Hw Hok Hj Hst Hg Hfsl Hi Hf Hne
               Hv Hfree) in Hrun.
    injection Hrun as <- <-. split; [reflexivity|].
    destruct (framed_fetch_floors _ _ _ _ _ Hf) as (ms & rs & Hc & HP & _).
    exists ([MStep3] ++ ms ++ [MListHeader]). split; [closing_lines|].
    simpl. simpl in Hc. rewrite Hc, <- !app_assoc. reflexivity.
  - intros Hin.
    inversion Hout as [e ms w'' HP Hc|m ms w'' Hm HP Hc|ms w'' Hfull HP Hc
                      |rooms floors ms w'' Hv Hne Hfree HP Hc]; subst;
      [| | assumption |]; exfalso;
      erewrite printed_app in Hin by exact Hc;
      repeat (apply in_app_or in Hin as [Hin|Hin]);
      try (apply (proj1 (Forall_forall _ _) HP) in Hin; exact Hin);
      destruct Hin as [E|[]]; try (rewrite E in Hm; exact Hm);
      discriminate E.
  - intros ->.
    inversion Hout as [|m ms w'' Hm HP Hc|ms w'' Hfull HP Hc|]; subst;
      eauto 7.
Qed.

(** ** A body that is not JSON stops the aggregation *)

Lemma framed_weaken (P Q : msg -> Prop) {A} (c : M A) :
  (forall m, P m -> Q m) -> framed P c -> framed Q c.
Proof.
  intros HPQ Hc w r w' H.
  destruct (Hc _ _ _ H) as (ms & rs & ? & HP & ? & ?).
  exists ms, rs. repeat split; auto.
  eapply Forall_impl; eauto.
Qed.

Lemma framed_any_fetch_floors b s sels acc :
  framed any_line (fetch_floors b s sels acc).
Proof.
  apply framed_weaken with (P := not_closing);
    [intros; exact I | apply framed_fetch_floors].
Qed.

Lemma framed_any_display_floors rooms found :
  framed any_line (display_floors rooms found).
Proof.
  apply framed_weaken with (P := not_closing);
    [intros; exact I | apply framed_display_floors].
Qed.

#[local] Hint Resolve framed_any_fetch_floors framed_any_display_floors
  : frames.

Lemma offline_ret {A} (a : A) : offline (ret a).
Proof. intros w r w' [= _ <-]. auto. Qed.

Lemma offline_raise {A} (e : exn) : offline (@raise A e).
Proof. intros w r w' [= _ <-]. auto. Qed.

Lemma offline_lift {A} (x : result A) : offline (lift x).
Proof. destruct x; [apply offline_ret | apply offline_raise]. Qed.

Lemma offline_print (m : msg) : offline (print m).
Proof. intros w r w' [= _ <-]. auto. Qed.

Lemma offline_bind {A B} (c : M A) (k : A -> M B) :
  offline c -> (forall a, offline (k a)) -> offline (bind c k).
Proof.
  intros Hc Hk w r w' H.
  apply bind_cases in H as [(a & w1 & H1 & H2) | (e & H1 & ->)].
  - destruct (Hc _ _ _ H1) as [<- <-]. eapply Hk; eauto.
  - eapply Hc; eauto.
Qed.

#[local] Hint Resolve offline_ret offline_raise offline_lift offline_print
  : frames.

Ltac offline_step :=
  match goal with
  | |- offline (bind _ _) => apply offline_bind; [|intros ?]
  | |- offline (if ?b then _ else _) => destruct b
  | |- offline (match ?x with _ => _ end) => destruct x
  | |- offline _ => solve [auto with frames]
  end.

Lemma offline_print_beds infos : offline (print_beds infos).
Proof.
  induction infos as [|[n p] infos IH]; simpl.
  - auto with frames.
  - repeat offline_step.
Qed.

Lemma offline_display_rooms fname rooms :
  forall found, offline (display_rooms fname rooms found).
Proof.
  induction rooms as [|room rooms IH]; intros found; simpl.
  - auto with frames.
  - repeat offline_step; auto using offline_print_beds.
Qed.

Lemma offline_display_floors rooms :
  forall found, offline (display_floors rooms found).
Proof.
  induction rooms as [|floor rooms IH]; intros found; simpl.
  - auto with frames.
  - repeat offline_step; auto using offline_display_rooms.
Qed.

Lemma strict_offline {A} (c : M A) : offline c -> json_strict c.
Proof.
  intros Hc w r w' i resp H _ _ Hi.
  unfold calls in Hi. destruct (Hc _ _ _ H) as [E _]. rewrite E in Hi. lia.
Qed.




#[local] Hint Resolve strict_offline offline_display_floors : frames.



Lemma framed_rooms_body b s : framed any_line (rooms_body b s).
Proof. unfold rooms_body. repeat frame_step. Qed.




Lemma aggregate_fully_booked_signal_witness :
  let w := world_of [reply_floor_list;
                     reply_floor_detail catalog_taken;
                     reply_floor_detail []] in
  fully_booked (lit "36") (lit "7") w /\
  fst (get_and_display_rooms (lit "36") (lit "7") w) = Ok None.
Proof.
  intros w.
  assert (Hfull : fully_booked (lit "36") (lit "7") w).
  { eexists _, _, _, _, _, catalog_taken, _, (sample_view catalog_taken).
    repeat (split; [vm_compute; reflexivity|]).
    split; [discriminate|]. split; [vm_compute; reflexivity|].
    intros room bed [<-|[]] [<-|[]]. vm_compute. discriminate. }
  split; [exact Hfull|].
  apply (aggregate_fully_booked_signal (lit "36") (lit "7") w). exact Hfull.
Defined.



(** ** The profile page *)

Lemma starts_with_app (p s : pystr) : starts_with p (p ++ s) = true.
Proof.
  induction p as [|c p IH]; simpl; [reflexivity|].
  rewrite N.eqb_refl, IH. reflexivity.
Qed.

Lemma remove_from_skip (old pre s : pystr) :
  remove_from old (List.length pre) (pre ++ s) = remove_from old 0 s.
Proof. induction pre as [|c pre IH]; simpl; [reflexivity | exact IH]. Qed.

Lemma remove_all_prefix (old s : pystr) :
  old <> [] -> remove_all old (old ++ s) = remove_all old s.
Proof.
  destruct old as [|c old]; [congruence|]. intros _.
  unfold remove_all.
  change (remove_from (c :: old) 0 ((c :: old) ++ s))
    with (if starts_with (c :: old) ((c :: old) ++ s)
          then remove_from (c :: old) (List.length (c :: old) - 1) (old ++ s)
          else c :: remove_from (c :: old) 0 (old ++ s)).
  rewrite starts_with_app.
  replace (List.length (c :: old) - 1) with (List.length old)
    by (simpl; lia).
  apply remove_from_skip.
Qed.

Lemma remove_all_absent (old s : pystr) :
  (forall pre suf, s = pre ++ suf -> starts_with old suf = false) ->
  remove_all old s = s.
Proof.
  unfold remove_all. induction s as [|c s IH]; intros H; [reflexivity|].
  simpl. rewrite (H [] (c :: s) eq_refl). f_equal. apply IH.
  intros pre suf ->. apply (H (c :: pre) suf). reflexivity.
Qed.

Ltac world_eq :=
  unfold say, answered, bind, print, ret; simpl;
  rewrite <- ?app_assoc; reflexivity.

Lemma get_personal_info_run L w resp rest :
  pending w = Response resp :: rest ->
  status_ok resp = true ->
  get_personal_info L w =
  match find_personal_div L (text resp) with
  | None =>
      (Ok None, say [MStep1; MNoPersonalInfo] (answered GetPersonalInfo w rest))
  | Some div =>
      match find_all_p L div with
      | p0 :: p1 :: _ =>
          let name := strip (tag_text L p0) in
          let college := strip (remove_all s_college_label (tag_text L p1)) in
          (Ok (Some (name, college)),
           say [MStep1; MPersonalOk name college]
             (answered GetPersonalInfo w rest))
      | _ =>
          (Ok None,
           say [MStep1; MPersonalParseError] (answered GetPersonalInfo w rest))
      end
  end.
Proof.
  intros Hw Hok.
  unfold get_personal_info, try, bind, print, session_call,
    raise_for_status, log_request. simpl.
  rewrite Hw, Hok. simpl.
  destruct (find_personal_div L (text resp)) as [div|]; simpl; [|world_eq].
  unfold py_index.
  destruct (find_all_p L div) as [|p0 [|p1 ps]]; simpl; world_eq.
Qed.

(** C9, as the specification states it, fails: with the second field
    "学院：文学院：中文" the specification promises the organizational unit
    "文学院：中文" (label prefix stripped), and [get_personal_info] returns
    "文中文": [replace] removes the label wherever it occurs. *)
Lemma college_label_removed_everywhere :
  let second := s_college_label ++ [25991%N] ++ s_college_label
                ++ [20013%N; 25991%N] in
  let L := fixed_lib (Some [lit "Li"; second]) None in
  strip_label_prefix second
  = [25991%N] ++ s_college_label ++ [20013%N; 25991%N] /\
  fst (get_personal_info L (world_of [page_reply []]))
  = Ok (Some (lit "Li", [25991%N; 20013%N; 25991%N])).
Proof. vm_compute. auto. Qed.

(** C9, amended: when the container is found with at least two [<p>]
    fields, [get_personal_info] returns as name the text of the first field
    without its leading and trailing whitespace, and as organizational
    unit the text of the second field with every occurrence of the label
    '学院：' removed and then leading and trailing whitespace removed; when
    the label occurs in the second field as its prefix only, that is the
    text after the prefix, trimmed.  When the container is missing it
    returns [(None, None)] after the page-error line. *)
Theorem get_personal_info_fields L w resp rest :
  pending w = Response resp :: rest ->
  status_ok resp = true ->
  (find_personal_div L (text resp) = None ->
   get_personal_info L w =
   (Ok None, say [MStep1; MNoPersonalInfo] (answered GetPersonalInfo w rest)))
  /\
  (forall div p0 p1 ps,
      find_personal_div L (text resp) = Some div ->
      find_all_p L div = p0 :: p1 :: ps ->
      let name := strip (tag_text L p0) in
      let college := strip (remove_all s_college_label (tag_text L p1)) in
      get_personal_info L w =
      (Ok (Some (name, college)),
       say [MStep1; MPersonalOk name college]
         (answered GetPersonalInfo w rest))
      /\
      (forall dept,
          tag_text L p1 = s_college_label ++ dept ->
          (forall pre suf, dept = pre ++ suf ->
                           starts_with s_college_label suf = false) ->
          college = strip dept)).
Proof.
  intros Hw Hok. split.
  - intros Hnone. rewrite (get_personal_info_run L _ Hw Hok), Hnone.
    reflexivity.
  - intros div p0 p1 ps Hdiv Hps name college. split.
    + rewrite (get_personal_info_run L _ Hw Hok), Hdiv, Hps. reflexivity.
    + intros dept Htext Habsent. unfold college.
      rewrite Htext, remove_all_prefix by discriminate.
      rewrite remove_all_absent by assumption. reflexivity.
Qed.

Lemma get_personal_info_fields_witness :
  get_personal_info
    (fixed_lib (Some [lit " Li "; s_college_label ++ lit "CS "]) None)
    (world_of [page_reply []])
  = (Ok (Some (lit "Li", lit "CS")),
     {| pending := []; sent := [GetPersonalInfo];
        console := [MStep1; MPersonalOk (lit "Li") (lit "CS")] |}).
Proof.
  pose (L := fixed_lib (Some [lit " Li "; s_college_label ++ lit "CS "]) None).
  destruct (@get_personal_info_fields L (world_of [page_reply []])
              {| status_ok := true; text := []; json := JsonInvalid true |}
              [] eq_refl eq_refl) as [_ H].
  destruct (H (FixedDiv [lit " Li "; s_college_label ++ lit "CS "])
              (FixedP (lit " Li ")) (FixedP (s_college_label ++ lit "CS "))
              [] eq_refl eq_refl) as [Hrun _].
  exact Hrun.
Defined.

(** ** The selection page *)

Lemma lstrip_split (s : pystr) :
  exists ws, s = ws ++ lstrip s /\ forallb is_space ws = true.
Proof.
  induction s as [|c s (ws & E & Hws)]; simpl.
  - exists []. auto.
  - destruct (is_space c) eqn:Hc.
    + exists (c :: ws). simpl. rewrite Hc, Hws, <- E. auto.
    + exists []. auto.
Qed.

Lemma lstrip_spaces (ws : pystr) (c : N) (rest : pystr) :
  forallb is_space ws = true -> is_space c = false ->
  lstrip (ws ++ c :: rest) = c :: rest.
Proof.
  induction ws as [|x ws IH]; simpl; intros Hws Hc.
  - rewrite Hc. reflexivity.
  - apply andb_true_iff in Hws as [Hx Hws]. rewrite Hx. auto.
Qed.

Lemma strip_prefix_some (p s r : pystr) :
  strip_prefix p s = Some r <-> s = p ++ r.
Proof.
  revert s; induction p as [|x p IH]; intros s; simpl.
  - split; [intros [= ->] | intros ->]; reflexivity.
  - destruct s as [|y s]; [split; discriminate|].
    destruct (N.eqb_spec x y) as [->|Hne].
    + rewrite IH. split; [intros ->; reflexivity | intros [= ->]; reflexivity].
    + split; [discriminate | intros [= E _]; congruence].
Qed.

Lemma span_nonquote_spec (s : pystr) :
  forall v r,
    span_nonquote s = (v, r) ->
    s = v ++ r /\ ~ In 39%N v.
Proof.
  induction s as [|c s IH]; simpl; intros v r H.
  - injection H as <- <-. auto.
  - destruct (N.eqb_spec c 39) as [->|Hne].
    + injection H as <- <-. auto.
    + destruct (span_nonquote s) as [v' r'] eqn:E.
      injection H as <- <-. destruct (IH _ _ eq_refl) as [-> Hv].
      split; [reflexivity|]. intros [Hc|Hin]; auto.
Qed.

Lemma span_nonquote_app (v rest : pystr) :
  ~ In 39%N v -> span_nonquote (v ++ 39%N :: rest) = (v, 39%N :: rest).
Proof.
  induction v as [|c v IH]; simpl; intros Hv; [reflexivity|].
  destruct (N.eqb_spec c 39) as [->|Hne]; [tauto|].
  rewrite IH; [reflexivity | tauto].
Qed.

Lemma match_assign_sound (name s v : pystr) :
  match_assign name s = Some v -> assignment name v s.
Proof.
  unfold match_assign.
  destruct (strip_prefix name s) as [s1|] eqn:E1; [|discriminate].
  apply strip_prefix_some in E1 as ->.
  destruct (lstrip_split s1) as (ws1 & E1 & Hws1).
  destruct (lstrip s1) as [|c1 s2]; [discriminate|].
  destruct (N.eqb_spec c1 61) as [->|Hne];
    [|destruct c1 as [|p]; try discriminate;
      repeat (destruct p as [p|p|]; try discriminate); congruence].
  destruct (lstrip_split s2) as (ws2 & E2 & Hws2).
  destruct (lstrip s2) as [|c2 s3]; [discriminate|].
  destruct (N.eqb_spec c2 39) as [->|Hne];
    [|destruct c2 as [|p]; try discriminate;
      repeat (destruct p as [p|p|]; try discriminate); congruence].
  destruct (span_nonquote s3) as [v' s4] eqn:E3.
  apply span_nonquote_spec in E3 as [-> Hv].
  destruct v' as [|x v']; [discriminate|].
  destruct s4 as [|c4 s4]; [discriminate|].
  destruct (N.eqb_spec c4 39) as [->|Hne];
    [|destruct c4 as [|p]; try discriminate;
      repeat (destruct p as [p|p|]; try discriminate); congruence].
  destruct s4 as [|c5 s5]; [discriminate|].
  destruct (N.eqb_spec c5 59) as [->|Hne];
    [|destruct c5 as [|p]; try discriminate;
      repeat (destruct p as [p|p|]; try discriminate); congruence].
  intros [= <-]. exists ws1, ws2, s5.
  rewrite E1, E2. simpl. rewrite <- ?app_assoc. simpl.
  repeat split; auto. discriminate.
Qed.

Lemma match_assign_complete (name s v : pystr) :
  assignment name v s -> match_assign name s = Some v.
Proof.
  intros (ws1 & ws2 & rest & -> & Hws1 & Hws2 & Hne & Hv).
  unfold match_assign.
  rewrite (proj2 (strip_prefix_some name _ _) eq_refl).
  simpl. rewrite lstrip_spaces by (auto; reflexivity).
  rewrite lstrip_spaces by (auto; reflexivity).
  rewrite span_nonquote_app by assumption.
  destruct v; [congruence | reflexivity].
Qed.

Lemma re_search_sound (name text v : pystr) :
  re_search_assign name text = Some v -> occurs name v text.
Proof.
  induction text as [|c text IH]; simpl.
  - destruct (match_assign name []) eqn:E; [|discriminate].
    intros [= ->]. exists [], []. split; [reflexivity|].
    apply match_assign_sound; assumption.
  - destruct (match_assign name (c :: text)) eqn:E.
    + intros [= ->]. exists [], (c :: text). split; [reflexivity|].
      apply match_assign_sound; assumption.
    + intros H. destruct (IH H) as (pre & suf & -> & Ha).
      exists (c :: pre), suf. auto.
Qed.

Lemma re_search_complete (name text v : pystr) :
  occurs name v text -> exists v', re_search_assign name text = Some v'.
Proof.
  intros (pre & suf & -> & Ha). apply match_assign_complete in Ha.
  induction pre as [|c pre IH]; simpl.
  - destruct suf; simpl; rewrite Ha; eauto.
  - destruct (match_assign name (c :: pre ++ suf)); eauto.
Qed.

Lemma re_search_none (name text : pystr) :
  (forall v, ~ occurs name v text) -> re_search_assign name text = None.
Proof.
  intros H. destruct (re_search_assign name text) as [v|] eqn:E;
    [|reflexivity].
  destruct (H v (re_search_sound _ _ E)).
Qed.

Lemma get_selection_params_run L student dept w resp rest :
  pending w = Response resp :: rest ->
  status_ok resp = true ->
  get_selection_params L student dept w =
  let w1 := answered (GetSelectBeds student dept) w rest in
  match find_token_input L (text resp) with
  | None => (Ok None, say [MStep2; MNoToken] w1)
  | Some t =>
      match attr_value L t with
      | None => (Ok None, say [MStep2; MNoToken] w1)
      | Some tok =>
          match re_search_assign (lit "subId") (text resp),
                re_search_assign (lit "buildingId") (text resp) with
          | Some sub, Some bld =>
              (Ok (Some (tok, sub, bld)),
               say [MStep2; MParamsOk tok sub bld] w1)
          | _, _ => (Ok None, say [MStep2; MNoIds] w1)
          end
      end
  end.
Proof.
  intros Hw Hok.
  unfold get_selection_params, try, bind, print, session_call,
    raise_for_status, log_request. simpl.
  rewrite Hw, Hok. simpl.
  destruct (find_token_input L (text resp)) as [t|]; simpl; [|world_eq].
  destruct (attr_value L t) as [tok|]; simpl; [|world_eq].
  destruct (re_search_assign (lit "subId") (text resp)) as [sub|];
    [destruct (re_search_assign (lit "buildingId") (text resp)) as [bld|]|];
    simpl; world_eq.
Qed.

(** C8: when the selection page has a token input with a value attribute
    and contains both statements [subId = '...';] and
    [buildingId = '...';], [get_selection_params] returns the attribute
    value and, for each statement, the characters between the quotes of
    such a statement of the page, unchanged; when one of the two
    statements is absent it returns [(None, None, None)], whether the
    token is there or not. *)
Theorem get_selection_params_verbatim L student dept w resp rest :
  pending w = Response resp :: rest ->
  status_ok resp = true ->
  (forall t tok,
      find_token_input L (text resp) = Some t ->
      attr_value L t = Some tok ->
      (exists v, occurs (lit "subId") v (text resp)) ->
      (exists v, occurs (lit "buildingId") v (text resp)) ->
      exists sub bld,
        occurs (lit "subId") sub (text resp) /\
        occurs (lit "buildingId") bld (text resp) /\
        get_selection_params L student dept w =
        (Ok (Some (tok, sub, bld)),
         say [MStep2; MParamsOk tok sub bld]
           (answered (GetSelectBeds student dept) w rest)))
  /\
  ((forall v, ~ occurs (lit "subId") v (text resp)) \/
   (forall v, ~ occurs (lit "buildingId") v (text resp)) ->
   exists m,
     (m = MNoToken \/ m = MNoIds) /\
     get_selection_params L student dept w =
     (Ok None,
      say [MStep2; m] (answered (GetSelectBeds student dept) w rest))).
Proof.
  intros Hw Hok. rewrite (get_selection_params_run L _ _ _ Hw Hok).
  split.
  - intros t tok Ht Htok [v1 H1] [v2 H2]. rewrite Ht, Htok.
    destruct (re_search_complete H1) as [sub Hsub].
    destruct (re_search_complete H2) as [bld Hbld].
    rewrite Hsub, Hbld. exists sub, bld.
    auto using re_search_sound.
  - intros Habsent. simpl.
    destruct (find_token_input L (text resp)) as [t|]; [|eauto].
    destruct (attr_value L t) as [tok|]; [|eauto].
    exists MNoIds. split; [auto|].
    destruct Habsent as [H|H]; rewrite (re_search_none H);
      [|destruct (re_search_assign _ _)]; reflexivity.
Qed.

Lemma get_selection_params_verbatim_witness :
  let page := lit "<script>var subId = '7'; buildingId='36';</script>" in
  exists w',
    get_selection_params (fixed_lib None (Some (Some (lit "tok"))))
      (lit "Li") (lit "CS") (world_of [page_reply page])
    = (Ok (Some (lit "tok", lit "7", lit "36")), w').
Proof.
  intros page.
  destruct (@get_selection_params_verbatim
              (fixed_lib None (Some (Some (lit "tok"))))
              (lit "Li") (lit "CS") (world_of [page_reply page])
              {| status_ok := true; text := page; json := JsonInvalid true |}
              [] eq_refl eq_refl) as [H _].
  destruct (H (FixedInput (Some (lit "tok"))) (lit "tok") eq_refl eq_refl)
    as (sub & bld & _ & _ & Hrun).
  - exists (lit "7"), (lit "<script>var "),
      (lit "subId = '7'; buildingId='36';</script>").
    split; [reflexivity|].
    exists (lit " "), (lit " "), (lit " buildingId='36';</script>").
    repeat split; try reflexivity; [discriminate|].
    vm_compute. intros [H1|[]]. discriminate.
  - exists (lit "36"), (lit "<script>var subId = '7'; "),
      (lit "buildingId='36';</script>").
    split; [reflexivity|].
    exists [], [], (lit "</script>").
    repeat split; try reflexivity; [discriminate|].
    vm_compute. intros [H1|[H1|[]]]; discriminate.
  - eexists. rewrite Hrun. f_equal.
    assert (E : get_selection_params
                  (fixed_lib None (Some (Some (lit "tok"))))
                  (lit "Li") (lit "CS") (world_of [page_reply page])
                = (Ok (Some (lit "tok", lit "7", lit "36")),
                   say [MStep2; MParamsOk (lit "tok") (lit "7") (lit "36")]
                     (answered (GetSelectBeds (lit "Li") (lit "CS"))
                        (world_of [page_reply page]) [])))
      by (vm_compute; reflexivity).
    rewrite Hrun in E. injection E as -> ->. reflexivity.
Defined.

(** * Further properties of the stages *)

(** ** [get_personal_info] *)


Ltac run_call Hw :=
  unfold try, bind, print, session_call, raise_for_status, log_request;
  simpl; rewrite Hw; simpl.

Ltac world_eq_called Hw :=
  unfold say, called, bind, print, ret; simpl; rewrite ?Hw; simpl;
  rewrite <- ?app_assoc; reflexivity.

Lemma get_personal_info_unanswered L w :
  transport_fails w ->
  get_personal_info L w =
  (Ok None, say [MStep1; MPersonalNetworkError] (called GetPersonalInfo w)).
Proof.
  unfold transport_fails, get_personal_info. intros H.
  destruct (pending w) as [|[|resp] rest] eqn:Hw; run_call Hw;
    try world_eq_called Hw.
  rewrite H. simpl. world_eq_called Hw.
Qed.


(** When the profile request is not answered, or answered with an error
    status, [get_personal_info] returns [(None, None)] after the
    network-error line; the page is not looked at. *)
Theorem get_personal_info_transport_failure L w :
  transport_fails w ->
  get_personal_info L w =
  (Ok None,
   {| pending := tl (pending w);
      sent := sent w ++ [GetPersonalInfo];
      console := console w ++ [MStep1; MPersonalNetworkError] |}).
Proof. intros H. rewrite get_personal_info_unanswered by exact H. reflexivity. Qed.

Lemma get_personal_info_transport_failure_witness :
  get_personal_info sample_lib (world_of [ConnectionError; page_reply []])
  = (Ok None,
     {| pending := [page_reply []]; sent := [GetPersonalInfo];
        console := [MStep1; MPersonalNetworkError] |}).
Proof.
  apply (@get_personal_info_transport_failure sample_lib
           (world_of [ConnectionError; page_reply []])).
  exact I.
Defined.

(** When the container holds fewer than two [<p>] fields, indexing raises
    [IndexError], which the function catches: it returns [(None, None)]
    after the parse-error line, even when the first field is there. *)
Theorem get_personal_info_missing_field L w resp rest div :
  pending w = Response resp :: rest ->
  status_ok resp = true ->
  find_personal_div L (text resp) = Some div ->
  List.length (find_all_p L div) < 2 ->
  get_personal_info L w =
  (Ok None,
   {| pending := rest;
      sent := sent w ++ [GetPersonalInfo];
      console := console w ++ [MStep1; MPersonalParseError] |}).
Proof.
  intros Hw Hok Hdiv Hlen.
  rewrite (get_personal_info_run L _ Hw Hok), Hdiv.
  destruct (find_all_p L div) as [|p0 [|p1 ps]]; simpl in Hlen;
    try reflexivity. lia.
Qed.

Lemma get_personal_info_missing_field_witness :
  get_personal_info (fixed_lib (Some [lit "Li"]) None)
    (world_of [page_reply []])
  = (Ok None,
     {| pending := []; sent := [GetPersonalInfo];
        console := [MStep1; MPersonalParseError] |}).
Proof.
  apply (@get_personal_info_missing_field (fixed_lib (Some [lit "Li"]) None)
           (world_of [page_reply []])
           {| status_ok := true; text := []; json := JsonInvalid true |}
           [] (FixedDiv [lit "Li"]) eq_refl eq_refl eq_refl).
  simpl. lia.
Defined.

(** ** [get_selection_params] *)

Lemma get_selection_params_unanswered L student dept w :
  transport_fails w ->
  get_selection_params L student dept w =
  (Ok None,
   say [MStep2; MParamsNetworkError] (called (GetSelectBeds student dept) w)).
Proof.
  unfold transport_fails, get_selection_params. intros H.
  destruct (pending w) as [|[|resp] rest] eqn:Hw; run_call Hw;
    try world_eq_called Hw.
  rewrite H. simpl. world_eq_called Hw.
Qed.

Lemma assignment_value name v s :
  assignment name v s -> v <> [] /\ ~ In 39%N v.
Proof. intros (ws1 & ws2 & rest & _ & _ & _ & Hne & Hq). auto. Qed.

Lemma re_search_first (name text v : pystr) :
  re_search_assign name text = Some v -> first_statement name v text.
Proof.
  induction text as [|c text IH]; simpl.
  - destruct (match_assign name []) eqn:E; [|discriminate].
    intros [= ->]. exists [], []. repeat split.
    + apply match_assign_sound; assumption.
    + simpl. intros; lia.
  - destruct (match_assign name (c :: text)) eqn:E.
    + intros [= ->]. exists [], (c :: text). repeat split.
      * apply match_assign_sound; assumption.
      * simpl. intros; lia.
    + intros H. destruct (IH H) as (pre & suf & -> & Ha & Hfirst).
      exists (c :: pre), suf. repeat split; [assumption|].
      intros pre' suf' v' Htext Hlen Ha'.
      destruct pre' as [|c' pre'].
      * simpl in Htext. subst suf'.
        apply match_assign_complete in Ha'. simpl in Ha'. congruence.
      * simpl in Htext, Hlen. injection Htext as _ Htext.
        apply (Hfirst pre' suf' v' Htext); [lia | assumption].
Qed.

Lemma re_search_leftmost (name text v : pystr) :
  first_statement name v text -> re_search_assign name text = Some v.
Proof.
  intros (pre & suf & -> & Ha & Hfirst).
  induction pre as [|c pre IH].
  - apply match_assign_complete in Ha. simpl.
    destruct suf; simpl; rewrite Ha; reflexivity.
  - simpl. destruct (match_assign name (c :: pre ++ suf)) as [v'|] eqn:E.
    + exfalso. apply match_assign_sound in E.
      apply (Hfirst [] (c :: pre ++ suf) v' eq_refl); [simpl; lia | exact E].
    + apply IH. intros pre' suf' v' Htext Hlen.
      apply (Hfirst (c :: pre') suf' v'); simpl; [congruence | lia].
Qed.


Lemma get_selection_params_returns_ids L student dept w tok sub bld w' :
  get_selection_params L student dept w = (Ok (Some (tok, sub, bld)), w') ->
  exists page,
    occurs (lit "subId") sub page /\ occurs (lit "buildingId") bld page.
Proof.
  intros Hrun.
  destruct (pending w) as [|[|resp] rest] eqn:Hw;
    try (rewrite get_selection_params_unanswered in Hrun
           by (unfold transport_fails; rewrite Hw; exact I);
         discriminate Hrun).
  destruct (status_ok resp) eqn:Hok.
  - rewrite (get_selection_params_run L _ _ _ Hw Hok) in Hrun. simpl in Hrun.
    destruct (find_token_input L (text resp)) as [t|]; [|discriminate].
    destruct (attr_value L t) as [tok'|]; [|discriminate].
    destruct (re_search_assign (lit "subId") (text resp)) as [sub'|] eqn:E1;
      [|discriminate].
    destruct (re_search_assign (lit "buildingId") (text resp)) as [bld'|]
      eqn:E2; [|discriminate].
    injection Hrun as _ <- <- _.
    exists (text resp). auto using re_search_sound.
  - rewrite get_selection_params_unanswered in Hrun
      by (unfold transport_fails; rewrite Hw; exact Hok).
    discriminate Hrun.
Qed.

(** The identifiers [get_selection_params] returns are never empty and
    never contain a single quote: the pattern asks for at least one
    character other than the quote. *)
Theorem get_selection_params_ids_not_empty L student dept w tok sub bld w' :
  get_selection_params L student dept w = (Ok (Some (tok, sub, bld)), w') ->
  (sub <> [] /\ ~ In 39%N sub) /\ (bld <> [] /\ ~ In 39%N bld).
Proof.
  intros Hrun.
  destruct (get_selection_params_returns_ids _ _ _ _ Hrun)
    as (page & (? & ? & _ & H1) & (? & ? & _ & H2)).
  split; eapply assignment_value; eauto.
Qed.

Lemma get_selection_params_ids_not_empty_witness :
  (lit "7" <> [] /\ ~ In 39%N (lit "7")) /\
  (lit "36" <> [] /\ ~ In 39%N (lit "36")).
Proof.
  apply (@get_selection_params_ids_not_empty sample_lib (lit "Li") (lit "CS")
           (world_of [page_reply sample_page]) (lit "tok") (lit "7")
           (lit "36")
           (snd (get_selection_params sample_lib (lit "Li") (lit "CS")
                   (world_of [page_reply sample_page])))).
  vm_compute. reflexivity.
Defined.

(** When the page holds several statements for one name, the first one in
    the page gives the value: [get_selection_params] returns the token and
    the values of the first [subId] and the first [buildingId]
    statement. *)
Theorem get_selection_params_first_statement
    L student dept w resp rest t tok sub bld :
  pending w = Response resp :: rest ->
  status_ok resp = true ->
  find_token_input L (text resp) = Some t ->
  attr_value L t = Some tok ->
  first_statement (lit "subId") sub (text resp) ->
  first_statement (lit "buildingId") bld (text resp) ->
  get_selection_params L student dept w =
  (Ok (Some (tok, sub, bld)),
   {| pending := rest;
      sent := sent w ++ [GetSelectBeds student dept];
      console := console w ++ [MStep2; MParamsOk tok sub bld] |}).
Proof.
  intros Hw Hok Ht Htok Hsub Hbld.
  rewrite (get_selection_params_run L _ _ _ Hw Hok), Ht, Htok.
  rewrite (re_search_leftmost Hsub), (re_search_leftmost Hbld).
  reflexivity.
Qed.

Lemma get_selection_params_first_statement_witness :
  get_selection_params sample_lib (lit "Li") (lit "CS")
    (world_of [page_reply sample_page])
  = (Ok (Some (lit "tok", lit "7", lit "36")),
     {| pending := []; sent := [GetSelectBeds (lit "Li") (lit "CS")];
        console := [MStep2; MParamsOk (lit "tok") (lit "7") (lit "36")] |}).
Proof.
  apply (@get_selection_params_first_statement sample_lib (lit "Li")
           (lit "CS") (world_of [page_reply sample_page])
           {| status_ok := true; text := sample_page;
              json := JsonInvalid true |}
           [] (FixedInput (Some (lit "tok"))) (lit "tok") (lit "7")
           (lit "36") eq_refl eq_refl eq_refl eq_refl).
  - apply re_search_first. vm_compute. reflexivity.
  - apply re_search_first. vm_compute. reflexivity.
Defined.

(** The token is looked for first: when the token input is missing, or
    has no value attribute, [get_selection_params] returns
    [(None, None, None)] after the no-token line, whatever statements the
    page contains. *)
Theorem get_selection_params_no_token L student dept w resp rest :
  pending w = Response resp :: rest ->
  status_ok resp = true ->
  (find_token_input L (text resp) = None \/
   exists t, find_token_input L (text resp) = Some t /\
             attr_value L t = None) ->
  get_selection_params L student dept w =
  (Ok None,
   {| pending := rest;
      sent := sent w ++ [GetSelectBeds student dept];
      console := console w ++ [MStep2; MNoToken] |}).
Proof.
  intros Hw Hok Htok.
  rewrite (get_selection_params_run L _ _ _ Hw Hok).
  destruct Htok as [-> | (t & -> & ->)]; reflexivity.
Qed.

Lemma get_selection_params_no_token_witness :
  get_selection_params (fixed_lib None (Some None)) (lit "Li") (lit "CS")
    (world_of [page_reply sample_page])
  = (Ok None,
     {| pending := []; sent := [GetSelectBeds (lit "Li") (lit "CS")];
        console := [MStep2; MNoToken] |}).
Proof.
  apply (@get_selection_params_no_token (fixed_lib None (Some None))
           (lit "Li") (lit "CS") (world_of [page_reply sample_page])
           {| status_ok := true; text := sample_page;
              json := JsonInvalid true |}
           [] eq_refl eq_refl).
  right. exists (FixedInput None). split; reflexivity.
Defined.

(** When the request for the selection page is not answered, or answered
    with an error status, [get_selection_params] returns
    [(None, None, None)] after the network-error line. *)
Theorem get_selection_params_transport_failure L student dept w :
  transport_fails w ->
  get_selection_params L student dept w =
  (Ok None,
   {| pending := tl (pending w);
      sent := sent w ++ [GetSelectBeds student dept];
      console := console w ++ [MStep2; MParamsNetworkError] |}).
Proof.
  intros H. rewrite get_selection_params_unanswered by exact H. reflexivity.
Qed.

Lemma get_selection_params_transport_failure_witness :
  get_selection_params sample_lib (lit "Li") (lit "CS")
    (world_of [Response {| status_ok := false; text := sample_page;
                           json := JsonInvalid true |}])
  = (Ok None,
     {| pending := []; sent := [GetSelectBeds (lit "Li") (lit "CS")];
        console := [MStep2; MParamsNetworkError] |}).
Proof.
  apply (@get_selection_params_transport_failure sample_lib (lit "Li")
           (lit "CS")
           (world_of [Response {| status_ok := false; text := sample_page;
                                  json := JsonInvalid true |}])).
  reflexivity.
Defined.

(** ** [get_and_display_rooms] *)

Lemma asks_ret R {A} (a : A) : asks R (ret a).
Proof. intros w r w' [= _ <-]. exists []. rewrite app_nil_r. auto. Qed.

Lemma asks_raise R {A} (e : exn) : asks R (@raise A e).
Proof. intros w r w' [= _ <-]. exists []. rewrite app_nil_r. auto. Qed.

Lemma asks_lift R {A} (x : result A) : asks R (lift x).
Proof. destruct x; [apply asks_ret | apply asks_raise]. Qed.

Lemma asks_offline R {A} (c : M A) : offline c -> asks R c.
Proof.
  intros Hc w r w' H. destruct (Hc _ _ _ H) as [E _].
  exists []. rewrite app_nil_r. auto.
Qed.

Lemma asks_session_call (R : request -> Prop) req :
  R req -> asks R (session_call req).
Proof.
  intros HR w r w' H. apply session_call_inv in H as (E & _).
  exists [req]. auto.
Qed.

Lemma asks_bind R {A B} (c : M A) (k : A -> M B) :
  asks R c -> (forall a, asks R (k a)) -> asks R (bind c k).
Proof.
  intros Hc Hk w r w' H.
  apply bind_cases in H as [(a & w1 & H1 & H2) | (e & H1 & ->)].
  - destruct (Hc _ _ _ H1) as (rs1 & E1 & F1).
    destruct (Hk a _ _ _ H2) as (rs2 & E2 & F2).
    exists (rs1 ++ rs2). rewrite E2, E1, app_assoc.
    split; [reflexivity | apply Forall_app; auto].
  - destruct (Hc _ _ _ H1) as (rs1 & E1 & F1). eauto.
Qed.

Lemma offline_raise_for_status resp : offline (raise_for_status resp).
Proof.
  unfold raise_for_status.
  destruct (status_ok resp); [apply offline_ret | apply offline_raise].
Qed.

Lemma offline_response_json resp : offline (response_json resp).
Proof.
  unfold response_json.
  destruct (json resp); [apply offline_ret | apply offline_raise].
Qed.

Lemma offline_log_request resp : offline (log_request resp).
Proof. apply offline_ret. Qed.

#[local] Hint Resolve asks_ret asks_raise asks_lift offline_raise_for_status
  offline_response_json offline_log_request : frames.

Ltac asks_step :=
  match goal with
  | |- asks _ (bind _ _) => apply asks_bind; [|intros ?]
  | |- asks _ (session_call _) =>
      apply asks_session_call; eexists; reflexivity
  | |- asks _ (if ?b then _ else _) => destruct b
  | |- asks _ (match ?x with _ => _ end) => destruct x
  | |- asks _ _ => solve [auto with frames]
  | |- asks _ _ => apply asks_offline; solve [auto with frames]
  end.

Lemma asks_fetch_floors b s sels :
  forall acc, asks (is_floor_request b s) (fetch_floors b s sels acc).
Proof.
  induction sels as [|sel sels IH]; intros acc; simpl.
  - auto with frames.
  - repeat asks_step.
Qed.

(** The loop over the floor list, for replies it can read: one request
    per entry, in the order of the list, and the floor records of the
    replies appended in that order. *)
Lemma fetch_floors_prefix b s (sels : list dict) (more : list value) :
  forall replies fls rest acc w,
    pending w = replies ++ rest ->
    List.length replies = List.length sels ->
    map_opt floor_records replies = Some fls ->
    fetch_floors b s (map VDict sels ++ more) acc w =
    fetch_floors b s more (acc ++ List.concat fls)
      {| pending := rest;
         sent := sent w ++ map (floor_request b s) sels;
         console := console w ++ map floor_header sels |}.
Proof.
  induction sels as [|sel sels IH]; intros replies fls rest acc w Hw Hlen Hrec.
  - destruct replies; [|discriminate]. injection Hrec as <-.
    simpl in *. rewrite !app_nil_r, <- Hw.
    destruct w; reflexivity.
  - destruct replies as [|reply replies]; [discriminate|].
    apply map_opt_cons_inv in Hrec as (fl & fls' & Hfl & Hfls & ->).
    simpl in Hlen. injection Hlen as Hlen.
    unfold floor_records in Hfl.
    destruct reply as [|resp]; [discriminate|].
    destruct (status_ok resp) eqn:Hok; [|discriminate].
    destruct (json resp) as [[| | | | |d]|] eqn:Hj; try discriminate.
    destruct (dget d "data" (VDict [])) as [| | | | |data] eqn:Hd;
      try discriminate.
    simpl map. simpl app. simpl fetch_floors.
    unfold bind at 1. simpl. unfold bind at 1. simpl.
    unfold bind at 1. simpl. unfold bind at 1.
    unfold session_call. rewrite Hw. simpl.
    unfold bind at 1. unfold raise_for_status. rewrite Hok. simpl.
    unfold bind at 1. simpl. unfold bind at 1.
    unfold response_json. rewrite Hj. simpl.
    unfold bind at 1. simpl. rewrite Hd. unfold bind at 1. simpl.
    destruct (truthy (dget data "floor" (VList []))) eqn:Ht.
    + destruct (py_iter (dget data "floor" (VList []))) as [items|] eqn:Hi;
        [|discriminate].
      injection Hfl as <-. unfold bind at 1. simpl.
      erewrite IH; [|reflexivity|exact Hlen|exact Hfls].
      simpl. rewrite <- !app_assoc. reflexivity.
    + injection Hfl as <-.
      erewrite IH; [|reflexivity|exact Hlen|exact Hfls].
      simpl. rewrite <- !app_assoc. reflexivity.
Qed.

Lemma fetch_floors_records b s (sels : list dict) :
  forall replies fls rest acc w,
    pending w = replies ++ rest ->
    List.length replies = List.length sels ->
    map_opt floor_records replies = Some fls ->
    fetch_floors b s (map VDict sels) acc w =
    (Ok (acc ++ List.concat fls),
     {| pending := rest;
        sent := sent w ++ map (floor_request b s) sels;
        console := console w ++ map floor_header sels |}).
Proof.
  intros replies fls rest acc w Hw Hlen Hrec.
  rewrite <- (app_nil_r (map VDict sels)).
  erewrite fetch_floors_prefix by eassumption. reflexivity.
Qed.

(** The [try] block once the listing has named floors. *)
Lemma rooms_body_listed b s w resp rest d fsl sels :
  pending w = Response resp :: rest ->
  status_ok resp = true ->
  json resp = JsonValue (VDict d) ->
  dget d "status" VNone = VStr s_success ->
  py_get (dget d "data" (VDict [])) "floorSelect" (VList []) = Ok fsl ->
  truthy fsl = true ->
  py_iter fsl = Ok sels ->
  rooms_body b s w =
  (all_rooms_data <- fetch_floors b s sels [] ;;
   match all_rooms_data with
   | [] => print MNoRooms ;;; ret None
   | _ :: _ =>
       print MListHeader ;;;
       available_beds_found <- display_floors all_rooms_data false ;;
       if negb available_beds_found then
         print MAllFull ;;; ret None
       else
         print MListFooter ;;; ret (Some all_rooms_data)
   end) (after_listing b s w rest).
Proof.
  intros Hw Hok Hj Hst Hg Hfsl Hi.
  apply py_eq_str_eq in Hst.
  unfold rooms_body.
  unfold bind at 1. unfold print at 1. unfold bind at 1.
  unfold session_call. simpl. rewrite Hw.
  unfold bind at 1. unfold raise_for_status. rewrite Hok. simpl.
  unfold bind at 1. simpl. unfold bind at 1.
  unfold response_json. rewrite Hj. simpl.
  unfold bind at 1. simpl. rewrite Hst. simpl.
  unfold bind at 1. simpl. unfold bind at 1. rewrite Hg. simpl.
  rewrite Hfsl. simpl. unfold bind at 1. rewrite Hi. simpl.
  reflexivity.
Qed.

(** When the listing answers with a status other than ['success'],
    [get_and_display_rooms] returns [None] after printing the server's
    message (or the default text when there is none); no floor is
    requested. *)
Theorem get_and_display_rooms_listing_rejected b s w resp rest d :
  pending w = Response resp :: rest ->
  status_ok resp = true ->
  json resp = JsonValue (VDict d) ->
  dget d "status" VNone <> VStr s_success ->
  get_and_display_rooms b s w =
  (Ok None,
   {| pending := rest;
      sent := sent w ++ [PostFloorShow b s None];
      console :=
        console w
        ++ [MStep3; MApiError (dget d "message" (VStr s_unknown_error))] |}).
Proof.
  intros Hw Hok Hj Hst.
  assert (E : py_eq_str (dget d "status" VNone) s_success = false).
  { destruct (py_eq_str _ s_success) eqn:E; [|reflexivity].
    apply py_eq_str_eq in E. contradiction. }
  unfold get_and_display_rooms, rooms_body.
  run_call Hw. rewrite Hok. simpl.
  unfold response_json. rewrite Hj. simpl. rewrite E. simpl.
  rewrite <- app_assoc. reflexivity.
Qed.

Lemma get_and_display_rooms_listing_rejected_witness :
  get_and_display_rooms (lit "36") (lit "7")
    (world_of [json_reply (VDict [(lit "status", VStr (lit "error"))]);
               reply_floor_detail catalog_free])
  = (Ok None,
     {| pending := [reply_floor_detail catalog_free];
        sent := [PostFloorShow (lit "36") (lit "7") None];
        console := [MStep3; MApiError (VStr s_unknown_error)] |}).
Proof.
  apply (@get_and_display_rooms_listing_rejected (lit "36") (lit "7")
           (world_of [json_reply (VDict [(lit "status", VStr (lit "error"))]);
                      reply_floor_detail catalog_free])
           {| status_ok := true; text := [];
              json := JsonValue (VDict [(lit "status", VStr (lit "error"))]) |}
           [reply_floor_detail catalog_free]
           [(lit "status", VStr (lit "error"))] eq_refl eq_refl eq_refl).
  vm_compute. discriminate.
Defined.

(** When the listing succeeds but its floor list is missing or falsy (no
    [data], no [floorSelect], an empty list, [null]),
    [get_and_display_rooms] returns [None] after the no-floor line; no
    floor is requested. *)
Theorem get_and_display_rooms_no_floor b s w resp rest d fsl :
  pending w = Response resp :: rest ->
  status_ok resp = true ->
  json resp = JsonValue (VDict d) ->
  dget d "status" VNone = VStr s_success ->
  py_get (dget d "data" (VDict [])) "floorSelect" (VList []) = Ok fsl ->
  truthy fsl = false ->
  get_and_display_rooms b s w =
  (Ok None,
   {| pending := rest;
      sent := sent w ++ [PostFloorShow b s None];
      console := console w ++ [MStep3; MNoFloors] |}).
Proof.
  intros Hw Hok Hj Hst Hg Hfsl.
  apply py_eq_str_eq in Hst.
  unfold get_and_display_rooms, rooms_body.
  run_call Hw. rewrite Hok. simpl.
  unfold response_json. rewrite Hj. simpl. rewrite Hst. simpl.
  rewrite Hg. simpl. rewrite Hfsl. simpl.
  rewrite <- app_assoc. reflexivity.
Qed.

Lemma get_and_display_rooms_no_floor_witness :
  get_and_display_rooms (lit "36") (lit "7")
    (world_of [json_reply (VDict [(lit "status", VStr (lit "success"))])])
  = (Ok None,
     {| pending := [];
        sent := [PostFloorShow (lit "36") (lit "7") None];
        console := [MStep3; MNoFloors] |}).
Proof.
  apply (@get_and_display_rooms_no_floor (lit "36") (lit "7")
           (world_of [json_reply
                        (VDict [(lit "status", VStr (lit "success"))])])
           {| status_ok := true; text := [];
              json := JsonValue
                        (VDict [(lit "status", VStr (lit "success"))]) |}
           [] [(lit "status", VStr (lit "success"))] (VList [])
           eq_refl eq_refl eq_refl);
    reflexivity.
Defined.

Lemma any_free_nonempty rooms floors :
  view_catalog rooms = Some floors -> any_free floors = true -> rooms <> [].
Proof. intros Hv Hfree ->. injection Hv as <-. discriminate Hfree. Qed.

(** The successful run: when the listing names the floors [sels] and the
    replies to the floor requests can be read, [get_and_display_rooms]
    issues the listing request and then one request per floor, in the
    order of the listing and with the [floorId] of each entry; it returns
    the floor records of the replies concatenated in that order, after
    listing the free beds. *)
Theorem get_and_display_rooms_fan_out
    b s w resp d (sels : list dict) replies fls rest floors :
  pending w = Response resp :: replies ++ rest ->
  status_ok resp = true ->
  json resp = JsonValue (VDict d) ->
  dget d "status" VNone = VStr s_success ->
  py_get (dget d "data" (VDict [])) "floorSelect" (VList [])
  = Ok (VList (map VDict sels)) ->
  sels <> [] ->
  List.length replies = List.length sels ->
  map_opt floor_records replies = Some fls ->
  view_catalog (List.concat fls) = Some floors ->
  any_free floors = true ->
  get_and_display_rooms b s w =
  (Ok (Some (List.concat fls)),
   {| pending := rest;
      sent := sent w
              ++ PostFloorShow b s None :: map (floor_request b s) sels;
      console := console w
                 ++ [MStep3] ++ map floor_header sels
                 ++ [MListHeader] ++ render floors ++ [MListFooter] |}).
Proof.
  intros Hw Hok Hj Hst Hg Hne Hlen Hrec Hv Hfree.
  unfold get_and_display_rooms, try.
  erewrite rooms_body_listed; eauto;
    [|destruct sels; [congruence | reflexivity] | reflexivity].
  unfold bind at 1.
  erewrite fetch_floors_records; [|reflexivity|exact Hlen|exact Hrec].
  change ([] ++ List.concat fls) with (List.concat fls).
  pose proof (any_free_nonempty Hv Hfree) as Hrooms.
  remember (List.concat fls) as rooms eqn:E.
  destruct rooms as [|room0 rooms']; [congruence|].
  unfold print at 1. cbv beta iota. unfold bind at 1. unfold bind at 1.
  erewrite display_floors_view by exact Hv.
  rewrite Hfree. simpl. unfold bind, print, ret, say. simpl.
  rewrite <- !app_assoc. reflexivity.
Qed.

Lemma get_and_display_rooms_fan_out_witness :
  fst (get_and_display_rooms (lit "36") (lit "7")
         (world_of [reply_floor_list; reply_floor_detail catalog_taken;
                    reply_floor_detail catalog_free]))
  = Ok (Some (catalog_taken ++ catalog_free)).
Proof.
  rewrite (@get_and_display_rooms_fan_out (lit "36") (lit "7")
             (world_of [reply_floor_list; reply_floor_detail catalog_taken;
                        reply_floor_detail catalog_free])
             {| status_ok := true; text := [];
                json := JsonValue
                  (VDict [(lit "status", VStr (lit "success"));
                          (lit "data",
                           VDict [(lit "floorSelect",
                             VList [VDict [(lit "floorId", VStr (lit "F3"));
                                           (lit "no", VStr (lit "3F"))];
                                    VDict [(lit "floorId", VStr (lit "F4"));
                                           (lit "no", VStr (lit "4F"))]])])])
             |}
             [(lit "status", VStr (lit "success"));
              (lit "data",
               VDict [(lit "floorSelect",
                 VList [VDict [(lit "floorId", VStr (lit "F3"));
                               (lit "no", VStr (lit "3F"))];
                        VDict [(lit "floorId", VStr (lit "F4"));
                               (lit "no", VStr (lit "4F"))]])])]
             [[(lit "floorId", VStr (lit "F3")); (lit "no", VStr (lit "3F"))];
              [(lit "floorId", VStr (lit "F4")); (lit "no", VStr (lit "4F"))]]
             [reply_floor_detail catalog_taken;
              reply_floor_detail catalog_free]
             [catalog_taken; catalog_free] []
             (sample_view (catalog_taken ++ catalog_free)));
    try reflexivity.
  discriminate.
Defined.

(** When every floor answers without floor records,
    [get_and_display_rooms] has asked for each floor and returns [None]
    after the no-room line. *)
Theorem get_and_display_rooms_no_room
    b s w resp d (sels : list dict) replies fls rest :
  pending w = Response resp :: replies ++ rest ->
  status_ok resp = true ->
  json resp = JsonValue (VDict d) ->
  dget d "status" VNone = VStr s_success ->
  py_get (dget d "data" (VDict [])) "floorSelect" (VList [])
  = Ok (VList (map VDict sels)) ->
  sels <> [] ->
  List.length replies = List.length sels ->
  map_opt floor_records replies = Some fls ->
  List.concat fls = [] ->
  get_and_display_rooms b s w =
  (Ok None,
   {| pending := rest;
      sent := sent w
              ++ PostFloorShow b s None :: map (floor_request b s) sels;
      console := console w ++ [MStep3] ++ map floor_header sels
                 ++ [MNoRooms] |}).
Proof.
  intros Hw Hok Hj Hst Hg Hne Hlen Hrec Hnone.
  unfold get_and_display_rooms, try.
  erewrite rooms_body_listed; eauto;
    [|destruct sels; [congruence | reflexivity] | reflexivity].
  unfold bind at 1.
  erewrite fetch_floors_records; [|reflexivity|exact Hlen|exact Hrec].
  change ([] ++ List.concat fls) with (List.concat fls).
  rewrite Hnone. simpl. unfold bind, print, ret. simpl.
  rewrite <- !app_assoc. reflexivity.
Qed.

Lemma get_and_display_rooms_no_room_witness :
  fst (get_and_display_rooms (lit "36") (lit "7")
         (world_of [reply_floor_list; reply_floor_detail [];
                    json_reply (VDict [])]))
  = Ok None.
Proof.
  rewrite (@get_and_display_rooms_no_room (lit "36") (lit "7")
             (world_of [reply_floor_list; reply_floor_detail [];
                        json_reply (VDict [])])
             {| status_ok := true; text := [];
                json := JsonValue
                  (VDict [(lit "status", VStr (lit "success"));
                          (lit "data",
                           VDict [(lit "floorSelect",
                             VList [VDict [(lit "floorId", VStr (lit "F3"));
                                           (lit "no", VStr (lit "3F"))];
                                    VDict [(lit "floorId", VStr (lit "F4"));
                                           (lit "no", VStr (lit "4F"))]])])])
             |}
             [(lit "status", VStr (lit "success"));
              (lit "data",
               VDict [(lit "floorSelect",
                 VList [VDict [(lit "floorId", VStr (lit "F3"));
                               (lit "no", VStr (lit "3F"))];
                        VDict [(lit "floorId", VStr (lit "F4"));
                               (lit "no", VStr (lit "4F"))]])])]
             [[(lit "floorId", VStr (lit "F3")); (lit "no", VStr (lit "3F"))];
              [(lit "floorId", VStr (lit "F4")); (lit "no", VStr (lit "4F"))]]
             [reply_floor_detail []; json_reply (VDict [])]
             [[]; []] []);
    try reflexivity.
  discriminate.
Defined.

(** A floor request that is not answered ends the aggregation: the floor
    records fetched before it are dropped, the floors after it are not
    asked for, and [get_and_display_rooms] returns [None] after the
    network-error line. *)
Theorem get_and_display_rooms_floor_unanswered
    b s w resp d (sels : list dict) sel more replies fls rest :
  pending w = Response resp :: replies ++ rest ->
  status_ok resp = true ->
  json resp = JsonValue (VDict d) ->
  dget d "status" VNone = VStr s_success ->
  py_get (dget d "data" (VDict [])) "floorSelect" (VList [])
  = Ok (VList (map VDict sels ++ VDict sel :: more)) ->
  List.length replies = List.length sels ->
  map_opt floor_records replies = Some fls ->
  transport_fails (world_of rest) ->
  get_and_display_rooms b s w =
  (Ok None,
   {| pending := tl rest;
      sent := sent w
              ++ PostFloorShow b s None
                 :: map (floor_request b s) (sels ++ [sel]);
      console := console w ++ [MStep3] ++ map floor_header (sels ++ [sel])
                 ++ [MRoomsNetworkError] |}).
Proof.
  intros Hw Hok Hj Hst Hg Hlen Hrec Hfail.
  unfold get_and_display_rooms, try.
  erewrite rooms_body_listed; eauto;
    [|destruct sels; reflexivity | reflexivity].
  unfold bind at 1.
  erewrite fetch_floors_prefix; [|reflexivity|exact Hlen|exact Hrec].
  rewrite !map_app. simpl map.
  unfold transport_fails in Hfail. simpl in Hfail.
  simpl fetch_floors. unfold bind at 1. simpl. unfold bind at 1. simpl.
  unfold bind at 1. simpl. unfold bind at 1. unfold session_call. simpl.
  destruct rest as [|[|resp'] rest']; simpl;
    try (unfold rooms_handler; simpl; unfold bind, print, ret; simpl;
         rewrite <- !app_assoc; reflexivity).
  unfold bind at 1. unfold raise_for_status. rewrite Hfail. simpl.
  unfold bind, print, ret. simpl. rewrite <- !app_assoc. reflexivity.
Qed.

Lemma get_and_display_rooms_floor_unanswered_witness :
  get_and_display_rooms (lit "36") (lit "7")
    (world_of [reply_floor_list; reply_floor_detail catalog_free;
               ConnectionError])
  = (Ok None,
     {| pending := [];
        sent := [PostFloorShow (lit "36") (lit "7") None;
                 PostFloorShow (lit "36") (lit "7") (Some (VStr (lit "F3")));
                 PostFloorShow (lit "36") (lit "7") (Some (VStr (lit "F4")))];
        console := [MStep3; MFloorHeader (VStr (lit "3F"));
                    MFloorHeader (VStr (lit "4F")); MRoomsNetworkError] |}).
Proof.
  apply (@get_and_display_rooms_floor_unanswered (lit "36") (lit "7")
           (world_of [reply_floor_list; reply_floor_detail catalog_free;
                      ConnectionError])
           {| status_ok := true; text := [];
              json := JsonValue
                (VDict [(lit "status", VStr (lit "success"));
                        (lit "data",
                         VDict [(lit "floorSelect",
                           VList [VDict [(lit "floorId", VStr (lit "F3"));
                                         (lit "no", VStr (lit "3F"))];
                                  VDict [(lit "floorId", VStr (lit "F4"));
                                         (lit "no", VStr (lit "4F"))]])])])
           |}
           [(lit "status", VStr (lit "success"));
            (lit "data",
             VDict [(lit "floorSelect",
               VList [VDict [(lit "floorId", VStr (lit "F3"));
                             (lit "no", VStr (lit "3F"))];
                      VDict [(lit "floorId", VStr (lit "F4"));
                             (lit "no", VStr (lit "4F"))]])])]
           [[(lit "floorId", VStr (lit "F3")); (lit "no", VStr (lit "3F"))]]
           [(lit "floorId", VStr (lit "F4")); (lit "no", VStr (lit "4F"))]
           [] [reply_floor_detail catalog_free] [catalog_free]
           [ConnectionError]);
    first [reflexivity | exact I].
Defined.

(** *** What leaves [get_and_display_rooms] *)

Lemma raises_ret P {A} (a : A) : raises P (ret a).
Proof. intros w e w' H. discriminate H. Qed.

Lemma raises_raise (P : exn -> Prop) {A} (e : exn) :
  P e -> raises P (@raise A e).
Proof. intros HP w e' w' [= <- _]. exact HP. Qed.

Lemma raises_lift (P : exn -> Prop) {A} (x : result A) :
  (forall e, x = Err e -> P e) -> raises P (lift x).
Proof.
  intros HP. destruct x; [apply raises_ret | apply raises_raise; auto].
Qed.

Lemma raises_print P (m : msg) : raises P (print m).
Proof. intros w e w' H. discriminate H. Qed.


Lemma raises_session_call req : raises type_error_or_caught (session_call req).
Proof.
  intros w e w' H. apply session_call_inv in H as (_ & _ & _ & ->).
  right; right; reflexivity.
Qed.

Lemma raises_raise_for_status resp :
  raises type_error_or_caught (raise_for_status resp).
Proof.
  intros w e w' H. apply raise_for_status_inv in H as (_ & ->).
  right; right; reflexivity.
Qed.

Lemma raises_response_json resp :
  raises type_error_or_caught (response_json resp).
Proof.
  intros w e w' H. apply response_json_inv in H as (_ & via & _ & ->).
  right; right. unfold caught. simpl. apply orb_true_r.
Qed.

Lemma raises_py_get v k dflt :
  raises type_error_or_caught (lift (py_get v k dflt)).
Proof.
  apply raises_lift. destruct v; simpl; intros e [= <-]; left; reflexivity.
Qed.

Lemma raises_py_iter v : raises type_error_or_caught (lift (py_iter v)).
Proof.
  apply raises_lift.
  destruct v; simpl; intros e [= <-]; right; left; reflexivity.
Qed.

Lemma raises_available_beds beds :
  forall acc, raises type_error_or_caught (lift (available_beds beds acc)).
Proof.
  intros acc. apply raises_lift. revert acc.
  induction beds as [|bed beds IH]; intros acc e; simpl; [discriminate|].
  destruct bed as [| | | | |d]; try (intros [= <-]; left; reflexivity).
  destruct (bed_is_free d); apply IH.
Qed.

#[local] Hint Resolve raises_ret raises_print raises_session_call
  raises_raise_for_status raises_response_json raises_py_get raises_py_iter
  raises_available_beds : frames.










Lemma rooms_requests_shape b s w r w' :
  get_and_display_rooms b s w = (r, w') ->
  exists rs,
    sent w' = sent w ++ PostFloorShow b s None :: rs /\
    Forall (is_floor_request b s) rs.
Proof.
  unfold get_and_display_rooms, try. intros Hrun.
  assert (Hbody : forall rb wb,
             rooms_body b s w = (rb, wb) ->
             exists rs, sent wb = sent w ++ PostFloorShow b s None :: rs /\
                        Forall (is_floor_request b s) rs).
  { unfold rooms_body. intros rb wb H.
    apply bind_cases in H as [(u & w0 & Hp & H) | (e & Hp & _)];
      [|discriminate Hp].
    apply print_inv in Hp as ->.
    apply bind_cases in H as [(resp & w1 & Hc & H) | (e & Hc & ->)].
    - apply session_call_inv in Hc as (Hs & _).
      match type of H with
      | ?c _ = _ =>
          assert (HK : asks (is_floor_request b s) c)
            by (repeat asks_step;
                auto using asks_fetch_floors, asks_offline,
                  offline_display_floors with frames)
      end.
      destruct (HK _ _ _ H) as (rs & E & F).
      exists rs. rewrite E, Hs. simpl. rewrite <- app_assoc. auto.
    - apply session_call_inv in Hc as (Hs & _).
      exists []. rewrite Hs. auto. }
  destruct (rooms_body b s w) as [[res|e] w1] eqn:Hb.
  - injection Hrun as <- <-. eapply Hbody; reflexivity.
  - destruct (Hbody _ _ eq_refl) as (rs & E & F).
    exists rs. split; [|assumption]. rewrite <- E.
    unfold rooms_handler in Hrun.
    destruct (is_RequestException e); [|destruct (is_JSONDecodeError e)];
      injection Hrun as _ <-; reflexivity.
Qed.

Lemma framed_get_and_display_rooms b s :
  framed any_line (get_and_display_rooms b s).
Proof.
  unfold get_and_display_rooms. apply framed_try.
  - apply framed_rooms_body.
  - intros e h. unfold rooms_handler.
    destruct (is_RequestException e); [|destruct (is_JSONDecodeError e)];
      intros [= <-]; repeat frame_step.
Qed.

(** Whatever the replies, the requests of [get_and_display_rooms] are the
    floor listing of the building followed by floor requests of the same
    building: it issues at least one request and never any other kind, in
    particular never the reservation.  It consumes exactly one reply per
    request. *)
Theorem get_and_display_rooms_requests b s w r w' :
  get_and_display_rooms b s w = (r, w') ->
  exists rs,
    sent w' = sent w ++ PostFloorShow b s None :: rs /\
    Forall (is_floor_request b s) rs /\
    pending w' = skipn (S (List.length rs)) (pending w).
Proof.
  intros Hrun.
  destruct (rooms_requests_shape _ _ _ Hrun) as (rs & Hs & HF).
  exists rs. repeat split; auto.
  pose proof (framed_get_and_display_rooms b s) as Fr.
  destruct (Fr _ _ _ Hrun) as (ms & rs' & _ & _ & Hs' & Hp).
  rewrite Hs in Hs'. apply app_inv_head in Hs'. subst rs'. exact Hp.
Qed.

Lemma get_and_display_rooms_requests_witness :
  let w := world_of [reply_floor_list; bad_json_reply;
                     reply_floor_detail catalog_free] in
  exists rs,
    sent (snd (get_and_display_rooms (lit "36") (lit "7") w))
    = sent w ++ PostFloorShow (lit "36") (lit "7") None :: rs /\
    Forall (is_floor_request (lit "36") (lit "7")) rs /\
    pending (snd (get_and_display_rooms (lit "36") (lit "7") w))
    = skipn (S (List.length rs)) (pending w).
Proof.
  intros w.
  apply (@get_and_display_rooms_requests (lit "36") (lit "7") w
           (fst (get_and_display_rooms (lit "36") (lit "7") w))).
  vm_compute. reflexivity.
Defined.

(** A catalog that [get_and_display_rooms] returns is never empty, has a
    dictionary for every floor, room and bed, and offers at least one bed
    with the marker ['notCho']; the listing then ends with the footer
    line. *)
Theorem get_and_display_rooms_returns_offer b s w rooms w' :
  get_and_display_rooms b s w = (Ok (Some rooms), w') ->
  rooms <> [] /\
  (exists floors,
      view_catalog rooms = Some floors /\
      exists room bed,
        In room (flat_rooms floors) /\ In bed (room_beds room) /\
        dget bed "choose" VNone = VStr s_notCho) /\
  exists ms, console w' = console w ++ ms ++ [MListFooter].
Proof.
  intros Hrun. apply get_and_display_rooms_outcome in Hrun as [Hout _].
  inversion Hout as [| | |rooms' floors ms w'' Hv Hne Hfree HP Hc]; subst.
  split; [assumption|]. split; [|eauto].
  exists floors. split; [assumption|].
  unfold any_free in Hfree.
  apply existsb_exists in Hfree as (room & Hroom & Hfree).
  apply existsb_exists in Hfree as (bed & Hbed & Hfree).
  apply bed_is_free_eq in Hfree. eauto.
Qed.

Lemma get_and_display_rooms_returns_offer_witness :
  let w := world_of [reply_floor_list; reply_floor_detail catalog_taken;
                     reply_floor_detail catalog_free] in
  catalog_taken ++ catalog_free <> [] /\
  (exists floors,
      view_catalog (catalog_taken ++ catalog_free) = Some floors /\
      exists room bed,
        In room (flat_rooms floors) /\ In bed (room_beds room) /\
        dget bed "choose" VNone = VStr s_notCho) /\
  exists ms,
    console (snd (get_and_display_rooms (lit "36") (lit "7") w))
    = console w ++ ms ++ [MListFooter].
Proof.
  intros w.
  apply (@get_and_display_rooms_returns_offer (lit "36") (lit "7") w
           (catalog_taken ++ catalog_free)
           (snd (get_and_display_rooms (lit "36") (lit "7") w))).
  vm_compute. reflexivity.
Defined.

(** ** [select_bed] *)

Lemma resolve_rooms_first_truthy (rn bn : pystr) (pre post : list room_view)
    r :
  forall t t1,
    (forall x tx, In x pre -> room_hit rn bn x = Some tx ->
                  truthy (target_bed_id tx) = false) ->
    room_hit rn bn r = Some t1 ->
    truthy (target_bed_id t1) = true ->
    resolve_rooms rn bn (pre ++ r :: post) t = t1.
Proof.
  induction pre as [|x pre IH]; intros t t1 Hpre Hr H1; simpl.
  - rewrite Hr, H1; reflexivity.
  - destruct (room_hit rn bn x) as [tx|] eqn:E.
    + rewrite (Hpre x tx (or_introl eq_refl) E).
      apply IH; auto. intros y ty Hy. apply Hpre. right; assumption.
    + apply IH; auto. intros y ty Hy. apply Hpre. right; assumption.
Qed.

Lemma last_app_nonempty {A} (l l' : list A) (d : A) :
  l' <> [] -> last (l ++ l') d = last l' d.
Proof.
  intros Hne. induction l as [|x l IH]; simpl; [reflexivity|].
  rewrite IH. destruct (l ++ l') eqn:E; [|reflexivity].
  apply app_eq_nil in E as [_ E]. contradiction.
Qed.

Lemma room_hit_find (rn bn : pystr) (r : room_view) bed :
  room_named rn r = true ->
  find (bed_matches bn) (room_beds r) = Some bed ->
  room_hit rn bn r = Some (targets_of (room_dict r) bed).
Proof. intros Hn Hf. unfold room_hit. rewrite Hn, Hf. reflexivity. Qed.

Lemma room_hit_find_inv (rn bn : pystr) (r : room_view) t :
  room_hit rn bn r = Some t ->
  room_named rn r = true /\
  exists bed, find (bed_matches bn) (room_beds r) = Some bed /\
              t = targets_of (room_dict r) bed.
Proof.
  unfold room_hit. destruct (room_named rn r); [|discriminate].
  destruct (find _ _) as [bed|]; [|discriminate].
  intros [= <-]. eauto.
Qed.

(** [select_bed] always returns: no exception leaves it, whatever the
    catalog holds and whatever the server answers.  It issues no request
    or exactly one, the reservation. *)
Theorem select_bed_always_returns cat p o w :
  exists w',
    select_bed cat p o w = (Ok tt, w') /\
    (sent w' = sent w /\ pending w' = pending w \/
     exists data,
       sent w' = sent w ++ [PostSaveChosen data] /\
       pending w' = tl (pending w)).
Proof.
  destruct (scan_floors (strip (room_line o)) (strip (bed_line o)) cat
              no_targets) as [t|e] eqn:Hs.
  - destruct (all_targets t) eqn:Ha.
    + destruct (confirms o) eqn:Hc.
      * rewrite (select_bed_submitted _ p o w Hs Ha Hc).
        eexists. split; [reflexivity|]. right. eexists. simpl. eauto.
      * rewrite (select_bed_cancelled _ p o w Hs Ha Hc).
        eexists. split; [reflexivity|]. left. auto.
    + rewrite (select_bed_not_found _ p o w Hs Ha).
      eexists. split; [reflexivity|]. left. auto.
  - destruct (select_bed_scan_error _ p o w Hs) as [m ->].
    eexists. split; [reflexivity|]. left. auto.
Qed.

(** A room with the operator's room name whose matching bed has a truthy
    identifier ends the scan; when that room's own [id] or [floorId] is
    falsy, the selection is reported as not found and no request is
    issued, even when a later room of the same name is complete. *)
Theorem select_bed_incomplete_room_blocks cat floors p o w
    pre room post bed :
  view_catalog cat = Some floors ->
  flat_rooms floors = pre ++ room :: post ->
  (forall x, In x pre -> room_named (strip (room_line o)) x = true ->
     forall b, In b (room_beds x) ->
       bed_matches (strip (bed_line o)) b = false) ->
  room_named (strip (room_line o)) room = true ->
  find (bed_matches (strip (bed_line o))) (room_beds room) = Some bed ->
  truthy (dget bed "id" VNone) = true ->
  truthy (dget (room_dict room) "id" VNone) = false \/
  truthy (dget (room_dict room) "floorId" VNone) = false ->
  select_bed cat p o w =
  (Ok tt,
   {| pending := pending w; sent := sent w;
      console := console w ++ [MStep4; MNotFound] |}).
Proof.
  intros Hv Hflat Hpre Hroom Hbed Hbid Hfalsy.
  pose proof (scan_floors_resolve (strip (room_line o)) (strip (bed_line o))
                _ Hv) as Hs.
  assert (Hr : resolve (strip (room_line o)) (strip (bed_line o)) floors
               = targets_of (room_dict room) bed).
  { unfold resolve. rewrite Hflat. apply resolve_rooms_first_hit.
    - intros x Hx. apply room_hit_none. intros; eapply Hpre; eauto.
    - apply room_hit_find; assumption.
    - exact Hbid. }
  rewrite Hr in Hs.
  rewrite (select_bed_not_found _ p o w Hs); [reflexivity|].
  unfold all_targets. simpl. rewrite Hbid.
  destruct Hfalsy as [-> | ->]; [reflexivity|].
  apply andb_false_r.
Qed.

Lemma select_bed_incomplete_room_blocks_witness :
  select_bed catalog_empty_room_id sample_params operator_yes
    (world_of [reply_success])
  = (Ok tt,
     {| pending := [reply_success]; sent := [];
        console := [MStep4; MNotFound] |}).
Proof.
  refine (@select_bed_incomplete_room_blocks catalog_empty_room_id
            (sample_view catalog_empty_room_id) sample_params operator_yes
            (world_of [reply_success]) []
            (sample_room_view "Block36-314" "" "F3" "1" "B1" "notCho")
            [sample_room_view "Block36-314" "R2" "F3" "1" "B2" "notCho"]
            (sample_bed_dict "1" "B1" "notCho") _ _ _ _ _ _ _);
    try (vm_compute; reflexivity).
  - intros x [].
  - left. reflexivity.
Defined.

(** A matching bed whose identifier is falsy does not end the scan: the
    scan goes on to the later rooms, and the request carries the
    identifiers of the first room whose matching bed has a truthy
    identifier. *)
Theorem select_bed_skips_bed_without_id cat floors p o w
    pre room post bed :
  view_catalog cat = Some floors ->
  flat_rooms floors = pre ++ room :: post ->
  (forall x b, In x pre -> room_named (strip (room_line o)) x = true ->
     find (bed_matches (strip (bed_line o))) (room_beds x) = Some b ->
     truthy (dget b "id" VNone) = false) ->
  room_named (strip (room_line o)) room = true ->
  find (bed_matches (strip (bed_line o))) (room_beds room) = Some bed ->
  all_targets (targets_of (room_dict room) bed) = true ->
  confirms o = true ->
  exists w',
    select_bed cat p o w = (Ok tt, w') /\
    sent w' = sent w
              ++ [PostSaveChosen
                    (make_post_data (targets_of (room_dict room) bed) p)].
Proof.
  intros Hv Hflat Hpre Hroom Hbed Ha Hc.
  pose proof (scan_floors_resolve (strip (room_line o)) (strip (bed_line o))
                _ Hv) as Hs.
  assert (Hr : resolve (strip (room_line o)) (strip (bed_line o)) floors
               = targets_of (room_dict room) bed).
  { unfold resolve. rewrite Hflat. apply resolve_rooms_first_truthy.
    - intros x tx Hx Hhit.
      apply room_hit_find_inv in Hhit as (Hn & b & Hf & ->).
      simpl. eapply Hpre; eauto.
    - apply room_hit_find; assumption.
    - unfold all_targets in Ha. apply andb_true_iff in Ha as [Ha _].
      apply andb_true_iff in Ha as [_ Ha]. exact Ha. }
  rewrite Hr in Hs.
  eexists. split; [apply (select_bed_submitted _ p o w Hs Ha Hc)|].
  reflexivity.
Qed.

Lemma select_bed_skips_bed_without_id_witness :
  exists w',
    select_bed catalog_empty_then_full sample_params operator_yes
      (world_of [reply_success]) = (Ok tt, w') /\
    sent w' =
    [PostSaveChosen
       {| roomId := VStr (lit "R2"); bedId := VStr (lit "B2");
          floorId := VStr (lit "F3"); token := lit "tok";
          buildingId := lit "36"; studentName := lit "Li";
          deptName := lit "CS"; subId := lit "7" |}].
Proof.
  refine (@select_bed_skips_bed_without_id catalog_empty_then_full
            (sample_view catalog_empty_then_full) sample_params operator_yes
            (world_of [reply_success])
            [sample_room_view "Block36-314" "R1" "F3" "1" "" "notCho"]
            (sample_room_view "Block36-314" "R2" "F3" "1" "B2" "notCho") []
            (sample_bed_dict "1" "B2" "notCho") _ _ _ _ _ _ _);
    try (vm_compute; reflexivity).
  intros x b [<-|[]] _ Hf. vm_compute in Hf. injection Hf as <-.
  reflexivity.
Defined.

(** When the reservation request is not answered, or answered with an
    error status, [select_bed] prints the network-error line and returns:
    the request has been issued once and is not repeated. *)
Theorem select_bed_submit_unanswered cat floors p o w :
  view_catalog cat = Some floors ->
  all_targets (resolve (strip (room_line o)) (strip (bed_line o)) floors)
  = true ->
  confirms o = true ->
  transport_fails w ->
  select_bed cat p o w =
  (Ok tt,
   {| pending := tl (pending w);
      sent := sent w
              ++ [PostSaveChosen
                    (make_post_data
                       (resolve (strip (room_line o)) (strip (bed_line o))
                          floors) p)];
      console := console w
                 ++ confirm_msgs (strip (room_line o)) (strip (bed_line o))
                      (resolve (strip (room_line o)) (strip (bed_line o))
                         floors) p
                 ++ [MSubmitting; MSubmitNetworkError] |}).
Proof.
  intros Hv Ha Hc Hfail.
  pose proof (scan_floors_resolve (strip (room_line o)) (strip (bed_line o))
                _ Hv) as Hs.
  rewrite (select_bed_submitted _ p o w Hs Ha Hc).
  unfold transport_fails in Hfail.
  destruct (pending w) as [|[|resp] rest]; simpl; try reflexivity.
  rewrite Hfail. reflexivity.
Qed.

Lemma select_bed_submit_unanswered_witness :
  select_bed catalog_free sample_params operator_yes (world_of [])
  = (Ok tt,
     {| pending := [];
        sent := [PostSaveChosen
                   {| roomId := VStr (lit "R1"); bedId := VStr (lit "B1");
                      floorId := VStr (lit "F3"); token := lit "tok";
                      buildingId := lit "36"; studentName := lit "Li";
                      deptName := lit "CS"; subId := lit "7" |}];
        console :=
          [MStep4; MConfirmHeader;
           MConfirmRoom (lit "Block36-314") (VStr (lit "R1"));
           MConfirmBed (lit "1") (VStr (lit "B1"));
           MPostData
             {| roomId := VStr (lit "R1"); bedId := VStr (lit "B1");
                floorId := VStr (lit "F3"); token := lit "tok";
                buildingId := lit "36"; studentName := lit "Li";
                deptName := lit "CS"; subId := lit "7" |};
           MSubmitting; MSubmitNetworkError] |}).
Proof.
  apply (@select_bed_submit_unanswered catalog_free
           (sample_view catalog_free) sample_params operator_yes
           (world_of [])).
  - vm_compute. reflexivity.
  - vm_compute. reflexivity.
  - vm_compute. reflexivity.
  - exact I.
Defined.

(** When the answer to the reservation request is not a JSON object,
    [select_bed] returns after one line: the network-error line or the
    bad-JSON line for a body that is not JSON (the first when the
    exception raised is also a [RequestException], since that clause comes
    first), the unknown-error line with [AttributeError] for JSON of
    another type.  It never reports success. *)
Theorem select_bed_answer_not_object cat floors p o w resp rest :
  view_catalog cat = Some floors ->
  all_targets (resolve (strip (room_line o)) (strip (bed_line o)) floors)
  = true ->
  confirms o = true ->
  pending w = Response resp :: rest ->
  status_ok resp = true ->
  is_envelope resp = false ->
  exists w',
    select_bed cat p o w = (Ok tt, w') /\
    pending w' = rest /\
    sent w' = sent w
              ++ [PostSaveChosen
                    (make_post_data
                       (resolve (strip (room_line o)) (strip (bed_line o))
                          floors) p)] /\
    last (console w') MStep4 =
    match json resp with
    | JsonInvalid true => MSubmitNetworkError
    | JsonInvalid false => MSubmitBadJson
    | JsonValue _ => MUnknownError AttributeError
    end.
Proof.
  intros Hv Ha Hc Hw Hok Henv.
  pose proof (scan_floors_resolve (strip (room_line o)) (strip (bed_line o))
                _ Hv) as Hs.
  rewrite (select_bed_submitted _ p o w Hs Ha Hc).
  eexists. split; [reflexivity|]. simpl. rewrite Hw. simpl.
  split; [reflexivity|]. split; [reflexivity|].
  rewrite last_app_nonempty by discriminate. simpl. rewrite Hok.
  unfold is_envelope in Henv.
  destruct (json resp) as [[| | | | |d]|[|]]; try reflexivity.
  discriminate.
Qed.

Lemma select_bed_answer_not_object_witness :
  exists w',
    select_bed catalog_free sample_params operator_yes
      (world_of [bad_json_reply]) = (Ok tt, w') /\
    pending w' = [] /\
    last (console w') MStep4 = MSubmitNetworkError.
Proof.
  destruct (@select_bed_answer_not_object catalog_free
              (sample_view catalog_free) sample_params operator_yes
              (world_of [bad_json_reply])
              {| status_ok := true; text := lit "<html>";
                 json := JsonInvalid true |} [])
    as (w' & Hrun & Hp & _ & Hlast);
    try (vm_compute; reflexivity).
  exists w'. auto.
Defined.

(** A catalog whose first floor record is not a dictionary makes the scan
    raise [AttributeError]; [select_bed] catches it, prints the
    unknown-error line and issues no request. *)
Theorem select_bed_malformed_catalog v rest p o w :
  is_dict v = false ->
  select_bed (v :: rest) p o w =
  (Ok tt,
   {| pending := pending w; sent := sent w;
      console := console w ++ [MStep4; MUnknownError AttributeError] |}).
Proof.
  intros Hv.
  unfold select_bed, try, bind, lift. simpl.
  destruct v; try discriminate Hv; simpl; unfold print; simpl;
    rewrite <- app_assoc; reflexivity.
Qed.

Lemma select_bed_malformed_catalog_witness :
  select_bed [VStr (lit "3F")] sample_params operator_yes
    (world_of [reply_success])
  = (Ok tt,
     {| pending := [reply_success]; sent := [];
        console := [MStep4; MUnknownError AttributeError] |}).
Proof.
  apply (@select_bed_malformed_catalog (VStr (lit "3F")) [] sample_params
           operator_yes (world_of [reply_success])).
  reflexivity.
Defined.

(** The two stages compose: on a catalog that [get_and_display_rooms]
    returned, the scan of [select_bed] never raises.  [select_bed] then
    ends with the not-found line or the cancellation notice without a
    request, or issues the reservation for the identifiers the scan
    found. *)
Theorem select_bed_after_aggregation b s w0 rooms w1 p o w :
  get_and_display_rooms b s w0 = (Ok (Some rooms), w1) ->
  exists t w',
    scan_floors (strip (room_line o)) (strip (bed_line o)) rooms no_targets
    = Ok t /\
    select_bed rooms p o w = (Ok tt, w') /\
    (sent w' = sent w /\ last (console w') MStep4 = MNotFound \/
     sent w' = sent w /\ last (console w') MStep4 = MCancelled \/
     sent w' = sent w ++ [PostSaveChosen (make_post_data t p)]).
Proof.
  intros Hrun.
  destruct (get_and_display_rooms_returns_view _ _ _ Hrun)
    as (floors & Hv & _ & _).
  pose proof (scan_floors_resolve (strip (room_line o)) (strip (bed_line o))
                _ Hv) as Hs.
  exists (resolve (strip (room_line o)) (strip (bed_line o)) floors).
  destruct (all_targets (resolve (strip (room_line o)) (strip (bed_line o))
                           floors)) eqn:Ha.
  - destruct (confirms o) eqn:Hc.
    + rewrite (select_bed_submitted _ p o w Hs Ha Hc).
      eexists. split; [assumption|]. split; [reflexivity|].
      right; right. reflexivity.
    + rewrite (select_bed_cancelled _ p o w Hs Ha Hc).
      eexists. split; [assumption|]. split; [reflexivity|].
      right; left. split; [reflexivity|].
      simpl. rewrite last_app_nonempty by discriminate. reflexivity.
  - rewrite (select_bed_not_found _ p o w Hs Ha).
    eexists. split; [assumption|]. split; [reflexivity|].
    left. split; [reflexivity|].
    simpl. rewrite last_app_nonempty by discriminate. reflexivity.
Qed.

Lemma select_bed_after_aggregation_witness :
  let w0 := world_of [reply_floor_list; reply_floor_detail catalog_taken;
                      reply_floor_detail catalog_free] in
  exists t w',
    scan_floors (strip (room_line operator_no)) (strip (bed_line operator_no))
      (catalog_taken ++ catalog_free) no_targets = Ok t /\
    select_bed (catalog_taken ++ catalog_free) sample_params operator_no
      (world_of []) = (Ok tt, w') /\
    (sent w' = sent (world_of []) /\ last (console w') MStep4 = MNotFound \/
     sent w' = sent (world_of []) /\ last (console w') MStep4 = MCancelled \/
     sent w' = sent (world_of [])
               ++ [PostSaveChosen (make_post_data t sample_params)]).
Proof.
  intros w0.
  apply (@select_bed_after_aggregation (lit "36") (lit "7") w0
           (catalog_taken ++ catalog_free)
           (snd (get_and_display_rooms (lit "36") (lit "7") w0))).
  vm_compute. reflexivity.
Defined.

(** ** [main] *)

Lemma get_personal_info_sent L w r w' :
  get_personal_info L w = (r, w') ->
  sent w' = sent w ++ [GetPersonalInfo] /\
  pending w' = tl (pending w) /\ exists v, r = Ok v.
Proof.
  intros Hrun.
  assert (Hfail : transport_fails w ->
                  sent w' = sent w ++ [GetPersonalInfo] /\
                  pending w' = tl (pending w) /\ exists v, r = Ok v).
  { intros Hf. rewrite get_personal_info_unanswered in Hrun by exact Hf.
    injection Hrun as <- <-. simpl. eauto. }
  destruct (pending w) as [|[|resp] rest] eqn:Hw;
    try (apply Hfail; unfold transport_fails; rewrite Hw; exact I).
  destruct (status_ok resp) eqn:Hok;
    [|apply Hfail; unfold transport_fails; rewrite Hw; exact Hok].
  rewrite (get_personal_info_run L _ Hw Hok) in Hrun.
  destruct (find_personal_div L (text resp)) as [div|];
    [destruct (find_all_p L div) as [|p0 [|p1 ps]]|];
    injection Hrun as <- <-; simpl; eauto.
Qed.

Lemma get_selection_params_sent L student dept w r w' :
  get_selection_params L student dept w = (r, w') ->
  sent w' = sent w ++ [GetSelectBeds student dept] /\
  pending w' = tl (pending w) /\ exists v, r = Ok v.
Proof.
  intros Hrun.
  assert (Hfail : transport_fails w ->
                  sent w' = sent w ++ [GetSelectBeds student dept] /\
                  pending w' = tl (pending w) /\ exists v, r = Ok v).
  { intros Hf. rewrite get_selection_params_unanswered in Hrun by exact Hf.
    injection Hrun as <- <-. simpl. eauto. }
  destruct (pending w) as [|[|resp] rest] eqn:Hw;
    try (apply Hfail; unfold transport_fails; rewrite Hw; exact I).
  destruct (status_ok resp) eqn:Hok;
    [|apply Hfail; unfold transport_fails; rewrite Hw; exact Hok].
  rewrite (get_selection_params_run L _ _ _ Hw Hok) in Hrun. simpl in Hrun.
  destruct (find_token_input L (text resp)) as [t|];
    [destruct (attr_value L t) as [tok|];
     [destruct (re_search_assign (lit "subId") (text resp));
      [destruct (re_search_assign (lit "buildingId") (text resp))|]|]|];
    injection Hrun as <- <-; simpl; eauto.
Qed.

Lemma select_bed_sent cat p o w r w' :
  select_bed cat p o w = (r, w') ->
  r = Ok tt /\
  (sent w' = sent w \/
   exists t, sent w' = sent w ++ [PostSaveChosen (make_post_data t p)]).
Proof.
  intros Hrun.
  destruct (scan_floors (strip (room_line o)) (strip (bed_line o)) cat
              no_targets) as [t|e] eqn:Hs.
  - destruct (all_targets t) eqn:Ha.
    + destruct (confirms o) eqn:Hc.
      * rewrite (select_bed_submitted _ p o w Hs Ha Hc) in Hrun.
        injection Hrun as <- <-. simpl. eauto.
      * rewrite (select_bed_cancelled _ p o w Hs Ha Hc) in Hrun.
        injection Hrun as <- <-. auto.
    + rewrite (select_bed_not_found _ p o w Hs Ha) in Hrun.
      injection Hrun as <- <-. auto.
  - destruct (select_bed_scan_error _ p o w Hs) as [m E].
    rewrite E in Hrun. injection Hrun as <- <-. auto.
Qed.

(** Every run of [main] issues its requests in the order of the
    pipeline, each stage with the values the stage before it read: the
    profile page; then the selection page for the name and unit of the
    profile; then the floor listing and floors of one building; then, as
    the last request, the reservation for the same name, unit, building
    and sub-process.  A run stops after any of these steps, and never
    starts with or repeats another request. *)
Theorem main_pipeline_trace L o w r w' :
  main L o w = (r, w') ->
  exists rs, sent w' = sent w ++ rs /\ pipeline_trace rs.
Proof.
  unfold main. intros H.
  apply bind_cases in H as [(id & w1 & H1 & H) | (e & H1 & ->)].
  2: { apply get_personal_info_sent in H1 as (_ & _ & v & Hv).
       discriminate Hv. }
  apply get_personal_info_sent in H1 as (E1 & _ & _).
  destruct id as [[name college]|].
  2: { injection H as _ <-. exists [GetPersonalInfo].
       split; [assumption | constructor]. }
  destruct (negb (str_truthy name) || negb (str_truthy college)).
  { injection H as _ <-. exists [GetPersonalInfo].
    split; [assumption | constructor]. }
  apply bind_cases in H as [(ctx & w2 & H2 & H) | (e & H2 & ->)].
  2: { apply get_selection_params_sent in H2 as (_ & _ & v & Hv).
       discriminate Hv. }
  apply get_selection_params_sent in H2 as (E2 & _ & _).
  assert (Hctx : exists rs, sent w2 = sent w ++ rs /\
                            rs = [GetPersonalInfo; GetSelectBeds name college]).
  { eexists. split; [|reflexivity]. rewrite E2, E1, <- app_assoc.
    reflexivity. }
  destruct ctx as [[[token sub_id] building_id]|].
  2: { injection H as _ <-. destruct Hctx as (rs & E & ->).
       exists [GetPersonalInfo; GetSelectBeds name college].
       split; [assumption | constructor]. }
  destruct (negb (str_truthy token && str_truthy sub_id
                  && str_truthy building_id)).
  { injection H as _ <-. destruct Hctx as (rs & E & ->).
    exists [GetPersonalInfo; GetSelectBeds name college].
    split; [assumption | constructor]. }
  destruct Hctx as (rs & E & ->).
  assert (Hrooms : forall r3 w3,
             get_and_display_rooms building_id sub_id w2 = (r3, w3) ->
             exists floors,
               sent w3 = sent w
                         ++ GetPersonalInfo :: GetSelectBeds name college
                            :: PostFloorShow building_id sub_id None
                            :: floors /\
               Forall (is_floor_request building_id sub_id) floors).
  { intros r3 w3 H3.
    apply rooms_requests_shape in H3 as (floors & E3 & HF).
    exists floors. split; [|assumption].
    rewrite E3, E, <- app_assoc. reflexivity. }
  apply bind_cases in H as [(rooms & w3 & H3 & H) | (e & H3 & ->)].
  2: { destruct (Hrooms _ _ H3) as (floors & E3 & HF).
       eexists. split; [exact E3 | constructor; assumption]. }
  destruct (Hrooms _ _ H3) as (floors & E3 & HF).
  destruct rooms as [[|room0 rooms]|];
    try (injection H as _ <-; eexists;
         split; [exact E3 | constructor; assumption]).
  apply select_bed_sent in H as (_ & [E4 | (t & E4)]).
  - eexists. split; [rewrite E4; exact E3 | constructor; assumption].
  - exists (GetPersonalInfo :: GetSelectBeds name college
            :: PostFloorShow building_id sub_id None
            :: floors ++ [PostSaveChosen
                            (make_post_data t
                               {| p_token := token;
                                  p_buildingId := building_id;
                                  p_studentName := name;
                                  p_subId := sub_id;
                                  p_deptName := college |})]).
    split.
    + rewrite E4, E3, <- app_assoc. reflexivity.
    + apply TraceReserve; auto.
Qed.

Lemma main_pipeline_trace_witness :
  let w := world_of [page_reply sample_page; page_reply sample_page;
                     reply_floor_list; reply_floor_detail catalog_free;
                     reply_floor_detail []; reply_success] in
  exists rs,
    sent (snd (main sample_lib operator_yes w)) = sent w ++ rs /\
    pipeline_trace rs.
Proof.
  intros w.
  apply (@main_pipeline_trace sample_lib operator_yes w
           (fst (main sample_lib operator_yes w))).
  vm_compute. reflexivity.
Defined.



(** [main] hands [select_bed] the catalog of the third stage and exactly
    the five values the first two stages read: the token, the building
    and the sub-process of the selection page, the name and the unit of
    the profile.  It does so only when name, unit and token are not
    empty. *)
Theorem main_hands_over L o w name college w1 tok sub bld w2 rooms w3 :
  get_personal_info L w = (Ok (Some (name, college)), w1) ->
  name <> [] -> college <> [] ->
  get_selection_params L name college w1 = (Ok (Some (tok, sub, bld)), w2) ->
  tok <> [] ->
  get_and_display_rooms bld sub w2 = (Ok (Some rooms), w3) ->
  main L o w =
  select_bed rooms
    {| p_token := tok; p_buildingId := bld; p_studentName := name;
       p_subId := sub; p_deptName := college |} o w3.
Proof.
  intros H1 Hname Hcollege H2 Htok H3.
  destruct (get_selection_params_returns_ids _ _ _ _ H2)
    as (page & (? & ? & _ & Hsub) & (? & ? & _ & Hbld)).
  apply assignment_value in Hsub as [Hsub _].
  apply assignment_value in Hbld as [Hbld _].
  destruct (get_and_display_rooms_returns_view _ _ _ H3)
    as (floors & _ & Hrooms & _).
  unfold main, bind. rewrite H1.
  destruct name; [congruence|]. destruct college; [congruence|]. simpl.
  rewrite H2.
  destruct tok; [congruence|]. destruct sub; [congruence|].
  destruct bld; [congruence|]. simpl.
  rewrite H3. destruct rooms; [congruence|]. reflexivity.
Qed.

Lemma main_hands_over_witness :
  let w := world_of [page_reply sample_page; page_reply sample_page;
                     reply_floor_list; reply_floor_detail catalog_free;
                     reply_floor_detail []; reply_success] in
  sent (snd (main sample_lib operator_yes w))
  = [GetPersonalInfo; GetSelectBeds (lit "Li") (lit "CS");
     PostFloorShow (lit "36") (lit "7") None;
     PostFloorShow (lit "36") (lit "7") (Some (VStr (lit "F3")));
     PostFloorShow (lit "36") (lit "7") (Some (VStr (lit "F4")));
     PostSaveChosen
       {| roomId := VStr (lit "R1"); bedId := VStr (lit "B1");
          floorId := VStr (lit "F3"); token := lit "tok";
          buildingId := lit "36"; studentName := lit "Li";
          deptName := lit "CS"; subId := lit "7" |}].
Proof.
  intros w.
  rewrite (@main_hands_over sample_lib operator_yes w (lit "Li") (lit "CS")
             (snd (get_personal_info sample_lib w))
             (lit "tok") (lit "7") (lit "36")
             (snd (get_selection_params sample_lib (lit "Li") (lit "CS")
                     (snd (get_personal_info sample_lib w))))
             catalog_free
             (snd (get_and_display_rooms (lit "36") (lit "7")
                     (snd (get_selection_params sample_lib (lit "Li")
                             (lit "CS")
                             (snd (get_personal_info sample_lib w)))))));
    try (vm_compute; reflexivity); discriminate.
Defined.

(** When the name or the unit read from the profile is empty after
    trimming (a field of whitespace only, a second field that is only the
    label), [get_personal_info] still prints its success line, and [main]
    stops there without any message: the profile request is its only
    request. *)
Theorem main_stops_on_empty_identity L o w resp rest div p0 p1 ps :
  pending w = Response resp :: rest ->
  status_ok resp = true ->
  find_personal_div L (text resp) = Some div ->
  find_all_p L div = p0 :: p1 :: ps ->
  strip (tag_text L p0) = [] \/
  strip (remove_all s_college_label (tag_text L p1)) = [] ->
  main L o w =
  (Ok tt,
   {| pending := rest;
      sent := sent w ++ [GetPersonalInfo];
      console :=
        console w
        ++ [MStep1;
            MPersonalOk (strip (tag_text L p0))
              (strip (remove_all s_college_label (tag_text L p1)))] |}).
Proof.
  intros Hw Hok Hdiv Hps Hempty.
  unfold main, bind.
  rewrite (get_personal_info_run L _ Hw Hok), Hdiv, Hps.
  cbv beta iota zeta.
  assert (E : negb (str_truthy (strip (tag_text L p0)))
              || negb (str_truthy
                         (strip (remove_all s_college_label
                                   (tag_text L p1)))) = true).
  { destruct Hempty as [-> | ->]; [reflexivity | apply orb_true_r]. }
  rewrite E. reflexivity.
Qed.

Lemma main_stops_on_empty_identity_witness :
  main (fixed_lib (Some [lit "  "; s_college_label ++ lit "CS"]) None)
    operator_yes (world_of [page_reply []; page_reply sample_page])
  = (Ok tt,
     {| pending := [page_reply sample_page];
        sent := [GetPersonalInfo];
        console := [MStep1; MPersonalOk [] (lit "CS")] |}).
Proof.
  apply (@main_stops_on_empty_identity
           (fixed_lib (Some [lit "  "; s_college_label ++ lit "CS"]) None)
           operator_yes (world_of [page_reply []; page_reply sample_page])
           {| status_ok := true; text := []; json := JsonInvalid true |}
           [page_reply sample_page]
           (FixedDiv [lit "  "; s_college_label ++ lit "CS"])
           (FixedP (lit "  ")) (FixedP (s_college_label ++ lit "CS")) []
           eq_refl eq_refl eq_refl eq_refl).
  left. reflexivity.
Defined.

(** When the token input is there with an empty value,
    [get_selection_params] goes on as with any token, and [main] stops
    after it: the floor listing is never requested. *)
Theorem main_stops_on_empty_token L o w name college w1 resp rest t :
  get_personal_info L w = (Ok (Some (name, college)), w1) ->
  name <> [] -> college <> [] ->
  pending w1 = Response resp :: rest ->
  status_ok resp = true ->
  find_token_input L (text resp) = Some t ->
  attr_value L t = Some [] ->
  exists m,
    main L o w =
    (Ok tt,
     {| pending := rest;
        sent := sent w1 ++ [GetSelectBeds name college];
        console := console w1 ++ [MStep2; m] |}).
Proof.
  intros H1 Hname Hcollege Hw Hok Ht Htok.
  unfold main, bind. rewrite H1.
  destruct name as [|c name]; [congruence|].
  destruct college as [|c' college]; [congruence|]. simpl.
  rewrite (get_selection_params_run L _ _ _ Hw Hok), Ht, Htok.
  destruct (re_search_assign (lit "subId") (text resp)) as [sub|];
    [destruct (re_search_assign (lit "buildingId") (text resp)) as [bld|]|];
    eexists; reflexivity.
Qed.

Lemma main_stops_on_empty_token_witness :
  exists m,
    main (fixed_lib (Some [lit "Li"; lit "CS"]) (Some (Some [])))
      operator_yes
      (world_of [page_reply []; page_reply sample_page; reply_floor_list])
    = (Ok tt,
       {| pending := [reply_floor_list];
          sent := [GetPersonalInfo; GetSelectBeds (lit "Li") (lit "CS")];
          console := [MStep1; MPersonalOk (lit "Li") (lit "CS"); MStep2; m] |}).
Proof.
  apply (@main_stops_on_empty_token
           (fixed_lib (Some [lit "Li"; lit "CS"]) (Some (Some [])))
           operator_yes
           (world_of [page_reply []; page_reply sample_page;
                      reply_floor_list])
           (lit "Li") (lit "CS")
           {| pending := [page_reply sample_page; reply_floor_list];
              sent := [GetPersonalInfo];
              console := [MStep1; MPersonalOk (lit "Li") (lit "CS")] |}
           {| status_ok := true; text := sample_page;
              json := JsonInvalid true |}
           [reply_floor_list] (FixedInput (Some [])));
    try reflexivity; discriminate.
Defined.
